(** * zenodb: ingest core and query planner

    A shallow embedding of [insert.go] (package zenodb) and
    [planner/planner.go] (package planner), with the properties of
    their specification stated and proved over it.

    Layout:
    - [Go]        the few Go notions the two files rely on (strings
                  helpers, panics);
    - [encoding]  the wire helpers of package encoding used by the
                  ingest path;
    - [wal]       the write-ahead log seen through the two calls the
                  ingest path makes;
    - [zenodb]    insert.go;
    - [planner]   planner/planner.go. *)

From Stdlib Require Import ZArith NArith Lia List String Ascii Floats.
From stdpp Require Import base option list strings gmap.
From coqutil Require Import Byte Word.Interface Word.Properties Word.Naive
  Word.LittleEndianList.
Import ListNotations.

Local Open Scope string_scope.
Local Open Scope Z_scope.

(* ================================================================== *)
(** * Go notions *)
(* ================================================================== *)

Module Go.

(** Run-time panics the embedded code can raise. *)
Inductive panic : Type :=
| IndexOutOfRange      (* v[i] with i >= len(v) *)
| SliceOutOfRange      (* b[:l], b[l:] with l > len(b) *)
| TypeAssertion.       (* x.(bool) on a value that is not a bool *)

(** A computation that either yields a value or panics. *)
Inductive res (A : Type) : Type :=
| Ok (a : A)
| Panic (p : panic).
Arguments Ok {A} a.
Arguments Panic {A} p.

Definition bind {A B} (m : res A) (k : A -> res B) : res B :=
  match m with
  | Ok a => k a
  | Panic p => Panic p
  end.

(** [float64(v)] for an [int] v: round to nearest even, as IEEE 754
    and [PrimFloat.of_uint63] both do; the sign is handled apart
    because the primitive conversion takes an unsigned 63-bit
    integer. *)
Definition float64_of_int (v : Z) : float :=
  if v =? - 2 ^ 63
  then PrimFloat.opp (PrimFloat.mul 2%float (PrimFloat.of_uint63 (Uint63.of_Z (2 ^ 62))))
  else if v <? 0 then PrimFloat.opp (PrimFloat.of_uint63 (Uint63.of_Z (- v)))
  else PrimFloat.of_uint63 (Uint63.of_Z v).

(** [interface{}] values, by dynamic type, as far as the code
    distinguishes them. *)
Inductive value : Type :=
| Nil
| Bool (b : bool)
| Float64 (f : float)
| Int (i : Z)
| Float64s (v : list float)
| Ints (v : list Z)
| Str (s : string)
| Other (typ : string).     (* any other dynamic type, by its name *)

(** The builtin [copy(dst, src)]: as many elements as the shorter of
    the two holds; the result is the new content of [dst]. *)
Definition copy {A} (dst src : list A) : list A :=
  take (length dst) src ++ drop (length src) dst.

End Go.

(** The panic monad, with stdpp's notation [x ← m; k]. *)
#[global] Instance res_ret : MRet Go.res := @Go.Ok.
#[global] Instance res_bind : MBind Go.res := fun A B k m => Go.bind m k.

(* ================================================================== *)
(** * Package encoding *)
(* ================================================================== *)

Module encoding.

(** Modelled from the spec: a timestamp is an instant with nanosecond
    precision that the wire carries as a 64-bit value, its Unix time
    in nanoseconds; [Time] is that 64-bit word.  [Before] reads it as
    a signed number, as Unix times are. *)
Definition Time : Type := @word.rep 64 Naive.word64.

Definition Before (a b : Time) : bool := word.lts a b.

(** [encoding.Binary], the byte order of every fixed-width field. *)
Inductive ByteOrder : Type := BigEndian | LittleEndian.

Definition Width32bits : nat := 4.
Definition Width64bits : nat := 8.

(** [make([]byte, n)] *)
Definition make (n : nat) : list byte := repeat Byte.x00 n.

Section WithBinary.
Variable Binary : ByteOrder.

(** Modelled from the spec: package encoding is outside the two
    files embedded here.  [PutUint n b v] stores the low [8 * n] bits of
    [v] in the first [n] bytes of the buffer [b], in the order
    [Binary] fixes; [Uint n b] reads them back. *)
Definition PutUint (n : nat) (b : list byte) (v : Z) : list byte :=
  match Binary with
  | LittleEndian => le_split n v
  | BigEndian => rev (le_split n v)
  end ++ drop n b.

Definition Uint (n : nat) (b : list byte) : Z :=
  match Binary with
  | LittleEndian => le_combine (take n b)
  | BigEndian => le_combine (rev (take n b))
  end.

(** Modelled from the spec: [EncodeTime(b, ts)] writes enc64(ts)
    into [b]; [TimeFromBytes] is its inverse. *)
Definition EncodeTime (b : list byte) (ts : Time) : list byte :=
  PutUint Width64bits b (word.unsigned ts).

Definition TimeFromBytes (b : list byte) : Time :=
  word.of_Z (Uint Width64bits b).

(** Modelled from the spec: [WriteInt32(b, i)] writes enc32(i),
    the [int] converted to uint32, into [b]. *)
Definition WriteInt32 (b : list byte) (i : Z) : list byte :=
  PutUint Width32bits b (i mod 2 ^ 32).

(** Modelled from the spec: [Read(b, l)] splits [b] after [l]
    bytes, [b[:l], b[l:]]; it panics when [b] is shorter. *)
Definition Read (b : list byte) (l : Z) : Go.res (list byte * list byte) :=
  if (0 <=? l) && (l <=? Z.of_nat (length b))
  then Go.Ok (take (Z.to_nat l) b, drop (Z.to_nat l) b)
  else Go.Panic Go.SliceOutOfRange.

(** Modelled from the spec: [ReadInt32(b)] decodes enc32 at the
    head of [b] as an [int] and returns the rest. *)
Definition ReadInt32 (b : list byte) : Go.res (Z * list byte) :=
  if (Width32bits <=? length b)%nat
  then Go.Ok (Uint Width32bits b, drop Width32bits b)
  else Go.Panic Go.IndexOutOfRange.

End WithBinary.

(** Modelled from the spec: [NewTSParams(ts, vals)] pairs the
    timestamp with the raw values. *)
Record TSParams : Type := NewTSParams { tsp_ts : Time; tsp_vals : list byte }.

End encoding.

(* ================================================================== *)
(** * The write-ahead log *)
(* ================================================================== *)

Module wal.

(** An error is known by its message. *)
Definition error : Type := string.

(** A position in the log. *)
Definition Offset : Type := Z.

(** The log (github.com/getlantern/wal) as the ingest path sees it:
    [calls] keeps every [Write] made so far, oldest first, with its
    outcome; [pending] holds the outcomes the next writes will meet
    (a failing disk, a closed log), and once it is used up every
    write succeeds. *)
Record WAL : Type := mkWAL {
  calls : list (list byte * option error);
  pending : list (option error)
}.

(** [w.Write(bufs...)]: one frame, the buffers one after the other. *)
Definition Write (w : WAL) (bufs : list (list byte)) : option error * WAL :=
  let frame := concat bufs in
  match pending w with
  | [] => (None, mkWAL (calls w ++ [(frame, None)]) [])
  | r :: rest => (r, mkWAL (calls w ++ [(frame, r)]) rest)
  end.

(** The frames the log holds: those of the writes that succeeded. *)
Definition entries (w : WAL) : list (list byte) :=
  omap (fun c => match snd c with None => Some (fst c) | Some _ => None end) (calls w).

(** The frames handed to [Write], whatever came of them. *)
Definition offered (w : WAL) : list (list byte) := map fst (calls w).

End wal.

(* ================================================================== *)
(** * Package zenodb: insert.go *)
(* ================================================================== *)

Module zenodb.
Import encoding.

Definition error : Type := wal.error.

(** [bytemap.ByteMap] is a byte slice. *)
Definition ByteMap : Type := list byte.

(** What the loggers are told. *)
Inductive LogEntry : Type :=
| LogUnsupported (key : string) (v : Go.value)
    (* "Insert contained value '%v' of unsupported type %v, ignoring" *)
| LogError (e : error)
| LogPanic (p : Go.panic).   (* "Panic in inserting: %v" *)

(** [db.opts]: [Follow] is a function or nil, only tested against
    nil here. *)
Inductive FollowFunc : Type := followFunc.

Record DBOpts : Type := mkDBOpts {
  Follow : option FollowFunc;
  Partition : Z
}.

Record DB : Type := mkDB {
  opts : DBOpts;
  streams : gmap string wal.WAL;
  clock : Time;
  log : list LogEntry
}.

Definition DB_log (db : DB) (e : LogEntry) : DB :=
  mkDB (opts db) (streams db) (clock db) (log db ++ [e]).

Definition DB_setStream (db : DB) (stream : string) (w : wal.WAL) : DB :=
  mkDB (opts db) (<[stream := w]> (streams db)) (clock db) (log db).

Section Ingest.
Variable Binary : ByteOrder.

(** The bytemap library (github.com/getlantern/bytemap) through
    the calls made on it: [IterateValues bm] lists the keys and
    decoded values of [bm] in the order the callback sees them,
    [Build] makes the map of the pairs its callback includes (run
    once over them), [New] encodes a Go map. *)
Variable IterateValues : ByteMap -> list (string * Go.value).
Variable Build : list (string * Go.value) -> ByteMap.
Variable New : gmap string Go.value -> ByteMap.

(** [strings.ToLower] and [strings.TrimSpace] of the standard
    library, which know of every letter and of every white space of
    Unicode. *)
Variable ToLower : string -> string.
Variable TrimSpace : string -> string.

(** The frame [doInsertRaw] hands to the log. *)
Definition frame (ts : Time) (dims vals : ByteMap) : list (list byte) :=
  let tsd := EncodeTime Binary (make Width64bits) ts in
  let dimsLen := WriteInt32 Binary (make Width32bits) (Z.of_nat (length dims)) in
  let valsLen := WriteInt32 Binary (make Width32bits) (Z.of_nat (length vals)) in
  [tsd; dimsLen; dims; valsLen; vals].

Definition doInsertRaw (db : DB) (w : wal.WAL) (ts : Time) (dims vals : ByteMap)
  : option error * wal.WAL * DB :=
  let lastErr : option error := None in
  let '(err, w) := wal.Write w (frame ts dims vals) in
  match err with
  | Some e =>
      let db := DB_log db (LogError e) in
      (match lastErr with None => Some e | Some _ => lastErr end, w, db)
  | None => (lastErr, w, db)
  end.

(** The variables the closures of [InsertRaw] share. *)
Record locals : Type := mkLocals {
  l_db : DB;
  l_w : wal.WAL;
  lastErr : option error;
  hasMainValue : bool;
  included : list (string * Go.value)   (* what [_include] was given *)
}.

Definition include (key : string) (val : Go.value) (st : locals) : locals :=
  mkLocals (l_db st) (l_w st) (lastErr st) true (included st ++ [(key, val)]).

(** One turn of the loop over the additional values of a vector. *)
Definition subInsert (ts : Time) (dims : ByteMap) (key : string)
    (st : locals) (val : Go.value) : locals :=
  let subVals := Build [(key, val)] in
  let '(subErr, w, db) := doInsertRaw (l_db st) (l_w st) ts dims subVals in
  mkLocals db w
    (match subErr with Some e => Some e | None => lastErr st end)
    (hasMainValue st) (included st).

(** The callback given to [vals.IterateValues]; it always asks for
    the next pair. *)
Definition visit (ts : Time) (dims : ByteMap) (key : string) (value : Go.value)
    (st : locals) : Go.res locals :=
  match value with
  | Go.Float64 v => Go.Ok (include key (Go.Float64 v) st)
  | Go.Int v => Go.Ok (include key (Go.Float64 (Go.float64_of_int v)) st)
  | Go.Float64s v =>
      match v !! 0%nat with
      | None => Go.Panic Go.IndexOutOfRange
      | Some v0 =>
          let st := include key (Go.Float64 v0) st in
          Go.Ok (fold_left (fun st vi => subInsert ts dims key st (Go.Float64 vi))
                   (drop 1 v) st)
      end
  | Go.Ints v =>
      match v !! 0%nat with
      | None => Go.Panic Go.IndexOutOfRange
      | Some v0 =>
          let st := include key (Go.Float64 (Go.float64_of_int v0)) st in
          Go.Ok (fold_left
                   (fun st vi =>
                      subInsert ts dims key st (Go.Float64 (Go.float64_of_int vi)))
                   (drop 1 v) st)
      end
  | _ =>
      Go.Ok (mkLocals (DB_log (l_db st) (LogUnsupported key value)) (l_w st)
               (lastErr st) (hasMainValue st) (included st))
  end.

(** [vals.IterateValues(cb)]: a panic of the callback ends the
    walk with the variables as they were when it was raised. *)
Fixpoint iterate (ts : Time) (dims : ByteMap) (kvs : list (string * Go.value))
    (st : locals) : locals * option Go.panic :=
  match kvs with
  | [] => (st, None)
  | (key, value) :: rest =>
      match visit ts dims key value st with
      | Go.Ok st' => iterate ts dims rest st'
      | Go.Panic p => (st, Some p)
      end
  end.

(** [InsertRaw] returns the database as the call leaves it, with
    the error it returns or the panic it raises. *)
Definition InsertRaw (db : DB) (stream : string) (ts : Time) (dims vals : ByteMap)
  : DB * Go.res (option error) :=
  match Follow (opts db) with
  | Some _ => (db, Go.Ok (Some "Declining to insert data directly to follower"%string))
  | None =>
      let stream := TrimSpace (ToLower stream) in
      match streams db !! stream with
      | None => (db, Go.Ok (Some ("No wal found for stream " ++ stream)%string))
      | Some w =>
          let '(st, p) :=
            iterate ts dims (IterateValues vals) (mkLocals db w None false []) in
          match p with
          | Some p => (DB_setStream (l_db st) stream (l_w st), Go.Panic p)
          | None =>
              let mainVals := Build (included st) in
              if hasMainValue st then
                let '(insertErr, w, db) :=
                  doInsertRaw (l_db st) (l_w st) ts dims mainVals in
                (DB_setStream db stream w,
                 Go.Ok (match insertErr with Some e => Some e | None => lastErr st end))
              else (DB_setStream (l_db st) stream (l_w st), Go.Ok (lastErr st))
          end
      end
  end.

Definition Insert (db : DB) (stream : string) (ts : Time)
    (dims vals : gmap string Go.value) : DB * Go.res (option error) :=
  InsertRaw db stream ts (New dims) (New vals).

(* -------------------------------------------------------------- *)
(** ** The table side *)

(** An expression (goexpr.Expr) through [Eval]. *)
Definition Expr : Type := ByteMap -> Go.value.

Record GroupBy : Type := mkGroupBy { Name : string; GExpr : Expr }.

(** Modelled from the spec: the item handed to the row store,
    [(key, tsparams, originalDims, offset, source)]; nil is
    [None]. *)
Record rowInsert : Type := mkInsert {
  key : option ByteMap;
  tsparams : option TSParams;
  dims : option ByteMap;
  offset : wal.Offset;
  source : Z
}.

(** Modelled from the spec: the table's counters.  They are
    unsigned and no width is given: natural numbers. *)
Record TableStats : Type := mkStats {
  FilteredPoints : N;
  InsertedPoints : N;
  QueuedPoints : N;
  SkippedPoints : N
}.

(** [walRead]; a nil [data] is [None]. *)
Record walRead : Type := mkWalRead {
  data : option (list byte);
  r_offset : wal.Offset;
  r_source : Z
}.

(** The table with what it points to: its database, the result of
    [getWhere()], and its row store as the queue of the items
    given to [rowStore.insert], oldest first. *)
Record table : Type := mkTable {
  db : DB;
  getWhere : option Expr;
  t_GroupBy : list GroupBy;
  PartitionBy : list string;
  rowStore : list rowInsert;
  stats : TableStats;
  tlog : list LogEntry
}.

(** Methods of the table and of the database declared in other
    files, and the hasher with the function that makes it. *)
Variable Hash32 : Type.
Variable partitionHash : Hash32.
Variable truncateBefore : table -> Time.
Variable inPartition : Hash32 -> ByteMap -> list string -> Z -> bool.
Variable FromSortedKeysAndValues : list string -> list Go.value -> ByteMap.

Definition table_setStats (t : table) (s : TableStats) : table :=
  mkTable (db t) (getWhere t) (t_GroupBy t) (PartitionBy t) (rowStore t) s (tlog t).

(** Modelled from the spec: [t.rowStore.insert(item)] enqueues. *)
Definition rowStore_insert (t : table) (item : rowInsert) : table :=
  mkTable (db t) (getWhere t) (t_GroupBy t) (PartitionBy t)
    (rowStore t ++ [item]) (stats t) (tlog t).

(** [t.db.clock.Advance(ts)]: the clock never goes back. *)
Definition clock_Advance (t : table) (ts : Time) : table :=
  let d := db t in
  let d' := mkDB (opts d) (streams d)
              (if Before (clock d) ts then ts else clock d) (log d) in
  mkTable d' (getWhere t) (t_GroupBy t) (PartitionBy t) (rowStore t) (stats t) (tlog t).

Definition table_log (t : table) (e : LogEntry) : table :=
  mkTable (db t) (getWhere t) (t_GroupBy t) (PartitionBy t) (rowStore t) (stats t)
    (tlog t ++ [e]).

(** The loop of [doInsert] over [t.GroupBy]: names and values of
    the expressions that do not evaluate to nil. *)
Fixpoint reslice (gs : list GroupBy) (dims : ByteMap)
    (names : list string) (values : list Go.value) : list string * list Go.value :=
  match gs with
  | [] => (names, values)
  | groupBy :: gs' =>
      match GExpr groupBy dims with
      | Go.Nil => reslice gs' dims names values
      | val => reslice gs' dims (names ++ [Name groupBy]) (values ++ [val])
      end
  end.

(** [doInsert].  The one panic it can raise, the assertion
    [ok.(bool)], comes before anything is changed; trace logging
    and [capMemorySize] leave the state in view as it is. *)
Definition doInsert (t : table) (ts : Time) (dims vals : ByteMap)
    (offset : wal.Offset) (source : Z) : Go.res (table * bool) :=
  let admitted :=
    let t := clock_Advance t ts in
    let key :=
      if (length (t_GroupBy t) =? 0)%nat then dims
      else
        let '(names, values) := reslice (t_GroupBy t) dims [] [] in
        FromSortedKeysAndValues names values in
    let tsparams := NewTSParams ts vals in
    let t := rowStore_insert t (mkInsert (Some key) (Some tsparams) (Some dims) offset source) in
    let s := stats t in
    let t := table_setStats t
               (mkStats (FilteredPoints s) (InsertedPoints s + 1)%N
                  (QueuedPoints s) (SkippedPoints s)) in
    Go.Ok (t, true) in
  match getWhere t with
  | Some where_ =>
      match where_ dims with
      | Go.Bool true => admitted
      | Go.Bool false =>
          let s := stats t in
          Go.Ok (table_setStats t
                   (mkStats (FilteredPoints s + 1)%N (InsertedPoints s)
                      (QueuedPoints s) (SkippedPoints s)), false)
      | _ => Go.Panic Go.TypeAssertion
      end
  | None => admitted
  end.

(** [insert]: the deferred [recover] turns a panic into a log line
    and the zero result, false. *)
Definition insert (t : table) (data : list byte) (isFollower : bool) (h : Hash32)
    (offset : wal.Offset) (source : Z) : table * bool :=
  let body : Go.res (table * bool) :=
    '(tsd, remain) ← Read data (Z.of_nat Width64bits);
    let ts := TimeFromBytes Binary tsd in
    if Before ts (truncateBefore t) then Go.Ok (t, false)
    else
      '(dimsLen, remain) ← ReadInt32 Binary remain;
      '(dims, remain) ← Read remain dimsLen;
      if isFollower && negb (inPartition h dims (PartitionBy t) (Partition (opts (db t))))
      then Go.Ok (t, false)
      else
        '(valsLen, remain) ← ReadInt32 Binary remain;
        '(vals, _) ← Read remain valsLen;
        let dimsBM := Go.copy (make (length dims)) dims in
        let valsBM := Go.copy (make (length vals)) vals in
        doInsert t ts dimsBM valsBM offset source in
  match body with
  | Go.Ok r => r
  | Go.Panic p => (table_log t (LogPanic p), false)
  end.

(** [skip] tells the row store of an offset with nothing to store. *)
Definition skip (t : table) (offset : wal.Offset) (source : Z) : table :=
  rowStore_insert t (mkInsert None None None offset source).

Definition recordQueued (t : table) : table :=
  let s := stats t in
  table_setStats t
    (mkStats (FilteredPoints s) (InsertedPoints s) (QueuedPoints s + 1)%N
       (SkippedPoints s)).

(** The counters [processInserts] keeps for its rate logging. *)
Record counters : Type := mkCounters { inserted : Z; skipped : Z; bytesRead : Z }.

(** One [case read := <-in] of [processInserts]; [minutePassed]
    is the outcome of [delta > 1*time.Minute] at that turn. *)
Definition processRead (isFollower : bool) (h : Hash32)
    (st : table * counters) (ev : walRead * bool) : table * counters :=
  let '(t, c) := st in
  let '(read, minutePassed) := ev in
  match data read with
  | None => (t, c)
  | Some d =>
      let c := mkCounters (inserted c) (skipped c) (bytesRead c + Z.of_nat (length d)) in
      let '(t, c) :=
        let '(t, ok) := insert t d isFollower h (r_offset read) (r_source read) in
        if ok then (t, mkCounters (inserted c + 1) (skipped c) (bytesRead c))
        else (skip t (r_offset read) (r_source read),
              mkCounters (inserted c) (skipped c + 1) (bytesRead c)) in
      if minutePassed then (t, mkCounters 0 0 0) else (t, c)
  end.

(** [processInserts] over the reads that arrive before [stop];
    handing the buffer back to [walBuffers] changes nothing in view. *)
Definition processInserts (t : table) (reads : list (walRead * bool))
  : table * counters :=
  let isFollower := match Follow (opts (db t)) with Some _ => true | None => false end in
  let h := partitionHash in
  fold_left (processRead isFollower h) reads (t, mkCounters 0 0 0).

End Ingest.
End zenodb.

(* ================================================================== *)
(** * Package planner: planner.go *)
(* ================================================================== *)

Module planner.

(** Errors.  The package-level error values are compared by
    identity ([err != core.ErrDeadlineExceeded]), so each is a
    constructor; any other error is known by its message. *)
Inductive error : Type :=
| ErrNestedFromSubquery    (* errors.New("nested FROM subqueries not supported") *)
| ErrDeadlineExceeded      (* core.ErrDeadlineExceeded *)
| ErrOther (msg : string).

Definition ByteMap : Type := list byte.

Section Planner.

(** [time.Time] and [time.Duration] through the calls made on
    them; a duration is a number of nanoseconds. *)
Variable Time : Type.
Variable IsZero : Time -> bool.
Variable UnixNano : Time -> Z.
Variable Add : Time -> Z -> Time.

(** Types of packages core and sql that the planner only passes
    along; [SubState] is what the sub-queries of a WHERE clause
    have produced so far, which the clause reads when evaluated. *)
Variables Field GroupBy OrderBy FieldSource Ctx Vals SubState : Type.

(** The parsed WHERE clause through [Eval]. *)
Definition Expr : Type := SubState -> ByteMap -> Go.value.

(** The closure [planSubQueries] returns. *)
Definition RunSubQueries : Type := Ctx -> SubState -> option error * SubState.

(** What [Plan] reads of [query.FromSubQuery]. *)
Record SubQuery : Type := mkSubQuery { SQL : string; sq_Fields : list Field }.

Record Query : Type := mkQuery {
  From : string;
  FromSubQuery : option SubQuery;
  Fields : list Field;
  q_GroupBy : list GroupBy;
  GroupByAll : bool;
  HasSpecificFields : bool;
  Where : option Expr;
  WhereSQL : string;
  AsOf : Time;
  Until : Time;
  AsOfOffset : Z;
  UntilOffset : Z;
  Resolution : Z;
  q_OrderBy : list OrderBy;
  q_Offset : Z;
  q_Limit : Z
}.

Definition setAsOf (q : Query) (t : Time) : Query :=
  mkQuery (From q) (FromSubQuery q) (Fields q) (q_GroupBy q) (GroupByAll q)
    (HasSpecificFields q) (Where q) (WhereSQL q) t (Until q) (AsOfOffset q)
    (UntilOffset q) (Resolution q) (q_OrderBy q) (q_Offset q) (q_Limit q).

Definition setUntil (q : Query) (t : Time) : Query :=
  mkQuery (From q) (FromSubQuery q) (Fields q) (q_GroupBy q) (GroupByAll q)
    (HasSpecificFields q) (Where q) (WhereSQL q) (AsOf q) t (AsOfOffset q)
    (UntilOffset q) (Resolution q) (q_OrderBy q) (q_Offset q) (q_Limit q).

(** The operators of package core, each with what it is built
    from and the source it is connected to.  A [Filter] holds what
    its [Include] closure captures: the sub-query runner and the
    WHERE clause.  [Source] is a row source from outside the
    planner, a table. *)
Inductive RowSource : Type :=
| Source (name : string)
| Unflatten (fields : list Field) (src : FlatRowSource)
| Filter (runSubQueries : RunSubQueries) (where_ : Expr) (Label : string)
    (src : RowSource)
| Group (By : list GroupBy) (fields : list Field) (resolution : Z)
    (asOf until : Time) (src : RowSource)
with FlatRowSource : Type :=
| Flatten (src : RowSource)
| Sort (orderBy : list OrderBy) (src : FlatRowSource)
| Offset (n : Z) (src : FlatRowSource)
| Limit (n : Z) (src : FlatRowSource).

(** Methods of [core.RowSource] the planner calls. *)
Variable GetAsOf : RowSource -> Time.
Variable GetUntil : RowSource -> Time.
Variable GetResolution : RowSource -> Z.

Record Opts : Type := mkOpts {
  GetTable : string -> RowSource;
  Now : string -> Time;
  o_FieldSource : FieldSource;
  Distributed : bool;
  PartitionKeys : list string
}.

(** [sql.Parse] and [planSubQueries] are declared in other files. *)
Variable Parse : string -> FieldSource -> error + Query.
Variable planSubQueries : Query -> Opts -> error + RunSubQueries.

(** The three flags of [Plan]. *)
Definition asOfChanged (query : Query) (source : RowSource) : bool :=
  negb (IsZero (AsOf query)) && negb (UnixNano (AsOf query) =? UnixNano (GetAsOf source)).

Definition untilChanged (query : Query) (source : RowSource) : bool :=
  negb (IsZero (Until query))
  && negb (UnixNano (Until query) =? UnixNano (GetUntil source)).

Definition resolutionChanged (query : Query) (source : RowSource) : bool :=
  negb (Resolution query =? 0) && negb (Resolution query =? GetResolution source).

(** The relative bounds of the query, made absolute. *)
Definition resolveOffsets (query : Query) (now : Time) : Query :=
  let query := if negb (AsOfOffset query =? 0)
               then setAsOf query (Add now (AsOfOffset query)) else query in
  if negb (UntilOffset query =? 0)
  then setUntil query (Add now (UntilOffset query)) else query.

(** What a flat pipeline flattens: the row source under the
    [Flatten] reached through sorting, offset and limit. *)
Fixpoint flattened (flat : FlatRowSource) : RowSource :=
  match flat with
  | Flatten src => src
  | Sort _ src | Offset _ src | Limit _ src => flattened src
  end.

(** [Plan] from [now := opts.Now(query.From)] on, once the source
    is chosen. *)
Definition planFrom (query : Query) (source : RowSource) (opts : Opts)
  : error + FlatRowSource :=
  let now := Now opts (From query) in
  let query := resolveOffsets query now in
  let asOfChanged := asOfChanged query source in
  let untilChanged := untilChanged query source in
  let resolutionChanged := resolutionChanged query source in
  let filtered : error + RowSource :=
    match Where query with
    | Some where_ =>
        match planSubQueries query opts with
        | inl subQueryPlanErr => inl subQueryPlanErr
        | inr runSubQueries =>
            inr (Filter runSubQueries where_ (WhereSQL query) source)
        end
    | None => inr source
    end in
  match filtered with
  | inl err => inl err
  | inr source =>
      let source :=
        if asOfChanged || untilChanged || resolutionChanged
           || negb (GroupByAll query) || HasSpecificFields query
        then Group (q_GroupBy query) (Fields query) (Resolution query)
               (AsOf query) (Until query) source
        else source in
      let flat := Flatten source in
      let flat := if (0 <? length (q_OrderBy query))%nat
                  then Sort (q_OrderBy query) flat else flat in
      let flat := if 0 <? q_Offset query then Offset (q_Offset query) flat else flat in
      let flat := if 0 <? q_Limit query then Limit (q_Limit query) flat else flat in
      inr flat
  end.

(** [Plan].  It calls itself on the SQL of a FROM sub-query, which
    it parses anew; [fuel] bounds the depth of that nesting and
    [None] means it was not enough. *)
Fixpoint Plan (fuel : nat) (sqlString : string) (opts : Opts)
  : option (error + FlatRowSource) :=
  match fuel with
  | O => None
  | S fuel =>
      match Parse sqlString (o_FieldSource opts) with
      | inl err => Some (inl err)
      | inr query =>
          match FromSubQuery query with
          | Some sub =>
              match Plan fuel (SQL sub) opts with
              | None => None
              | Some (inl err) => Some (inl err)
              | Some (inr subSource) =>
                  let unflatten := Unflatten (sq_Fields sub) subSource in
                  Some (planFrom query unflatten opts)
              end
          | None => Some (planFrom query (GetTable opts (From query)) opts)
          end
      end
  end.

(* -------------------------------------------------------------- *)
(** ** The predicate of a planned filter *)

(** What the closure [Include] shares between its calls: the
    latch, what the sub-queries have produced, and [runs], a
    count of the executions of [runSubQueries] kept for the
    statements below. *)
Record FilterState : Type := mkFilterState {
  hasRunSubqueries : Z;
  sub : SubState;
  runs : nat
}.

(** [atomic.CompareAndSwapInt32(&hasRunSubqueries, 0, 1)] *)
Definition CompareAndSwap (st : FilterState) : bool * FilterState :=
  if hasRunSubqueries st =? 0
  then (true, mkFilterState 1 (sub st) (runs st))
  else (false, st).

(** [err := runSubQueries(ctx)] *)
Definition callRunSubQueries (runSubQueries : RunSubQueries) (ctx : Ctx)
    (st : FilterState) : option error * FilterState :=
  let '(err, s) := runSubQueries ctx (sub st) in
  (err, mkFilterState (hasRunSubqueries st) s (S (runs st))).

(** [result := query.Where.Eval(key);
     return result != nil && result.(bool), nil] *)
Definition evalWhere (where_ : Expr) (st : FilterState) (key : ByteMap)
  : Go.res (bool * option error) :=
  match where_ (sub st) key with
  | Go.Nil => Go.Ok (false, None)
  | Go.Bool b => Go.Ok (b, None)
  | _ => Go.Panic Go.TypeAssertion
  end.

(** One call of [Include], run without another call in between. *)
Definition Include (runSubQueries : RunSubQueries) (where_ : Expr)
    (st : FilterState) (ctx : Ctx) (key : ByteMap) (vals : Vals)
  : FilterState * Go.res (bool * option error) :=
  let '(swapped, st) := CompareAndSwap st in
  if swapped then
    let '(err, st) := callRunSubQueries runSubQueries ctx st in
    match err with
    | Some ErrDeadlineExceeded | None => (st, evalWhere where_ st key)
    | Some e => (st, Go.Ok (false, Some e))
    end
  else (st, evalWhere where_ st key).

(** *** Calls of [Include] that overlap

    The closure may be entered by several callers at once.  A call
    is then a sequence of three atomic actions, the swap, the run
    of the sub-queries (for the caller that won the swap) and the
    evaluation, and the actions of different calls interleave. *)
Inductive pc : Type :=
| AtSwap
| AtRun
| AtEval
| Done (r : Go.res (bool * option error)).

Record call : Type := mkCall {
  c_ctx : Ctx;
  c_key : ByteMap;
  c_vals : Vals;
  c_pc : pc
}.

Definition at_ (c : call) (p : pc) : call := mkCall (c_ctx c) (c_key c) (c_vals c) p.

(** The next action of one call. *)
Definition stepCall (runSubQueries : RunSubQueries) (where_ : Expr)
    (st : FilterState) (c : call) : FilterState * call :=
  match c_pc c with
  | AtSwap =>
      let '(swapped, st) := CompareAndSwap st in
      (st, at_ c (if swapped then AtRun else AtEval))
  | AtRun =>
      let '(err, st) := callRunSubQueries runSubQueries (c_ctx c) st in
      match err with
      | Some ErrDeadlineExceeded | None => (st, at_ c AtEval)
      | Some e => (st, at_ c (Done (Go.Ok (false, Some e))))
      end
  | AtEval => (st, at_ c (Done (evalWhere where_ st (c_key c))))
  | Done _ => (st, c)
  end.

(** The filter with the calls in flight; a schedule names, turn by
    turn, the call that acts next. *)
Definition config : Type := FilterState * list call.

Definition stepAt (runSubQueries : RunSubQueries) (where_ : Expr)
    (cfg : config) (i : nat) : config :=
  match snd cfg !! i with
  | Some c =>
      let '(st, c') := stepCall runSubQueries where_ (fst cfg) c in
      (st, <[i := c']> (snd cfg))
  | None => cfg
  end.

Definition exec (runSubQueries : RunSubQueries) (where_ : Expr)
    (cfg : config) (schedule : list nat) : config :=
  fold_left (stepAt runSubQueries where_) schedule cfg.

(** A filter as [Plan] makes it, latch at 0, with calls that have
    not acted yet. *)
Definition fresh (s : SubState) : FilterState := mkFilterState 0 s 0.

Definition entering (args : list (Ctx * ByteMap * Vals)) : list call :=
  map (fun a => mkCall (fst (fst a)) (snd (fst a)) (snd a) AtSwap) args.

Definition isDone (c : call) : bool :=
  match c_pc c with Done _ => true | _ => false end.

(** Calls made one after the other. *)
Definition IncludeAll (runSubQueries : RunSubQueries) (where_ : Expr)
    (st : FilterState) (args : list (Ctx * ByteMap * Vals)) : FilterState :=
  fold_left
    (fun st a => fst (Include runSubQueries where_ st (fst (fst a)) (snd (fst a)) (snd a)))
    args st.

End Planner.

Arguments mkSubQuery {Field}.
Arguments SQL {Field}.
Arguments sq_Fields {Field}.
Arguments mkQuery {Time Field GroupBy OrderBy SubState}.
Arguments From {Time Field GroupBy OrderBy SubState}.
Arguments FromSubQuery {Time Field GroupBy OrderBy SubState}.
Arguments Fields {Time Field GroupBy OrderBy SubState}.
Arguments q_GroupBy {Time Field GroupBy OrderBy SubState}.
Arguments GroupByAll {Time Field GroupBy OrderBy SubState}.
Arguments HasSpecificFields {Time Field GroupBy OrderBy SubState}.
Arguments Where {Time Field GroupBy OrderBy SubState}.
Arguments WhereSQL {Time Field GroupBy OrderBy SubState}.
Arguments AsOf {Time Field GroupBy OrderBy SubState}.
Arguments Until {Time Field GroupBy OrderBy SubState}.
Arguments AsOfOffset {Time Field GroupBy OrderBy SubState}.
Arguments UntilOffset {Time Field GroupBy OrderBy SubState}.
Arguments Resolution {Time Field GroupBy OrderBy SubState}.
Arguments q_OrderBy {Time Field GroupBy OrderBy SubState}.
Arguments q_Offset {Time Field GroupBy OrderBy SubState}.
Arguments q_Limit {Time Field GroupBy OrderBy SubState}.
Arguments Source {Time Field GroupBy OrderBy Ctx SubState}.
Arguments Unflatten {Time Field GroupBy OrderBy Ctx SubState}.
Arguments Filter {Time Field GroupBy OrderBy Ctx SubState}.
Arguments Group {Time Field GroupBy OrderBy Ctx SubState}.
Arguments Flatten {Time Field GroupBy OrderBy Ctx SubState}.
Arguments Sort {Time Field GroupBy OrderBy Ctx SubState}.
Arguments Offset {Time Field GroupBy OrderBy Ctx SubState}.
Arguments Limit {Time Field GroupBy OrderBy Ctx SubState}.
Arguments flattened {Time Field GroupBy OrderBy Ctx SubState}.
Arguments mkOpts {Time Field GroupBy OrderBy FieldSource Ctx SubState}.
Arguments GetTable {Time Field GroupBy OrderBy FieldSource Ctx SubState}.
Arguments Now {Time Field GroupBy OrderBy FieldSource Ctx SubState}.
Arguments o_FieldSource {Time Field GroupBy OrderBy FieldSource Ctx SubState}.
Arguments mkFilterState {SubState}.
Arguments hasRunSubqueries {SubState}.
Arguments sub {SubState}.
Arguments runs {SubState}.
Arguments fresh {SubState}.
Arguments CompareAndSwap {SubState}.
Arguments callRunSubQueries {Ctx SubState}.
Arguments evalWhere {SubState}.
Arguments Include {Ctx Vals SubState}.
Arguments mkCall {Ctx Vals}.
Arguments c_pc {Ctx Vals}.
Arguments c_key {Ctx Vals}.
Arguments c_ctx {Ctx Vals}.
Arguments at_ {Ctx Vals}.
Arguments isDone {Ctx Vals}.
Arguments entering {Ctx Vals}.
Arguments stepCall {Ctx Vals SubState}.
Arguments stepAt {Ctx Vals SubState}.
Arguments exec {Ctx Vals SubState}.
Arguments IncludeAll {Ctx Vals SubState}.

End planner.

(* ================================================================== *)
(** * Statements about the ingest path *)
(* ================================================================== *)

(** The notions in which the properties of insert.go are stated. *)
Module ingest.
Import encoding zenodb.

Section Writer.
Variable Binary : ByteOrder.
Variable IterateValues : ByteMap -> list (string * Go.value).
Variable Build : list (string * Go.value) -> ByteMap.
Variable ToLower : string -> string.
Variable TrimSpace : string -> string.

(** The stream name as the registry knows it. *)
Definition normalized (stream : string) : string := TrimSpace (ToLower stream).

(** The normalizer in the words of the specification: a float64
    is kept, an int is promoted, the first element of a vector goes
    with the scalars and each further element makes a row of its
    own; anything else is dropped. *)
Definition expand (v : Go.value) : option (Go.value * list Go.value) :=
  match v with
  | Go.Float64 f => Some (Go.Float64 f, [])
  | Go.Int i => Some (Go.Float64 (Go.float64_of_int i), [])
  | Go.Float64s (a :: r) => Some (Go.Float64 a, map Go.Float64 r)
  | Go.Ints (a :: r) =>
      Some (Go.Float64 (Go.float64_of_int a),
            map (fun i => Go.Float64 (Go.float64_of_int i)) r)
  | _ => None
  end.

(** The fields of the main row. *)
Definition mainRow (kvs : list (string * Go.value)) : list (string * Go.value) :=
  omap (fun kv => match expand (snd kv) with
                  | Some (first, _) => Some (fst kv, first)
                  | None => None
                  end) kvs.

(** The single fields of the rows written apart, in order. *)
Definition subRows (kvs : list (string * Go.value)) : list (string * Go.value) :=
  flat_map (fun kv => match expand (snd kv) with
                      | Some (_, more) => map (fun x => (fst kv, x)) more
                      | None => []
                      end) kvs.

Definition emptyVector (v : Go.value) : bool :=
  match v with
  | Go.Float64s [] | Go.Ints [] => true
  | _ => false
  end.

(** The elements of a vector value, as float64. *)
Definition elements (v : Go.value) : option (list float) :=
  match v with
  | Go.Float64s l => Some l
  | Go.Ints l => Some (map Go.float64_of_int l)
  | _ => None
  end.

(** The bytes of the frame of a point. *)
Definition frameBytes (ts : Time) (dims vals : ByteMap) : list byte :=
  concat (frame Binary ts dims vals).

(** Vector expansion at one call, for the vector [a1 :: more] under
    [k]: [InsertRaw] returns, and the log of the stream was handed,
    after what it had, exactly the rows of the normalizer above and no
    other: for each value in turn the rows of its further elements,
    those of the vector being one row per element of [more], in
    order, each holding only [k]; then one main row, which holds [a1]
    under [k] among the first elements and the scalars of the other
    values; all with the [dims] and the timestamp of the call. *)
Definition vector_expansion (db : DB) (stream : string) (ts : Time)
    (dims vals : ByteMap) (k : string) (a1 : float) (more : list float) : Prop :=
  exists (err : option error) (db' : DB) (w w' : wal.WAL)
         (before after : list (string * Go.value)) (vec : Go.value),
    InsertRaw Binary IterateValues Build ToLower TrimSpace db stream ts dims vals = (db', Go.Ok err)
    /\ streams db !! normalized stream = Some w
    /\ streams db' !! normalized stream = Some w'
    /\ IterateValues vals = (before ++ (k, vec) :: after)%list
    /\ elements vec = Some (a1 :: more)
    /\ wal.offered w'
       = (wal.offered w
          ++ map (fun p => frameBytes ts dims (Build [p]))
               (subRows before
                ++ map (fun a => (k, Go.Float64 a)) more
                ++ subRows after)
          ++ [frameBytes ts dims
                (Build (mainRow before ++ (k, Go.Float64 a1) :: mainRow after))])%list
    /\ (forall k' f, In (k', Go.Float64 f) (IterateValues vals) ->
          In (k', Go.Float64 f) (mainRow before ++ (k, Go.Float64 a1) :: mainRow after))
    /\ (forall k' i, In (k', Go.Int i) (IterateValues vals) ->
          In (k', Go.Float64 (Go.float64_of_int i))
             (mainRow before ++ (k, Go.Float64 a1) :: mainRow after)).

End Writer.

Section Worker.
Variable Binary : ByteOrder.
Variable Hash32 : Type.
Variable truncateBefore : table -> Time.
Variable inPartition : Hash32 -> ByteMap -> list string -> Z -> bool.
Variable FromSortedKeysAndValues : list string -> list Go.value -> ByteMap.

(** [insert] reads [bytes] as the point [(ts, dims, vals)]: the
    staleness test, the partition test and [doInsert] are given
    that very point. *)
Definition decodes_to (t : table) (bytes : list byte) (ts : Time) (dims vals : ByteMap)
    (isFollower : bool) (h : Hash32) (offset : wal.Offset) (source : Z) : Prop :=
  insert Binary Hash32 truncateBefore inPartition FromSortedKeysAndValues
    t bytes isFollower h offset source
  = if Before ts (truncateBefore t) then (t, false)
    else if isFollower
            && negb (inPartition h dims (PartitionBy t) (Partition (opts (db t))))
    then (t, false)
    else match doInsert FromSortedKeysAndValues t ts dims vals offset source with
         | Go.Ok r => r
         | Go.Panic p => (table_log t (LogPanic p), false)
         end.

(** The operations of insert.go on a table. *)
Inductive op : Type :=
| CallInsert (data : list byte) (isFollower : bool) (h : Hash32)
    (offset : wal.Offset) (source : Z)
| CallSkip (offset : wal.Offset) (source : Z)
| CallDoInsert (ts : Time) (dims vals : ByteMap) (offset : wal.Offset) (source : Z)
| CallRecordQueued
| CallProcessRead (isFollower : bool) (h : Hash32) (read : walRead) (minutePassed : bool).

(** An operation on a table, with whether a call of [doInsert]
    made in it returned true; a [doInsert] that panics leaves the
    table as it was. *)
Definition apply (t : table) (o : op) : table * bool :=
  match o with
  | CallInsert data isFollower h offset source =>
      insert Binary Hash32 truncateBefore inPartition FromSortedKeysAndValues
        t data isFollower h offset source
  | CallSkip offset source => (skip t offset source, false)
  | CallDoInsert ts dims vals offset source =>
      match doInsert FromSortedKeysAndValues t ts dims vals offset source with
      | Go.Ok r => r
      | Go.Panic _ => (t, false)
      end
  | CallRecordQueued => (recordQueued t, false)
  | CallProcessRead isFollower h read minutePassed =>
      (fst (processRead Binary Hash32 truncateBefore inPartition
              FromSortedKeysAndValues isFollower h (t, mkCounters 0 0 0)
              (read, minutePassed)),
       match data read with
       | Some d =>
           snd (insert Binary Hash32 truncateBefore inPartition
                  FromSortedKeysAndValues t d isFollower h (r_offset read)
                  (r_source read))
       | None => false
       end)
  end.

(** A run of operations, with the number of calls of [doInsert]
    that returned true. *)
Fixpoint run (t : table) (ops : list op) : table * nat :=
  match ops with
  | [] => (t, O)
  | o :: ops' =>
      let '(t1, ok) := apply t o in
      let '(t2, n) := run t1 ops' in
      (t2, ((if ok then 1 else 0) + n)%nat)
  end.

End Worker.

(** The main row is marked as present exactly when something was
    included in it. *)
Definition marked (st : locals) : Prop :=
  hasMainValue st = match included st with [] => false | _ => true end.

(** A counter stays or goes up by one. *)
Definition bumped (before after : N) : Prop :=
  after = before \/ after = (before + 1)%N.

(** What one operation does to the counters: [InsertedPoints] goes
    up by one exactly when a [doInsert] returned true, the other
    two stay or go up by one. *)
Definition counted (t t' : table) (ok : bool) : Prop :=
  InsertedPoints (stats t') = (InsertedPoints (stats t) + (if ok then 1 else 0))%N
  /\ bumped (FilteredPoints (stats t)) (FilteredPoints (stats t'))
  /\ bumped (QueuedPoints (stats t)) (QueuedPoints (stats t')).

End ingest.

(* ================================================================== *)
(** * Statements about the planner *)
(* ================================================================== *)

(** The notions in which the properties of planner.go are stated. *)
Module planning.
Import planner.

Section Planner.
Variable Time : Type.
Variable IsZero : Time -> bool.
Variable UnixNano : Time -> Z.
Variable Add : Time -> Z -> Time.
Variables Field GroupBy OrderBy FieldSource Ctx Vals SubState : Type.
Variable GetAsOf : RowSource Time Field GroupBy OrderBy Ctx SubState -> Time.
Variable GetUntil : RowSource Time Field GroupBy OrderBy Ctx SubState -> Time.
Variable GetResolution : RowSource Time Field GroupBy OrderBy Ctx SubState -> Z.
Variable Parse :
  string -> FieldSource -> error + Query Time Field GroupBy OrderBy SubState.
Variable planSubQueries :
  Query Time Field GroupBy OrderBy SubState ->
  Opts Time Field GroupBy OrderBy FieldSource Ctx SubState ->
  error + RunSubQueries Ctx SubState.

#[local] Abbreviation Plan :=
  (Plan Time IsZero UnixNano Add Field GroupBy OrderBy FieldSource Ctx SubState
     GetAsOf GetUntil GetResolution Parse planSubQueries).

(** The query asks for another window or resolution than the
    source has (a zero [AsOf], [Until] or [Resolution] asking for
    no change), or does not group by all, or names its fields. *)
Definition regroups (query : Query Time Field GroupBy OrderBy SubState)
    (source : RowSource Time Field GroupBy OrderBy Ctx SubState) : Prop :=
  (IsZero (AsOf query) = false /\ UnixNano (AsOf query) <> UnixNano (GetAsOf source))
  \/ (IsZero (Until query) = false
      /\ UnixNano (Until query) <> UnixNano (GetUntil source))
  \/ (Resolution query <> 0 /\ Resolution query <> GetResolution source)
  \/ GroupByAll query = false
  \/ HasSpecificFields query = true.

(** [source] is what [Plan], given [fuel] for the sub-query, takes
    as the source of [query]: the table, or the sub-query's plan
    unflattened. *)
Definition sourceOf (fuel : nat) (query : Query Time Field GroupBy OrderBy SubState)
    (opts : Opts Time Field GroupBy OrderBy FieldSource Ctx SubState)
    (source : RowSource Time Field GroupBy OrderBy Ctx SubState) : Prop :=
  match FromSubQuery query with
  | None => source = GetTable opts (From query)
  | Some sub =>
      exists subSource,
        Plan fuel (SQL sub) opts = Some (inr subSource)
        /\ source = Unflatten (sq_Fields sub) subSource
  end.

(** [filtered] is [source] under the filter of the WHERE clause
    of [query], if it has one and its sub-queries are planned. *)
Definition filterOf (query : Query Time Field GroupBy OrderBy SubState)
    (opts : Opts Time Field GroupBy OrderBy FieldSource Ctx SubState)
    (source filtered : RowSource Time Field GroupBy OrderBy Ctx SubState) : Prop :=
  match Where query with
  | None => filtered = source
  | Some where_ =>
      exists runSubQueries,
        planSubQueries query opts = inr runSubQueries
        /\ filtered = Filter runSubQueries where_ (WhereSQL query) source
  end.

(** The query with its relative bounds resolved, in the words of the
    specification: if [AsOfOffset] is not zero, [AsOf] is the
    [now] of the table plus [AsOfOffset]; the same for [Until]. *)
Definition resolved (query : Query Time Field GroupBy OrderBy SubState) (now : Time)
  : Query Time Field GroupBy OrderBy SubState :=
  mkQuery (From query) (FromSubQuery query) (Fields query) (q_GroupBy query)
    (GroupByAll query) (HasSpecificFields query) (Where query) (WhereSQL query)
    (if AsOfOffset query =? 0 then AsOf query else Add now (AsOfOffset query))
    (if UntilOffset query =? 0 then Until query else Add now (UntilOffset query))
    (AsOfOffset query) (UntilOffset query) (Resolution query) (q_OrderBy query)
    (q_Offset query) (q_Limit query).

(** The rule at the pipeline [flat] planned for the parsed query
    [q0]: over the source of the query, under the filter of its WHERE
    clause if it has one, [Flatten] sits on a [Group] built from the
    query with its bounds resolved if the query regroups, and on the
    (filtered) source itself if it does not. *)
Definition replanned (fuel : nat) (q0 : Query Time Field GroupBy OrderBy SubState)
    (opts : Opts Time Field GroupBy OrderBy FieldSource Ctx SubState)
    (flat : FlatRowSource Time Field GroupBy OrderBy Ctx SubState) : Prop :=
  let query := resolved q0 (Now opts (From q0)) in
  exists source filtered,
    sourceOf fuel q0 opts source
    /\ filterOf query opts source filtered
    /\ ((regroups query source
         /\ flattened flat
            = Group (q_GroupBy query) (Fields query) (Resolution query)
                (AsOf query) (Until query) filtered)
        \/ (~ regroups query source /\ flattened flat = filtered)).

(** The rule as it is stated, of every query that parses: [Plan]
    returns a pipeline, and the rule holds at it. *)
Definition replan_rule (fuel : nat) (sqlString : string)
    (opts : Opts Time Field GroupBy OrderBy FieldSource Ctx SubState) : Prop :=
  forall q0,
    Parse sqlString (o_FieldSource opts) = inr q0 ->
    exists flat,
      Plan (S fuel) sqlString opts = Some (inr flat) /\ replanned fuel q0 opts flat.


(** At the end of [schedule] the sub-queries have run exactly
    once if some call of the predicate has completed. *)
Definition ran_once_before_completion (runSubQueries : RunSubQueries Ctx SubState)
    (where_ : Expr SubState) (s : SubState) (args : list (Ctx * ByteMap * Vals))
    (schedule : list nat) : Prop :=
  let cfg := exec runSubQueries where_ (fresh s, entering args) schedule in
  existsb isDone (snd cfg) = true -> runs (fst cfg) = 1%nat.

(** The number of calls that are about to run the sub-queries. *)
Definition isRunning (c : call Ctx Vals) : nat :=
  match c_pc c with AtRun => 1 | _ => 0 end.

Fixpoint running (calls : list (call Ctx Vals)) : nat :=
  match calls with
  | [] => O
  | c :: calls' => (isRunning c + running calls')%nat
  end.

(** What holds of a filter and its calls at every turn: while the
    latch is open nothing ran and no call has acted; once it is
    shut, the sub-queries have run or one call is about to run
    them, not both. *)
Definition latch (cfg : config Ctx Vals SubState) : Prop :=
  (hasRunSubqueries (fst cfg) = 0 /\ runs (fst cfg) = O
   /\ Forall (fun c => c_pc c = AtSwap) (snd cfg))
  \/ (hasRunSubqueries (fst cfg) = 1
      /\ (runs (fst cfg) + running (snd cfg) = 1)%nat).

End Planner.
End planning.

(* ================================================================== *)
(** * Sample values *)
(* ================================================================== *)

(** Small databases, tables and collaborators on which the statements
    below are run. *)
Module samples.
Import encoding zenodb.

(** Stand-ins for strings.ToLower and strings.TrimSpace on the stream
    names of the samples, which are ASCII: there the upper-case
    letters are A to Z and the white space is tab, line feed,
    vertical tab, form feed, carriage return and space, and the two
    functions do what package strings does. *)
Definition lower_ascii (c : ascii) : ascii :=
  let n := nat_of_ascii c in
  if ((65 <=? n) && (n <=? 90))%nat then ascii_of_nat (n + 32) else c.

Fixpoint lowerASCII (s : string) : string :=
  match s with
  | EmptyString => EmptyString
  | String c s' => String (lower_ascii c) (lowerASCII s')
  end.

Definition isSpace (c : ascii) : bool :=
  let n := nat_of_ascii c in
  (((9 <=? n) && (n <=? 13)) || (n =? 32))%nat.

Fixpoint trimLeft (s : string) : string :=
  match s with
  | EmptyString => EmptyString
  | String c s' => if isSpace c then trimLeft s' else s
  end.

(** Drops the white space at the end: a character is kept when it is
    not a space or when something is kept after it. *)
Fixpoint trimRight (s : string) : string :=
  match s with
  | EmptyString => EmptyString
  | String c s' =>
      match trimRight s' with
      | EmptyString => if isSpace c then EmptyString else String c EmptyString
      | r => String c r
      end
  end.

Definition trimASCII (s : string) : string := trimRight (trimLeft s).

Definition noStats : TableStats := mkStats 0 0 0 0.

Definition leader : DB := mkDB (mkDBOpts None 0) ∅ (word.of_Z 0) [].

Definition emptyTable : table := mkTable leader None [] [] [] noStats [].

(** Nothing is older than the epoch's start here. *)
Definition keepAll : table -> Time := fun _ => word.of_Z (- 2 ^ 63).

(** Everything before instant 100 is stale here. *)
Definition keepFrom100 : table -> Time := fun _ => word.of_Z 100.

Definition ownsAll : unit -> ByteMap -> list string -> Z -> bool := fun _ _ _ _ => true.

Definition noKey : list string -> list Go.value -> ByteMap := fun _ _ => [].

(** A stand-in for the bytemap library: two maps known by their
    single byte, and a builder that keeps the keys. *)
Definition sampleValues (bm : ByteMap) : list (string * Go.value) :=
  match bm with
  | [Byte.x01] =>
      [("x", Go.Float64 1.5%float); ("k", Go.Float64s [1%float; 2%float; 3%float]);
       ("n", Go.Ints [4; 5]); ("s", Go.Str "a")]
  | [Byte.x02] => [("k", Go.Float64s [1%float; 2%float]); ("j", Go.Float64s [])]
  | _ => []
  end.

Definition sampleBuild (kvs : list (string * Go.value)) : ByteMap :=
  flat_map (fun kv => list_byte_of_string (fst kv) ++ [Byte.x00])%list kvs.

Definition sampleNew (m : gmap string Go.value) : ByteMap :=
  if decide (m = ∅) then [] else [Byte.x02].

(** A leader with the stream "events", and a follower. *)
Definition withEvents : DB :=
  mkDB (mkDBOpts None 0) {[ "events" := wal.mkWAL [] [] ]} (word.of_Z 0) [].

Definition follower : DB :=
  mkDB (mkDBOpts (Some followFunc) 0) {[ "events" := wal.mkWAL [] [] ]} (word.of_Z 0) [].

(** 2^32 zero bytes. *)
Definition dims4GiB : ByteMap := repeat Byte.x00 (4 + Z.to_nat 4294967292)%nat.

End samples.

(** A toy parser and planner options on which the statements about
    the planner are run: time is a number of nanoseconds, zero when
    it is 0; fields, group-bys and orderings are names; the state of
    the sub-queries is whether they have run. *)
Module plan_samples.
Import planner.

Definition IsZero (t : Z) : bool := t =? 0.
Definition UnixNano (t : Z) : Z := t.

Definition RowSource : Type := planner.RowSource Z string string string unit bool.
Definition FlatRowSource : Type := planner.FlatRowSource Z string string string unit bool.
Definition Query : Type := planner.Query Z string string string bool.
Definition Opts : Type := planner.Opts Z string string string unit unit bool.

(** Every source covers [100, 200) at resolution 60. *)
Definition GetAsOf (s : RowSource) : Z := 100.
Definition GetUntil (s : RowSource) : Z := 200.
Definition GetResolution (s : RowSource) : Z := 60.

Definition selectAll (from : string) : Query :=
  mkQuery from None ["x"] [] true false None "" 0 0 0 0 0 [] 0 0.

(** The sub-queries of the sample WHERE clause find nothing to
    refuse; the clause holds once they have run. *)
Definition sampleWhere : Expr bool := fun ran _ => Go.Bool ran.

Definition sampleRun : RunSubQueries unit bool := fun _ _ => (None, true).

Definition timedOut : RunSubQueries unit bool := fun _ _ => (Some ErrDeadlineExceeded, false).

Definition broken : RunSubQueries unit bool := fun _ _ => (Some (ErrOther "disk"), false).

Definition Parse (sqlString : string) (_ : unit) : error + Query :=
  if String.eqb sqlString "SELECT * FROM t" then inr (selectAll "t")
  else if String.eqb sqlString "SELECT * FROM t WHERE y > 0" then
    inr (mkQuery "t" None ["x"] [] true false (Some sampleWhere) "y > 0"
           0 0 0 0 0 [] 0 0)
  else if String.eqb sqlString "SELECT * FROM t WHERE y IN (SELECT z FROM u)" then
    inr (mkQuery "t" None ["x"] [] true false (Some sampleWhere)
           "y IN (SELECT z FROM u)" 0 0 0 0 0 [] 0 0)
  else if String.eqb sqlString "SELECT a FROM t GROUP BY d LIMIT 5" then
    inr (mkQuery "t" None ["a"] ["d"] false true None "" 0 0 0 0 0 [] 0 5)
  else if String.eqb sqlString "SELECT * FROM t ASOF '-1h'" then
    inr (mkQuery "t" None ["x"] [] true false None "" 0 0 (-3600) 0 0 [] 0 0)
  else if String.eqb sqlString "SELECT a FROM t WHERE y IN (SELECT z FROM u)" then
    inr (mkQuery "t" None ["a"] [] true true (Some sampleWhere)
           "y IN (SELECT z FROM u)" 0 0 0 0 0 [] 0 0)
  else if String.eqb sqlString "SELECT a FROM (SELECT * FROM t)" then
    inr (mkQuery "" (Some (mkSubQuery "SELECT * FROM t" ["x"])) ["a"] [] true true
           None "" 0 0 0 0 0 [] 0 0)
  else if String.eqb sqlString
            "SELECT a FROM (SELECT * FROM t WHERE y IN (SELECT z FROM u))" then
    inr (mkQuery ""
           (Some (mkSubQuery "SELECT * FROM t WHERE y IN (SELECT z FROM u)" ["x"]))
           ["a"] [] true true None "" 0 0 0 0 0 [] 0 0)
  else inl (ErrOther "syntax error").

(** The sub-queries of a WHERE clause are planned, but for those over
    the table u, which is not known. *)
Definition planSubQueries (q : Query) (o : Opts) : error + RunSubQueries unit bool :=
  if String.eqb (WhereSQL q) "y IN (SELECT z FROM u)"
  then inl (ErrOther "table u not found")
  else inr sampleRun.

Definition opts : Opts := mkOpts (fun name => Source name) (fun _ => 1000) tt false [].

Definition Plan : nat -> string -> Opts -> option (error + FlatRowSource) :=
  planner.Plan Z IsZero UnixNano Z.add string string string unit unit bool
    GetAsOf GetUntil GetResolution Parse planSubQueries.

Definition twoCalls : list (unit * ByteMap * unit) := [(tt, [], tt); (tt, [], tt)].

End plan_samples.

(* ================================================================== *)
(** * Further statements about the ingest path *)
(* ================================================================== *)

(* ================================================================== *)
(** * Package web: the query handlers *)
(* ================================================================== *)

Module web.

(** An error is known by its message, [err.Error()]. *)
Definition error : Type := string.

(** [time.Duration], a number of nanoseconds. *)
Definition Millisecond : Z := 1000000.
Definition Second : Z := 1000 * Millisecond.
Definition Hour : Z := 3600 * Second.

Definition pauseTime : Z := 250 * Millisecond.
Definition shortTimeout : Z := 5 * Second.
Definition longTimeout : Z := 1000 * Hour.

(** The status codes of net/http the handlers write. *)
Definition StatusOK : Z := 200.
Definition StatusAccepted : Z := 202.
Definition StatusForbidden : Z := 403.
Definition StatusNotFound : Z := 404.
Definition StatusInternalServerError : Z := 500.

(** The [http.ResponseWriter] as what was done to it: the calls of
    [WriteHeader], the headers set and the writes, oldest first. *)
Inductive written : Type :=
| Text (s : string)
| Bytes (b : list byte).

Record ResponseWriter : Type := mkResponse {
  codes : list Z;
  headers : list (string * string);
  body : list written
}.

Definition WriteHeader (resp : ResponseWriter) (code : Z) : ResponseWriter :=
  mkResponse (codes resp ++ [code]) (headers resp) (body resp).

Definition HeaderSet (resp : ResponseWriter) (k v : string) : ResponseWriter :=
  mkResponse (codes resp) (headers resp ++ [(k, v)]) (body resp).

Definition Write (resp : ResponseWriter) (w : written) : ResponseWriter :=
  mkResponse (codes resp) (headers resp) (body resp ++ [w]).

(** [http.NotFound(resp, req)] of net/http. *)
Definition NotFound (resp : ResponseWriter) : ResponseWriter :=
  let resp := HeaderSet resp "Content-Type" "text/plain; charset=utf-8" in
  let resp := HeaderSet resp "X-Content-Type-Options" "nosniff" in
  let resp := WriteHeader resp StatusNotFound in
  Write resp (Text ("404 page not found" ++ String "010"%char EmptyString)).

(** Whether a handler returned or was left by a panic. *)
Inductive outcome : Type := Returned | Panicked.

Section Handler.

(** Types of other files and packages: a cache entry (nil is
    [None]), the cache, the status of an entry, a parsed query and an
    [http.Request]. *)
Variables cacheEntry Cache Status Parsed request : Type.
Context `{EqDecision Status}.

(** The three statuses the handlers name. *)
Variables statusSuccess statusError statusPending : Status.

(** Methods of a cache entry, declared in another file; [None]
    when the call panics, as a call on a nil entry may. *)
Variable status : option cacheEntry -> option Status.
Variable permalink : option cacheEntry -> option string.
Variable data : option cacheEntry -> option (list byte).
Variable error_ : option cacheEntry -> option (list byte).

(** Methods of the cache, declared in another file.  The cache is
    shared with the goroutines that run the queries: the state a call
    returns is the one the next call finds, with whatever they did in
    between. *)
Variable getByPermalink : Cache -> string -> option cacheEntry * option error * Cache.
Variable begin : Cache -> string -> option cacheEntry * option error * Cache.
Variable getOrBegin :
  Cache -> string -> option cacheEntry * bool * option error * Cache.

(** [sql.Parse] and [query.From]. *)
Variable Parse : string -> error + Parsed.
Variable From : Parsed -> string.

(** [h.authenticate(resp, req)], which may write to [resp];
    [req.URL.RawQuery]; [url.QueryUnescape], its error dropped;
    [req.Header.Get("Cache-control")]; [mux.Vars(req)["permalink"]]. *)
Variable authenticate : ResponseWriter -> request -> bool * ResponseWriter.
Variable RawQuery : request -> string.
Variable QueryUnescape : string -> string.
Variable CacheControl : request -> string.
Variable permalinkVar : request -> string.

Record query : Type := mkQuery {
  sqlString : string;
  parsed : Parsed;
  immediate : bool;
  ce : option cacheEntry
}.

(** The handler and the response it is writing: the cache, what was
    sent on [h.queries], oldest first, the number of pauses taken and
    the errors logged. *)
Record state : Type := mkState {
  resp : ResponseWriter;
  cache : Cache;
  queries : list query;
  slept : nat;
  logged : list error
}.

Definition setResp (st : state) (r : ResponseWriter) : state :=
  mkState r (cache st) (queries st) (slept st) (logged st).

Definition setCache (st : state) (c : Cache) : state :=
  mkState (resp st) c (queries st) (slept st) (logged st).

(** [time.Sleep(pauseTime)] *)
Definition Sleep (st : state) : state :=
  mkState (resp st) (cache st) (queries st) (S (slept st)) (logged st).

(** [log.Error(err)] *)
Definition logError (st : state) (err : error) : state :=
  mkState (resp st) (cache st) (queries st) (slept st) (logged st ++ [err]).

(** [h.queries <- q] *)
Definition send (st : state) (q : query) : state :=
  mkState (resp st) (cache st) (queries st ++ [q]) (slept st) (logged st).

Definition respondSuccess (st : state) (ce : option cacheEntry) : state * outcome :=
  let r := HeaderSet (resp st) "Content-Type" "application/json" in
  let r := HeaderSet r "Expires" "0" in
  let r := HeaderSet r "Cache-control" "no-cache, no-store, must-revalidate" in
  let r := HeaderSet r "Content-Encoding" "gzip" in
  let r := WriteHeader r StatusOK in
  match data ce with
  | Some d => (setResp st (Write r (Bytes d)), Returned)
  | None => (setResp st r, Panicked)
  end.

Definition respondError (st : state) (ce : option cacheEntry) : state * outcome :=
  let r := WriteHeader (resp st) StatusInternalServerError in
  match error_ ce with
  | Some e => (setResp st (Write r (Bytes e)), Returned)
  | None => (setResp st r, Panicked)
  end.

(** [limit := int(timeout / pauseTime)] *)
Definition limitOf (timeout : Z) : nat := Z.to_nat (Z.quot timeout pauseTime).

(** The loop of [respondWithCacheEntry] with [n] turns left, and
    what follows it. *)
Fixpoint respondLoop (n : nat) (st : state) (ce : option cacheEntry)
    (err : option error) : state * outcome :=
  match n with
  | O =>
      let st := setResp st (WriteHeader (resp st) StatusAccepted) in
      match permalink ce with
      | Some p => (setResp st (Write (resp st) (Text ("/cached/" ++ p))), Returned)
      | None => (st, Panicked)
      end
  | S n =>
      match err with
      | Some e =>
          let st := logError st e in
          let st := setResp st (WriteHeader (resp st) StatusInternalServerError) in
          (setResp st (Write (resp st) (Text e)), Returned)
      | None =>
          match status ce with
          | None => (st, Panicked)
          | Some s =>
              if decide (s = statusSuccess) then respondSuccess st ce
              else if decide (s = statusError) then respondError st ce
              else if decide (s = statusPending) then
                let st := Sleep st in
                match permalink ce with
                | None => (st, Panicked)
                | Some p =>
                    let '(ce, err, c) := getByPermalink (cache st) p in
                    respondLoop n (setCache st c) ce err
                end
              else respondLoop n st ce err
          end
      end
  end.

Definition respondWithCacheEntry (st : state) (ce : option cacheEntry)
    (err : option error) (timeout : Z) : state * outcome :=
  respondLoop (limitOf timeout) st ce err.

(** [h.query]; [None] when it panics. *)
Definition handleQuery (st : state) (req : request) (sqlString : string)
    (immediate : bool) : state * option (option cacheEntry * option error) :=
  match Parse sqlString with
  | inl parseErr => (st, Some (None, Some parseErr))
  | inr parsed =>
      if String.eqb (CacheControl req) "no-cache" then
        let '(ce, err, c) := begin (cache st) sqlString in
        let st := setCache st c in
        match err with
        | Some _ => (st, Some (ce, err))
        | None => (send st (mkQuery sqlString parsed immediate ce), Some (ce, err))
        end
      else
        let '(ce, created, err, c) := getOrBegin (cache st) sqlString in
        let st := setCache st c in
        match err with
        | Some _ => (st, Some (ce, err))
        | None =>
            if negb created then (st, Some (ce, err))
            else
              match status ce with
              | None => (st, None)
              | Some s =>
                  if decide (s = statusPending)
                  then (send st (mkQuery sqlString parsed immediate ce), Some (ce, err))
                  else (st, Some (ce, err))
              end
        end
  end.

Definition sqlQuery (st : state) (req : request) (timeout : Z) (immediate : bool)
  : state * outcome :=
  let '(ok, r) := authenticate (resp st) req in
  let st := setResp st r in
  if negb ok then (setResp st (WriteHeader (resp st) StatusForbidden), Returned)
  else
    let sqlString := QueryUnescape (RawQuery req) in
    match handleQuery st req sqlString immediate with
    | (st, None) => (st, Panicked)
    | (st, Some (ce, err)) => respondWithCacheEntry st ce err timeout
    end.

Definition runQuery (st : state) (req : request) : state * outcome :=
  sqlQuery st req longTimeout false.

Definition asyncQuery (st : state) (req : request) : state * outcome :=
  sqlQuery st req shortTimeout false.

Definition immediateQuery (st : state) (req : request) : state * outcome :=
  sqlQuery st req shortTimeout true.

Definition cachedQuery (st : state) (req : request) : state * outcome :=
  let '(ok, r) := authenticate (resp st) req in
  let st := setResp st r in
  if negb ok then (setResp st (WriteHeader (resp st) StatusForbidden), Returned)
  else
    let permalink := permalinkVar req in
    let '(ce, err, c) := getByPermalink (cache st) permalink in
    let st := setCache st c in
    match ce with
    | None => (setResp st (NotFound (resp st)), Returned)
    | Some _ => respondWithCacheEntry st ce err shortTimeout
    end.

(** What a response leaves of the state it started from: nothing is
    sent on [h.queries], at most [n] pauses are taken, and one status
    code is written, 200, 500 or 202, unless a method of the entry
    panicked before any was. *)
Definition answered (n : nat) (st : state) (r : state * outcome) : Prop :=
  queries (fst r) = queries st
  /\ (slept st <= slept (fst r) <= slept st + n)%nat
  /\ ((exists c, codes (resp (fst r)) = (codes (resp st) ++ [c])%list
                 /\ (c = StatusOK \/ c = StatusInternalServerError
                     \/ c = StatusAccepted))
      \/ (snd r = Panicked /\ codes (resp (fst r)) = codes (resp st))).

(** One turn of the loop of [coalesceQueries] over [h.queries], from
    the query [q] it received.  [events] is what each [select] of the
    inner loop meets, in order: a query received, or [None] when the
    five seconds passed first; when [events] is used up no query
    comes any more and the five seconds pass.  The turn gives the
    queries sent on as one batch, those put back on [h.queries], and
    the events it left. *)
Fixpoint coalesceLoop (table : string) (events : list (option query))
    (coalescedQueries remainingQueries : list query)
  : list query * list query * list (option query) :=
  match events with
  | [] => (coalescedQueries, remainingQueries, [])
  | None :: rest => (coalescedQueries, remainingQueries, rest)
  | Some q :: rest =>
      let '(coalescedQueries, remainingQueries) :=
        if String.eqb table (From (parsed q))
        then ((coalescedQueries ++ [q])%list, remainingQueries)
        else (coalescedQueries, (remainingQueries ++ [q])%list) in
      if immediate q then (coalescedQueries, remainingQueries, rest)
      else coalesceLoop table rest coalescedQueries remainingQueries
  end.

Definition coalesceTurn (q : query) (events : list (option query))
  : list query * list query * list (option query) :=
  let coalescedQueries := [q] in
  let remainingQueries := [] in
  let table := From (parsed q) in
  if negb (immediate q)
  then coalesceLoop table events coalescedQueries remainingQueries
  else (coalescedQueries, remainingQueries, events).

(** The queries a turn takes off [events]: those up to the first
    immediate one, itself taken, or up to the first time the five
    seconds pass. *)
Fixpoint taken (events : list (option query)) : list query :=
  match events with
  | [] => []
  | None :: _ => []
  | Some q :: rest => q :: (if immediate q then [] else taken rest)
  end.

End Handler.

Arguments mkQuery {cacheEntry Parsed}.
Arguments sqlString {cacheEntry Parsed}.
Arguments parsed {cacheEntry Parsed}.
Arguments immediate {cacheEntry Parsed}.
Arguments ce {cacheEntry Parsed}.
Arguments mkState {cacheEntry Cache Parsed}.
Arguments resp {cacheEntry Cache Parsed}.
Arguments cache {cacheEntry Cache Parsed}.
Arguments queries {cacheEntry Cache Parsed}.
Arguments slept {cacheEntry Cache Parsed}.
Arguments logged {cacheEntry Cache Parsed}.
Arguments taken {cacheEntry Parsed}.
Arguments answered {cacheEntry Cache Parsed}.

(** [intToBytes(i)] for a uint64 [i]. *)
Definition intToBytes (Binary : encoding.ByteOrder) (i : Z) : list byte :=
  let b := encoding.make 8 in
  encoding.PutUint Binary 8 b i.

(** A stand-in for the cache and its entries.  An entry is a number:
    below 10 it is pending, below 20 a success, a failure above; the
    cache is the number of times it was asked, and the entry it gives
    is ten times that number: pending at first, a success at the next
    call.  The stuck cache gives the pending entry 0 for ever.  The
    parser knows one query, over the table t. *)
Definition sampleStatus (ce : option nat) : option nat :=
  match ce with
  | Some n => Some (if (n <? 10)%nat then 0 else if (n <? 20)%nat then 1 else 2)%nat
  | None => None
  end.

Definition samplePermalink (ce : option nat) : option string :=
  match ce with Some _ => Some "abc" | None => None end.

Definition sampleData (ce : option nat) : option (list byte) :=
  match ce with Some _ => Some [Byte.x01] | None => None end.

Definition sampleError (ce : option nat) : option (list byte) :=
  match ce with Some _ => Some [Byte.x02] | None => None end.

Definition sampleCache (c : nat) (permalink : string) : option nat * option error * nat :=
  (Some (10 * c)%nat, None, S c).

Definition stuckCache (c : nat) (permalink : string) : option nat * option error * nat :=
  (Some O, None, S c).

Definition sampleBegin (c : nat) (sql : string) : option nat * option error * nat :=
  (Some O, None, S c).

Definition sampleGetOrBegin (c : nat) (sql : string)
  : option nat * bool * option error * nat :=
  (Some O, true, None, S c).

Definition sampleParse (sql : string) : error + string :=
  if String.eqb sql "SELECT * FROM t" then inr "t" else inl "syntax error".

Definition letIn (r : ResponseWriter) (req : string) : bool * ResponseWriter := (true, r).

Definition blank : state nat nat string := mkState (mkResponse [] [] []) O [] O [].

End web.

(** The shape of the pipelines [Plan] returns, and the calls of a
    filter's predicate that came back with an error. *)
Module shape.
Import planner.

Section Planner.
Variable Time : Type.
Variables Field GroupBy OrderBy FieldSource Ctx Vals SubState : Type.

#[local] Abbreviation RowSource := (RowSource Time Field GroupBy OrderBy Ctx SubState).
#[local] Abbreviation FlatRowSource :=
  (FlatRowSource Time Field GroupBy OrderBy Ctx SubState).
#[local] Abbreviation Opts := (Opts Time Field GroupBy OrderBy FieldSource Ctx SubState).

(** A pipeline in layers, from the inside out: a source, which is a
    table of [opts] or a pipeline of the same kind unflattened; at
    most one filter; at most one group; the flatten; at most one
    sort, by a non-empty ordering; at most one offset and at most one
    limit, both positive. *)
Inductive planned (opts : Opts) : FlatRowSource -> Prop :=
| planned_layers (source filtered grouped : RowSource)
    (sorted skipped flat : FlatRowSource) :
    sourced opts source ->
    (filtered = source
     \/ exists runSubQueries where_ label,
          filtered = Filter runSubQueries where_ label source) ->
    (grouped = filtered
     \/ exists by_ fields resolution asOf until,
          grouped = Group by_ fields resolution asOf until filtered) ->
    (sorted = Flatten grouped
     \/ exists orderBy, orderBy <> [] /\ sorted = Sort orderBy (Flatten grouped)) ->
    (skipped = sorted \/ exists n, 0 < n /\ skipped = Offset n sorted) ->
    (flat = skipped \/ exists n, 0 < n /\ flat = Limit n skipped) ->
    planned opts flat
with sourced (opts : Opts) : RowSource -> Prop :=
| sourced_table (name : string) : sourced opts (GetTable opts name)
| sourced_sub (fields : list Field) (flat : FlatRowSource) :
    planned opts flat -> sourced opts (Unflatten fields flat).

(** The number of calls that came back with an error. *)
Definition isFailed (c : call Ctx Vals) : nat :=
  match c_pc c with
  | Done (Go.Ok (_, Some _)) => 1
  | _ => 0
  end.

Fixpoint failed (calls : list (call Ctx Vals)) : nat :=
  match calls with
  | [] => O
  | c :: calls' => (isFailed c + failed calls')%nat
  end.

End Planner.

Arguments planned {Time Field GroupBy OrderBy FieldSource Ctx SubState}.
Arguments sourced {Time Field GroupBy OrderBy FieldSource Ctx SubState}.
Arguments isFailed {Ctx Vals}.
Arguments failed {Ctx Vals}.

(** The sample parser with a query that sorts, skips and limits. *)
Definition Parse (sqlString : string) (fs : unit) : error + plan_samples.Query :=
  if String.eqb sqlString "SELECT * FROM t ORDER BY x LIMIT 2, 5" then
    inr (mkQuery "t" None ["x"] [] true false None "" 0 0 0 0 0 ["x"] 2 5)
  else if String.eqb sqlString
            "SELECT a FROM (SELECT * FROM t ORDER BY x LIMIT 2, 5) WHERE y > 0" then
    inr (mkQuery ""
           (Some (mkSubQuery "SELECT * FROM t ORDER BY x LIMIT 2, 5" ["x"]))
           ["a"] [] true true (Some plan_samples.sampleWhere) "y > 0"
           0 0 0 0 0 [] 0 0)
  else plan_samples.Parse sqlString fs.

Definition Plan : nat -> string -> plan_samples.Opts
                  -> option (error + plan_samples.FlatRowSource) :=
  planner.Plan Z plan_samples.IsZero plan_samples.UnixNano Z.add
    string string string unit unit bool
    plan_samples.GetAsOf plan_samples.GetUntil plan_samples.GetResolution
    Parse plan_samples.planSubQueries.

End shape.

(** What [InsertRaw] does to a log, and what the worker hands to the
    row store, written apart from the code. *)
Module journal.
Import encoding zenodb.

(** The error a caller is left with after a sequence of outcomes, an
    outcome with an error taking the place of what was kept. *)
Definition lastErrorFrom (kept : option error) (outcomes : list (option error))
  : option error :=
  fold_left (fun kept o => match o with Some e => Some e | None => kept end)
    outcomes kept.

Definition lastError (outcomes : list (option error)) : option error :=
  lastErrorFrom None outcomes.

(** Frames written one after the other, each whatever came of the
    one before, with the outcomes in order. *)
Fixpoint writeEach (w : wal.WAL) (rows : list (list (list byte)))
  : list (option error) * wal.WAL :=
  match rows with
  | [] => ([], w)
  | bufs :: rows' =>
      let '(e, w1) := wal.Write w bufs in
      let '(es, w2) := writeEach w1 rows' in
      (e :: es, w2)
  end.

Section Writer.
Variable Binary : ByteOrder.
Variable Build : list (string * Go.value) -> ByteMap.

(** The values of the rows a call writes: one per additional element
    of a vector, then the main row if it has a field. *)
Definition payloads (kvs : list (string * Go.value)) : list ByteMap :=
  (map (fun p => Build [p]) (ingest.subRows kvs)
   ++ match ingest.mainRow kvs with
      | [] => []
      | main => [Build main]
      end)%list.

(** Their frames, as handed to the log. *)
Definition rowsOf (ts : Time) (dims : ByteMap) (kvs : list (string * Go.value))
  : list (list (list byte)) :=
  map (frame Binary ts dims) (payloads kvs).

End Writer.

(** A stand-in for a map that holds a string and a boolean only. *)
Definition textValues (bm : ByteMap) : list (string * Go.value) :=
  [("s", Go.Str "a"); ("b", Go.Bool true)].

(** Two databases that differ at most by their log. *)
Definition sameButLog (a b : DB) : Prop :=
  opts a = opts b /\ streams a = streams b /\ clock a = clock b.

(** A value [InsertRaw] has no row for: neither a number nor a
    vector. *)
Definition unsupported (v : Go.value) : bool :=
  match v with
  | Go.Nil | Go.Bool _ | Go.Str _ | Go.Other _ => true
  | _ => false
  end.

(** What the row store was told of, item by item. *)
Definition acknowledged (items : list rowInsert) : list (wal.Offset * Z) :=
  map (fun it => (offset it, source it)) items.

(** The reads that carry data, by offset and source. *)
Definition carried (reads : list (walRead * bool)) : list (wal.Offset * Z) :=
  omap (fun ev => match data (fst ev) with
                  | Some _ => Some (r_offset (fst ev), r_source (fst ev))
                  | None => None
                  end) reads.

(** The later of two instants. *)
Definition later (a b : Time) : Time := if Before a b then b else a.

(** The group-bys whose expression has a value on [dims]. *)
Definition valued (gs : list GroupBy) (dims : ByteMap) : list GroupBy :=
  List.filter (fun g => match GExpr g dims with Go.Nil => false | _ => true end) gs.

(** The key [doInsert] stores a point under. *)
Definition keyOf (FromSortedKeysAndValues : list string -> list Go.value -> ByteMap)
    (gs : list GroupBy) (dims : ByteMap) : ByteMap :=
  match gs with
  | [] => dims
  | _ => FromSortedKeysAndValues (map Name (valued gs dims))
           (map (fun g => GExpr g dims) (valued gs dims))
  end.

(** The item stored for a point. *)
Definition stored (FromSortedKeysAndValues : list string -> list Go.value -> ByteMap)
    (gs : list GroupBy) (ts : Time) (dims vals : ByteMap)
    (offset : wal.Offset) (source : Z) : rowInsert :=
  mkInsert (Some (keyOf FromSortedKeysAndValues gs dims)) (Some (NewTSParams ts vals))
    (Some dims) offset source.

(** The table once a point was admitted: the clock at the later of
    its instant and the point's, the item queued, one more inserted
    point. *)
Definition admitted (FromSortedKeysAndValues : list string -> list Go.value -> ByteMap)
    (t : table) (ts : Time) (dims vals : ByteMap)
    (offset : wal.Offset) (source : Z) : table :=
  mkTable
    (mkDB (opts (db t)) (streams (db t)) (later (clock (db t)) ts) (log (db t)))
    (getWhere t) (t_GroupBy t) (PartitionBy t)
    (rowStore t
     ++ [stored FromSortedKeysAndValues (t_GroupBy t) ts dims vals offset source])%list
    (mkStats (FilteredPoints (stats t)) (InsertedPoints (stats t) + 1)%N
       (QueuedPoints (stats t)) (SkippedPoints (stats t)))
    (tlog t).

(** The table once a point was filtered out: one more filtered
    point, nothing else. *)
Definition filteredOut (t : table) : table :=
  mkTable (db t) (getWhere t) (t_GroupBy t) (PartitionBy t) (rowStore t)
    (mkStats (FilteredPoints (stats t) + 1)%N (InsertedPoints (stats t))
       (QueuedPoints (stats t)) (SkippedPoints (stats t)))
    (tlog t).

(** The marker [skip] leaves for a frame that stored nothing. *)
Definition marker (offset : wal.Offset) (source : Z) : rowInsert :=
  mkInsert None None None offset source.

(** The WHERE clause of the table, if it has one, holds on [dims]. *)
Definition passes (t : table) (dims : ByteMap) : Prop :=
  match getWhere t with
  | None => True
  | Some where_ => where_ dims = Go.Bool true
  end.

(** [t'] is a later state of the table [t]: the same definition and
    the same database but for its clock, which has not gone back;
    the queue of the row store and the log have only grown. *)
Definition follows (t t' : table) : Prop :=
  getWhere t' = getWhere t
  /\ t_GroupBy t' = t_GroupBy t
  /\ PartitionBy t' = PartitionBy t
  /\ opts (db t') = opts (db t)
  /\ streams (db t') = streams (db t)
  /\ log (db t') = log (db t)
  /\ word.signed (clock (db t)) <= word.signed (clock (db t'))
  /\ rowStore t `prefix_of` rowStore t'
  /\ tlog t `prefix_of` tlog t'.

(** The reads the worker is sent for frames: the frame, the offset
    the log was at, and source 0. *)
Definition readsOf (frames : list (list byte * wal.Offset)) : list (walRead * bool) :=
  map (fun f => (mkWalRead (Some (fst f)) (snd f) 0, false)) frames.

(** Sample tables: three group-bys, of which the second has no value
    on any [dims] and the first none on empty [dims]; and a table
    with these and a WHERE clause. *)
Definition sampleGroupBy : list GroupBy :=
  [mkGroupBy "a" (fun dims => match dims with [] => Go.Nil | _ => Go.Str "x" end);
   mkGroupBy "b" (fun _ => Go.Nil);
   mkGroupBy "c" (fun _ => Go.Int 1)].

Definition tableWhere (where_ : Expr) : table :=
  mkTable samples.leader (Some where_) sampleGroupBy [] [] samples.noStats [].

(** A follower's table, and a partition that holds nothing. *)
Definition followerTable : table :=
  mkTable samples.follower None [] [] [] samples.noStats [].

(** A key builder that keeps the names with the values. *)
Definition sampleKey (names : list string) (values : list Go.value) : ByteMap :=
  (flat_map (fun n => list_byte_of_string n ++ [Byte.x00]) names
   ++ repeat Byte.x01 (length values))%list.

Definition ownsNone : unit -> ByteMap -> list string -> Z -> bool := fun _ _ _ _ => false.

End journal.

(* ================================================================== *)
(** * Properties of the wire helpers *)
(* ================================================================== *)

Module encoding_facts.
Import encoding.

Section WithBinary.
Variable Binary : ByteOrder.

Lemma length_PutUint_make n v : length (PutUint Binary n (make n) v) = n.
Proof.
  unfold PutUint, make. rewrite length_app, length_drop, repeat_length.
  destruct Binary; rewrite ?length_rev, length_le_split; lia.
Qed.

(** What is written at the head of a buffer is read back, reduced
    to the width of the field. *)
Lemma Uint_PutUint_app n v rest :
  Uint Binary n (PutUint Binary n (make n) v ++ rest) = v mod 2 ^ (Z.of_nat n * 8).
Proof.
  unfold Uint. rewrite take_app_length' by (symmetry; apply length_PutUint_make).
  unfold PutUint, make.
  rewrite drop_ge by (rewrite repeat_length; lia). rewrite app_nil_r.
  destruct Binary; rewrite ?rev_involutive; apply le_combine_split.
Qed.

Lemma TimeFromBytes_EncodeTime ts rest :
  TimeFromBytes Binary (EncodeTime Binary (make Width64bits) ts ++ rest) = ts.
Proof.
  unfold TimeFromBytes, EncodeTime. rewrite Uint_PutUint_app.
  change (2 ^ (Z.of_nat Width64bits * 8)) with (2 ^ 64).
  rewrite <- (word.of_Z_unsigned ts) at 2.
  f_equal. apply Z.mod_small.
  apply (word.unsigned_range ts).
Qed.

Lemma Read_app (a rest : list byte) :
  Read (a ++ rest) (Z.of_nat (length a)) = Go.Ok (a, rest).
Proof.
  unfold Read. rewrite length_app.
  replace ((0 <=? Z.of_nat (length a))
           && (Z.of_nat (length a) <=? Z.of_nat (length a + length rest)))
    with true by (symmetry; apply andb_true_iff; split; apply Z.leb_le; lia).
  rewrite Nat2Z.id, take_app_length, drop_app_length. reflexivity.
Qed.

Lemma ReadInt32_WriteInt32 i rest :
  ReadInt32 Binary (WriteInt32 Binary (make Width32bits) i ++ rest)
  = Go.Ok (i mod 2 ^ 32, rest).
Proof.
  unfold ReadInt32, WriteInt32.
  rewrite length_app, length_PutUint_make.
  replace (Width32bits <=? Width32bits + length rest)%nat with true
    by (symmetry; apply Nat.leb_le; lia).
  rewrite Uint_PutUint_app.
  rewrite drop_app_length' by (symmetry; apply length_PutUint_make).
  change (2 ^ (Z.of_nat Width32bits * 8)) with (2 ^ 32).
  rewrite Z.mod_mod by lia. reflexivity.
Qed.

End WithBinary.

Lemma copy_make {A} (x : A) (src : list A) :
  Go.copy (repeat x (length src)) src = src.
Proof.
  unfold Go.copy. rewrite repeat_length, firstn_all.
  rewrite drop_ge by (rewrite repeat_length; lia). apply app_nil_r.
Qed.

End encoding_facts.

(* ================================================================== *)
(** * Properties of the ingest path *)
(* ================================================================== *)

Module zenodb_facts.
Import encoding encoding_facts zenodb.

Section Writer.
Variable Binary : ByteOrder.
Variable IterateValues : ByteMap -> list (string * Go.value).
Variable Build : list (string * Go.value) -> ByteMap.
Variable ToLower : string -> string.
Variable TrimSpace : string -> string.
Variables (ts : Time) (dims : ByteMap).

#[local] Abbreviation frameBytes := (ingest.frameBytes Binary).
#[local] Abbreviation subInsert := (subInsert Binary Build ts dims).
#[local] Abbreviation visit := (visit Binary Build ts dims).
#[local] Abbreviation iterate := (iterate Binary Build ts dims).

Lemma Write_offered w bufs :
  wal.offered (snd (wal.Write w bufs)) = (wal.offered w ++ [concat bufs])%list.
Proof.
  unfold wal.Write, wal.offered.
  destruct (wal.pending w); cbn; rewrite map_app; reflexivity.
Qed.

Lemma doInsertRaw_offered db w vals :
  wal.offered (snd (fst (doInsertRaw Binary db w ts dims vals)))
  = (wal.offered w ++ [frameBytes ts dims vals])%list.
Proof.
  unfold doInsertRaw. pose proof (Write_offered w (frame Binary ts dims vals)) as H.
  destruct (wal.Write w (frame Binary ts dims vals)) as [[e|] w']; exact H.
Qed.

#[local] Abbreviation marked := ingest.marked.

Lemma subInsert_spec key st val :
  included (subInsert key st val) = included st
  /\ hasMainValue (subInsert key st val) = hasMainValue st
  /\ wal.offered (l_w (subInsert key st val))
     = (wal.offered (l_w st) ++ [frameBytes ts dims (Build [(key, val)])])%list.
Proof.
  unfold zenodb.subInsert.
  pose proof (doInsertRaw_offered (l_db st) (l_w st) (Build [(key, val)])) as H.
  destruct (doInsertRaw Binary (l_db st) (l_w st) ts dims (Build [(key, val)]))
    as [[e w'] db']. cbn in *. auto.
Qed.

Lemma subInserts_spec {A} (f : A -> Go.value) key (l : list A) : forall st,
  let st' := fold_left (fun st vi => subInsert key st (f vi)) l st in
  included st' = included st
  /\ hasMainValue st' = hasMainValue st
  /\ wal.offered (l_w st')
     = (wal.offered (l_w st)
        ++ map (fun p => frameBytes ts dims (Build [p])) (map (fun x => (key, f x)) l))%list.
Proof.
  induction l as [|x l IH]; intros st; cbn [fold_left map].
  - rewrite app_nil_r. auto.
  - destruct (IH (subInsert key st (f x))) as (Hi & Hm & Ho).
    destruct (subInsert_spec key st (f x)) as (Hi' & Hm' & Ho').
    cbn zeta. rewrite Hi, Hm, Ho, Hi', Hm', Ho', <- app_assoc. auto.
Qed.

Lemma marked_include key val st : marked (include key val st).
Proof. unfold ingest.marked, include. cbn. destruct (included st); reflexivity. Qed.

(** The callback on a value that is not an empty vector. *)
Lemma visit_spec key value st :
  ingest.emptyVector value = false ->
  marked st ->
  exists st',
    visit key value st = Go.Ok st'
    /\ marked st'
    /\ included st' = (included st ++ ingest.mainRow [(key, value)])%list
    /\ wal.offered (l_w st')
       = (wal.offered (l_w st)
          ++ map (fun p => frameBytes ts dims (Build [p]))
               (ingest.subRows [(key, value)]))%list.
Proof.
  intros Hne Hmk. unfold zenodb.visit, ingest.mainRow, ingest.subRows.
  destruct value as [|b|f|i|[|a r]|[|a r]|s|ty]; try discriminate Hne;
    cbn [omap list_omap flat_map ingest.expand fst snd lookup list_lookup drop map app].
  all: try (eexists; split; [reflexivity|]; cbn;
            rewrite ?app_nil_r; repeat split; auto using marked_include; fail).
  - change (drop 0 r) with r.
    set (st1 := include key (Go.Float64 a) st).
    destruct (subInserts_spec Go.Float64 key r st1) as (Hi & Hm & Ho).
    eexists; split; [reflexivity|]. rewrite app_nil_r.
    repeat split.
    + unfold ingest.marked. rewrite Hi, Hm. apply marked_include.
    + rewrite Hi. reflexivity.
    + rewrite Ho, !map_map. reflexivity.
  - change (drop 0 r) with r.
    set (st1 := include key (Go.Float64 (Go.float64_of_int a)) st).
    destruct (subInserts_spec (fun i => Go.Float64 (Go.float64_of_int i)) key r st1)
      as (Hi & Hm & Ho).
    eexists; split; [reflexivity|]. rewrite app_nil_r.
    repeat split.
    + unfold ingest.marked. rewrite Hi, Hm. apply marked_include.
    + rewrite Hi. reflexivity.
    + rewrite Ho, !map_map. reflexivity.
Qed.

Lemma mainRow_cons kv kvs :
  ingest.mainRow (kv :: kvs) = (ingest.mainRow [kv] ++ ingest.mainRow kvs)%list.
Proof.
  unfold ingest.mainRow. cbn [omap list_omap].
  destruct (ingest.expand (snd kv)) as [[first more]|]; reflexivity.
Qed.

Lemma subRows_cons kv kvs :
  ingest.subRows (kv :: kvs) = (ingest.subRows [kv] ++ ingest.subRows kvs)%list.
Proof. unfold ingest.subRows. cbn [flat_map]. rewrite app_nil_r. reflexivity. Qed.

(** The walk over values none of which is an empty vector. *)
Lemma iterate_spec kvs : forall st,
  Forall (fun kv => ingest.emptyVector (snd kv) = false) kvs ->
  marked st ->
  exists st',
    iterate kvs st = (st', None)
    /\ marked st'
    /\ included st' = (included st ++ ingest.mainRow kvs)%list
    /\ wal.offered (l_w st')
       = (wal.offered (l_w st)
          ++ map (fun p => frameBytes ts dims (Build [p])) (ingest.subRows kvs))%list.
Proof.
  induction kvs as [|[key value] kvs IH]; intros st Hall Hmk.
  - exists st. cbn. rewrite !app_nil_r. auto.
  - inversion Hall as [|? ? Hhd Htl]; subst.
    destruct (visit_spec key value st Hhd Hmk) as (st1 & Hv & Hmk1 & Hi1 & Ho1).
    destruct (IH st1 Htl Hmk1) as (st2 & Hit & Hmk2 & Hi2 & Ho2).
    exists st2. cbn [zenodb.iterate]. rewrite Hv.
    split; [exact Hit|]. split; [exact Hmk2|].
    rewrite mainRow_cons, subRows_cons, map_app, Hi2, Ho2, Hi1, Ho1, <- !app_assoc.
    auto.
Qed.

(** The walk over values one of which is an empty vector. *)
Lemma visit_panic key value st :
  ingest.emptyVector value = true -> visit key value st = Go.Panic Go.IndexOutOfRange.
Proof.
  destruct value as [|b|f|i|[|a r]|[|a r]|s|ty]; try discriminate; reflexivity.
Qed.

Lemma visit_panic_kind key value st p :
  visit key value st = Go.Panic p -> p = Go.IndexOutOfRange.
Proof.
  destruct value as [|b|f|i|[|a r]|[|a r]|s|ty]; cbn; congruence.
Qed.

Lemma iterate_panic kvs : forall st,
  Exists (fun kv => ingest.emptyVector (snd kv) = true) kvs ->
  exists st', iterate kvs st = (st', Some Go.IndexOutOfRange).
Proof.
  induction kvs as [|[key value] kvs IH]; intros st Hex.
  - inversion Hex.
  - cbn [zenodb.iterate].
    destruct (visit key value st) as [st1|p] eqn:Hv.
    + apply IH. inversion Hex as [? ? Hhd|? ? Htl]; subst; [|exact Htl].
      cbn in Hhd. rewrite (visit_panic key value st Hhd) in Hv. discriminate Hv.
    + exists st. rewrite (visit_panic_kind _ _ _ _ Hv). reflexivity.
Qed.

Lemma In_mainRow k v first more kvs :
  In (k, v) kvs -> ingest.expand v = Some (first, more) ->
  In (k, first) (ingest.mainRow kvs).
Proof.
  intros Hin He. induction kvs as [|kv kvs IH]; [inversion Hin|].
  rewrite mainRow_cons. apply in_or_app. destruct Hin as [->|Hin].
  - left. unfold ingest.mainRow. cbn. rewrite He. left. reflexivity.
  - right. auto.
Qed.

Lemma In_subRows k v first more kvs x :
  In (k, v) kvs -> ingest.expand v = Some (first, more) -> In x more ->
  In (k, x) (ingest.subRows kvs).
Proof.
  intros Hin He Hx. unfold ingest.subRows. apply in_flat_map.
  exists (k, v). split; [exact Hin|]. cbn. rewrite He.
  apply in_map_iff. exists x. auto.
Qed.

Lemma elements_expand vec a1 more :
  ingest.elements vec = Some (a1 :: more) ->
  ingest.expand vec = Some (Go.Float64 a1, map Go.Float64 more).
Proof.
  destruct vec as [|b|f|i|[|a r]|[|a r]|s|ty]; cbn; try discriminate.
  - intros H; inversion H; subst. reflexivity.
  - intros H; inversion H; subst. rewrite map_map. reflexivity.
Qed.

#[local] Abbreviation InsertRaw := (InsertRaw Binary IterateValues Build ToLower TrimSpace).

(** [InsertRaw] on a leader that knows the stream, none of the
    values being an empty vector: the log is handed the rows
    written apart, then the main row if there is one. *)
Lemma InsertRaw_spec db stream vals w :
  Follow (opts db) = None ->
  streams db !! ingest.normalized ToLower TrimSpace stream = Some w ->
  Forall (fun kv => ingest.emptyVector (snd kv) = false) (IterateValues vals) ->
  exists err db' w',
    InsertRaw db stream ts dims vals = (db', Go.Ok err)
    /\ streams db' !! ingest.normalized ToLower TrimSpace stream = Some w'
    /\ wal.offered w'
       = (wal.offered w
          ++ map (fun p => frameBytes ts dims (Build [p]))
               (ingest.subRows (IterateValues vals))
          ++ match ingest.mainRow (IterateValues vals) with
             | [] => []
             | main => [frameBytes ts dims (Build main)]
             end)%list.
Proof.
  intros Hf Hs Hall. unfold zenodb.InsertRaw.
  rewrite Hf. fold (ingest.normalized ToLower TrimSpace stream). rewrite Hs.
  destruct (iterate_spec (IterateValues vals) (mkLocals db w None false []) Hall eq_refl)
    as (st & Hit & Hmk & Hi & Ho).
  cbn [included l_w app] in Hi, Ho.
  fold iterate. rewrite Hit. unfold ingest.marked in Hmk. rewrite Hi in Hmk.
  rewrite Hmk, Hi.
  destruct (ingest.mainRow (IterateValues vals)) as [|m ms] eqn:Hmain.
  - do 3 eexists. split; [reflexivity|]. split.
    + unfold DB_setStream. cbn [streams]. apply lookup_insert_eq.
    + rewrite Ho, app_nil_r. reflexivity.
  - pose proof (doInsertRaw_offered (l_db st) (l_w st) (Build (m :: ms))) as Hw.
    destruct (doInsertRaw Binary (l_db st) (l_w st) ts dims (Build (m :: ms)))
      as [[e w'] db'].
    do 3 eexists. split; [reflexivity|]. split.
    + unfold DB_setStream. cbn [streams]. apply lookup_insert_eq.
    + cbn [fst snd] in Hw. rewrite Hw, Ho, <- app_assoc. reflexivity.
Qed.

Lemma InsertRaw_panic db stream vals w :
  Follow (opts db) = None ->
  streams db !! ingest.normalized ToLower TrimSpace stream = Some w ->
  Exists (fun kv => ingest.emptyVector (snd kv) = true) (IterateValues vals) ->
  exists db', InsertRaw db stream ts dims vals = (db', Go.Panic Go.IndexOutOfRange).
Proof.
  intros Hf Hs Hex. unfold zenodb.InsertRaw.
  rewrite Hf. fold (ingest.normalized ToLower TrimSpace stream). rewrite Hs.
  destruct (iterate_panic (IterateValues vals) (mkLocals db w None false []) Hex)
    as (st & Hit).
  fold iterate. rewrite Hit. eexists. reflexivity.
Qed.

End Writer.

Section Worker.
Variable Binary : ByteOrder.
Variable Hash32 : Type.
Variable truncateBefore : table -> Time.
Variable inPartition : Hash32 -> ByteMap -> list string -> Z -> bool.
Variable FromSortedKeysAndValues : list string -> list Go.value -> ByteMap.

#[local] Abbreviation insert :=
  (insert Binary Hash32 truncateBefore inPartition FromSortedKeysAndValues).
#[local] Abbreviation doInsert := (doInsert FromSortedKeysAndValues).
#[local] Abbreviation processRead :=
  (processRead Binary Hash32 truncateBefore inPartition FromSortedKeysAndValues).

#[local] Abbreviation decodes_to :=
  (ingest.decodes_to Binary Hash32 truncateBefore inPartition FromSortedKeysAndValues).

Lemma Read_head n v rest :
  Read (PutUint Binary n (make n) v ++ rest) (Z.of_nat n)
  = Go.Ok (PutUint Binary n (make n) v, rest).
Proof.
  rewrite <- (length_PutUint_make Binary n v) at 3. apply Read_app.
Qed.

Lemma Read_zero (b : list byte) : Read b 0 = Go.Ok ([], b).
Proof.
  unfold Read.
  replace ((0 <=? 0) && (0 <=? Z.of_nat (length b))) with true
    by (symmetry; apply andb_true_iff; split; apply Z.leb_le; lia).
  reflexivity.
Qed.

Lemma ReadInt32_zeros (rest : list byte) :
  ReadInt32 Binary (Byte.x00 :: Byte.x00 :: Byte.x00 :: Byte.x00 :: rest)
  = Go.Ok (0, rest).
Proof. unfold ReadInt32, Uint. destruct Binary; reflexivity. Qed.

(** A length of 2^32 is written as 0: the frame of such [dims] is
    read as a point without dimensions and without values. *)
Lemma insert_frame_wrapped t ts m isFollower h offset source :
  Z.of_nat (4 + m) = 2 ^ 32 ->
  insert t (concat (frame Binary ts (repeat Byte.x00 (4 + m)) [])) isFollower h
    offset source
  = if Before ts (truncateBefore t) then (t, false)
    else if isFollower
            && negb (inPartition h [] (PartitionBy t) (Partition (opts (db t))))
    then (t, false)
    else match doInsert t ts [] [] offset source with
         | Go.Ok r => r
         | Go.Panic p => (table_log t (LogPanic p), false)
         end.
Proof.
  intros Hm. unfold zenodb.insert, frame.
  cbn [concat]. rewrite app_nil_r.
  unfold EncodeTime at 1. rewrite Read_head. cbn [mbind res_bind Go.bind].
  fold (EncodeTime Binary (make Width64bits) ts).
  rewrite <- (app_nil_r (EncodeTime _ _ _)), TimeFromBytes_EncodeTime.
  destruct (Before ts (truncateBefore t)); [reflexivity|].
  rewrite ReadInt32_WriteInt32. cbn [mbind res_bind Go.bind].
  rewrite repeat_length, Hm, Z_mod_same_full.
  rewrite Read_zero. cbn [mbind res_bind Go.bind].
  destruct (isFollower && negb _); [reflexivity|].
  cbn [repeat Nat.add app].
  rewrite ReadInt32_zeros. cbn [mbind res_bind Go.bind].
  rewrite Read_zero. cbn [mbind res_bind Go.bind].
  reflexivity.
Qed.

(** ** Staleness *)

Lemma insert_stale t d isFollower h offset source :
  (Width64bits <= length d)%nat ->
  Before (TimeFromBytes Binary (take Width64bits d)) (truncateBefore t) = true ->
  insert t d isFollower h offset source = (t, false).
Proof.
  intros Hlen Hstale. unfold zenodb.insert, Read.
  replace ((0 <=? Z.of_nat Width64bits) && (Z.of_nat Width64bits <=? Z.of_nat (length d)))
    with true by (symmetry; apply andb_true_iff; split; apply Z.leb_le; lia).
  cbn [mbind res_bind Go.bind]. rewrite Nat2Z.id, Hstale. reflexivity.
Qed.

Lemma processRead_table isFollower h t c read minutePassed :
  fst (processRead isFollower h (t, c) (read, minutePassed))
  = match data read with
    | None => t
    | Some d =>
        let r := insert t d isFollower h (r_offset read) (r_source read) in
        if snd r then fst r else skip (fst r) (r_offset read) (r_source read)
    end.
Proof.
  unfold zenodb.processRead. destruct (data read) as [d|]; [|reflexivity].
  destruct (insert t d isFollower h (r_offset read) (r_source read)) as [t' ok].
  destruct ok, minutePassed; reflexivity.
Qed.

(** ** Counters *)

#[local] Abbreviation counted := ingest.counted.

Lemma counted_same t t' : stats t' = stats t -> counted t t' false.
Proof.
  intros E. unfold ingest.counted, ingest.bumped. rewrite E.
  repeat split; auto. apply eq_sym, N.add_0_r.
Qed.

Lemma counted_refl t : counted t t false.
Proof. apply counted_same. reflexivity. Qed.

Lemma doInsert_counted t ts dims vals offset source t' ok :
  doInsert t ts dims vals offset source = Go.Ok (t', ok) -> counted t t' ok.
Proof.
  unfold zenodb.doInsert, ingest.counted, ingest.bumped.
  destruct (getWhere t) as [w|]; [destruct (w dims) as [|[]| | | | | |]|];
    intros H; inversion H; subst; clear H; cbn; repeat split; auto using N.add_0_r.
  all: try (left; reflexivity).
  all: try (symmetry; apply N.add_0_r).
Qed.

Lemma insert_counted t d isFollower h offset source :
  counted t (fst (insert t d isFollower h offset source))
    (snd (insert t d isFollower h offset source)).
Proof.
  unfold zenodb.insert, mbind, res_bind.
  repeat match goal with
         | |- context [Go.bind ?m _] =>
             destruct m as [[? ?]|?]; cbn [Go.bind fst snd]
         | |- context [if ?b then _ else _] => destruct b; cbn [fst snd]
         end;
    try (apply counted_same; reflexivity).
  all: match goal with
       | |- context [zenodb.doInsert ?f ?a ?b ?c ?e ?g ?i] =>
           destruct (zenodb.doInsert f a b c e g i) as [[t' ok]|p] eqn:E;
           cbn [fst snd];
           [eapply doInsert_counted; eassumption | apply counted_same; reflexivity]
       end.
Qed.

#[local] Abbreviation apply :=
  (ingest.apply Binary Hash32 truncateBefore inPartition FromSortedKeysAndValues).
#[local] Abbreviation run :=
  (ingest.run Binary Hash32 truncateBefore inPartition FromSortedKeysAndValues).

Lemma skip_counted t offset source : counted t (skip t offset source) false.
Proof. apply counted_same. reflexivity. Qed.

Lemma apply_counted t o : counted t (fst (apply t o)) (snd (apply t o)).
Proof.
  destruct o as [d f h off src|off src|ts dims vals off src| |f h read mp];
    cbn [ingest.apply fst snd].
  - apply insert_counted.
  - apply skip_counted.
  - destruct (doInsert t ts dims vals off src) as [[t' ok]|p] eqn:E; cbn [fst snd].
    + eapply doInsert_counted; eassumption.
    + apply counted_refl.
  - unfold ingest.counted, ingest.bumped; cbn. repeat split; auto using N.add_0_r.
  - rewrite processRead_table. destruct (data read) as [d|]; [|apply counted_refl].
    pose proof (insert_counted t d f h (r_offset read) (r_source read)) as C.
    cbn zeta. destruct (snd (insert t d f h (r_offset read) (r_source read))); exact C.
Qed.

Lemma run_counted ops : forall t,
  InsertedPoints (stats (fst (run t ops)))
  = (InsertedPoints (stats t) + N.of_nat (snd (run t ops)))%N
  /\ (FilteredPoints (stats t) <= FilteredPoints (stats (fst (run t ops))))%N
  /\ (QueuedPoints (stats t) <= QueuedPoints (stats (fst (run t ops))))%N.
Proof.
  induction ops as [|o ops IH]; intros t; cbn [ingest.run].
  - cbn. rewrite N.add_0_r. repeat split; reflexivity.
  - pose proof (apply_counted t o) as (Hi & Hf & Hq).
    destruct (apply t o) as [t1 ok]. cbn [fst snd] in *.
    specialize (IH t1). destruct (run t1 ops) as [t2 n]. cbn [fst snd] in *.
    destruct IH as (IHi & IHf & IHq). unfold ingest.bumped in *.
    rewrite IHi, Hi. destruct ok; repeat split; lia.
Qed.

End Worker.

(** ** The frame of a point is read back as that point *)

(** C1, as the code has it: for every point whose [dims] and [vals]
    are each shorter than 2^32 bytes, the frame [doInsertRaw] writes,
    enc64(ts) ‖ enc32(len(dims)) ‖ dims ‖ enc32(len(vals)) ‖ vals, is
    decoded by [table.insert] into the same timestamp, the same
    [dims] bytes and the same [vals] bytes, copied: the staleness
    test, the partition test and [doInsert] are given exactly these.
    This holds for either byte order of [encoding.Binary]. *)
Theorem wal_frame_roundtrip
    (Binary : ByteOrder) (Hash32 : Type) (truncateBefore : table -> Time)
    (inPartition : Hash32 -> ByteMap -> list string -> Z -> bool)
    (FromSortedKeysAndValues : list string -> list Go.value -> ByteMap)
    (t : table) (ts : Time) (dims vals : ByteMap)
    (isFollower : bool) (h : Hash32) (offset : wal.Offset) (source : Z) :
  Z.of_nat (length dims) < 2 ^ 32 ->
  Z.of_nat (length vals) < 2 ^ 32 ->
  ingest.decodes_to Binary Hash32 truncateBefore inPartition FromSortedKeysAndValues
    t (concat (frame Binary ts dims vals)) ts dims vals isFollower h offset source.
Proof.
  intros Hd Hv. unfold ingest.decodes_to, zenodb.insert, frame.
  cbn [concat]. rewrite app_nil_r.
  (* the timestamp *)
  unfold EncodeTime at 1. rewrite Read_head. cbn [mbind res_bind Go.bind].
  fold (EncodeTime Binary (make Width64bits) ts).
  rewrite <- (app_nil_r (EncodeTime _ _ _)), TimeFromBytes_EncodeTime.
  destruct (Before ts (truncateBefore t)); [reflexivity|].
  (* the dimensions: their length fits the 32 bits it is written in *)
  rewrite ReadInt32_WriteInt32. cbn [mbind res_bind Go.bind].
  rewrite (Z.mod_small (Z.of_nat (length dims))) by lia.
  rewrite Read_app. cbn [mbind res_bind Go.bind].
  destruct (isFollower && negb _); [reflexivity|].
  (* the values *)
  rewrite ReadInt32_WriteInt32. cbn [mbind res_bind Go.bind].
  rewrite (Z.mod_small (Z.of_nat (length vals))) by lia.
  rewrite <- (app_nil_r vals) at 1. rewrite Read_app. cbn [mbind res_bind Go.bind].
  (* the copies *)
  unfold make. rewrite !copy_make. reflexivity.
Qed.

Lemma wal_frame_roundtrip_witness :
  Z.of_nat (length [Byte.x01; Byte.x02]) < 2 ^ 32
  /\ Z.of_nat (length [Byte.x03]) < 2 ^ 32
  /\ ingest.decodes_to BigEndian unit samples.keepAll samples.ownsAll samples.noKey
       samples.emptyTable
       (concat (frame BigEndian (word.of_Z 7) [Byte.x01; Byte.x02] [Byte.x03]))
       (word.of_Z 7) [Byte.x01; Byte.x02] [Byte.x03] false tt 5 0.
Proof.
  split; [simpl; lia|]. split; [simpl; lia|].
  apply wal_frame_roundtrip; simpl; lia.
Defined.

(** C1, as stated, fails for a point whose [dims] are 2^32 bytes
    long: their length is written as 0 and the frame is read back as
    a point with empty [dims] and empty [vals]. *)
Lemma wal_frame_roundtrip_fails_at_4GiB :
  ~ ingest.decodes_to BigEndian unit samples.keepAll samples.ownsAll samples.noKey
      samples.emptyTable
      (concat (frame BigEndian (word.of_Z 7) samples.dims4GiB []))
      (word.of_Z 7) samples.dims4GiB [] false tt 5 0.
Proof.
  unfold ingest.decodes_to, samples.dims4GiB.
  assert (Hm : Z.of_nat (4 + Z.to_nat 4294967292) = 2 ^ 32) by lia.
  revert Hm. generalize (Z.to_nat 4294967292). intros m Hm H.
  rewrite insert_frame_wrapped in H by exact Hm.
  replace (Before (word.of_Z 7) (samples.keepAll samples.emptyTable)) with false in H
    by reflexivity.
  cbn in H. discriminate H.
Qed.

(** ** A stale frame is skipped *)

(** C4: a frame whose decoded timestamp is before
    [t.truncateBefore()] makes [table.insert] return false with the
    table untouched, so without a call of [doInsert]; the worker
    then calls [skip], which hands the row store an item whose key,
    tsparams and dims are nil and which carries the offset and the
    source of the frame; [InsertedPoints], like every counter, stays
    as it was. *)
Theorem staleness_drop
    (Binary : ByteOrder) (Hash32 : Type) (truncateBefore : table -> Time)
    (inPartition : Hash32 -> ByteMap -> list string -> Z -> bool)
    (FromSortedKeysAndValues : list string -> list Go.value -> ByteMap)
    (t : table) (read : walRead) (d : list byte) (isFollower : bool) (h : Hash32)
    (c : counters) (minutePassed : bool) :
  data read = Some d ->
  (Width64bits <= length d)%nat ->
  Before (TimeFromBytes Binary (take Width64bits d)) (truncateBefore t) = true ->
  insert Binary Hash32 truncateBefore inPartition FromSortedKeysAndValues
    t d isFollower h (r_offset read) (r_source read) = (t, false)
  /\ let t' := fst (processRead Binary Hash32 truncateBefore inPartition
                      FromSortedKeysAndValues isFollower h (t, c) (read, minutePassed)) in
     t' = skip t (r_offset read) (r_source read)
     /\ rowStore t'
        = (rowStore t ++ [mkInsert None None None (r_offset read) (r_source read)])%list
     /\ stats t' = stats t
     /\ InsertedPoints (stats t') = InsertedPoints (stats t).
Proof.
  intros Hd Hlen Hstale.
  pose proof (insert_stale Binary Hash32 truncateBefore inPartition
                FromSortedKeysAndValues t d isFollower h (r_offset read)
                (r_source read) Hlen Hstale) as Hi.
  split; [exact Hi|].
  cbn zeta. rewrite processRead_table, Hd. cbn zeta. rewrite Hi. cbn [fst snd].
  repeat split; reflexivity.
Qed.

Lemma staleness_drop_witness :
  let d := ingest.frameBytes BigEndian (word.of_Z 7) [Byte.x01] [Byte.x02] in
  let read := mkWalRead (Some d) 5 0 in
  data read = Some d
  /\ (Width64bits <= length d)%nat
  /\ Before (TimeFromBytes BigEndian (take Width64bits d))
       (samples.keepFrom100 samples.emptyTable) = true
  /\ rowStore (fst (processRead BigEndian unit samples.keepFrom100 samples.ownsAll
                      samples.noKey false tt (samples.emptyTable, mkCounters 0 0 0)
                      (read, false)))
     = [mkInsert None None None 5 0].
Proof.
  cbn zeta.
  assert (H1 : (Width64bits
                <= length (ingest.frameBytes BigEndian (word.of_Z 7) [Byte.x01] [Byte.x02]))%nat)
    by (vm_compute; lia).
  assert (H2 : Before (TimeFromBytes BigEndian
                         (take Width64bits
                            (ingest.frameBytes BigEndian (word.of_Z 7) [Byte.x01] [Byte.x02])))
                 (samples.keepFrom100 samples.emptyTable) = true)
    by reflexivity.
  split; [reflexivity|]. split; [exact H1|]. split; [exact H2|].
  exact (proj1 (proj2 (proj2
           (staleness_drop BigEndian unit samples.keepFrom100 samples.ownsAll
              samples.noKey samples.emptyTable
              (mkWalRead
                 (Some (ingest.frameBytes BigEndian (word.of_Z 7) [Byte.x01] [Byte.x02]))
                 5 0)
              _ false tt (mkCounters 0 0 0) false eq_refl H1 H2)))).
Defined.

(** ** The counters only grow *)

(** C9: every operation of insert.go on a table leaves each of
    [FilteredPoints], [InsertedPoints] and [QueuedPoints] as it was
    or one higher; over any run of operations none of them
    decreases, and [InsertedPoints] grows by exactly the number of
    calls of [doInsert] that returned true. *)
Theorem stats_counters_monotonic
    (Binary : ByteOrder) (Hash32 : Type) (truncateBefore : table -> Time)
    (inPartition : Hash32 -> ByteMap -> list string -> Z -> bool)
    (FromSortedKeysAndValues : list string -> list Go.value -> ByteMap) :
  (forall (t : table) (o : ingest.op Hash32),
      let t' := fst (ingest.apply Binary Hash32 truncateBefore inPartition
                       FromSortedKeysAndValues t o) in
      ingest.bumped (FilteredPoints (stats t)) (FilteredPoints (stats t'))
      /\ ingest.bumped (InsertedPoints (stats t)) (InsertedPoints (stats t'))
      /\ ingest.bumped (QueuedPoints (stats t)) (QueuedPoints (stats t')))
  /\ (forall (t : table) (ops : list (ingest.op Hash32)),
        let r := ingest.run Binary Hash32 truncateBefore inPartition
                   FromSortedKeysAndValues t ops in
        (FilteredPoints (stats t) <= FilteredPoints (stats (fst r)))%N
        /\ (InsertedPoints (stats t) <= InsertedPoints (stats (fst r)))%N
        /\ (QueuedPoints (stats t) <= QueuedPoints (stats (fst r)))%N
        /\ InsertedPoints (stats (fst r))
           = (InsertedPoints (stats t) + N.of_nat (snd r))%N).
Proof.
  split.
  - intros t o. cbn zeta.
    destruct (apply_counted Binary Hash32 truncateBefore inPartition
                FromSortedKeysAndValues t o) as (Hi & Hf & Hq).
    repeat split; try assumption.
    unfold ingest.bumped. rewrite Hi.
    destruct (snd _); [right; reflexivity | left; apply N.add_0_r].
  - intros t ops. cbn zeta.
    destruct (run_counted Binary Hash32 truncateBefore inPartition
                FromSortedKeysAndValues ops t) as (Hi & Hf & Hq).
    repeat split; try assumption. rewrite Hi. lia.
Qed.


(** ** Vectors are written as several rows *)

(** C5, as the code has it: for every call of [InsertRaw] that the
    follower and stream checks admit and whose [vals] hold no empty
    vector, a vector [a1 :: more] (a []float64, or a []int promoted
    to float64) under key [k] has [a1] in the one main row, which
    carries every scalar field too, and each element of [more] in a
    row of its own whose [vals] hold only [k], all with the [dims]
    and the timestamp of the call; the rows handed to the log are
    these, the rows the other vectors give in the same way, and no
    other. *)
Theorem vector_expansion_admitted
    (Binary : ByteOrder) (IterateValues : ByteMap -> list (string * Go.value))
    (Build : list (string * Go.value) -> ByteMap)
    (ToLower TrimSpace : string -> string)
    (db : DB) (stream : string) (ts : Time) (dims vals : ByteMap) (w : wal.WAL)
    (k : string) (vec : Go.value) (a1 : float) (more : list float) :
  Follow (opts db) = None ->
  streams db !! ingest.normalized ToLower TrimSpace stream = Some w ->
  Forall (fun kv => ingest.emptyVector (snd kv) = false) (IterateValues vals) ->
  In (k, vec) (IterateValues vals) ->
  ingest.elements vec = Some (a1 :: more) ->
  ingest.vector_expansion Binary IterateValues Build ToLower TrimSpace
    db stream ts dims vals k a1 more.
Proof.
  intros Hf Hs Hall Hin Hel.
  pose proof (elements_expand vec a1 more Hel) as Hex.
  destruct (InsertRaw_spec Binary IterateValues Build ToLower TrimSpace ts dims
              db stream vals w Hf Hs Hall)
    as (err & db' & w' & Hcall & Hs' & Ho).
  destruct (in_split _ _ Hin) as (before & after & Hsplit).
  assert (Hsub : ingest.subRows (IterateValues vals)
                 = (ingest.subRows before
                    ++ map (fun a => (k, Go.Float64 a)) more
                    ++ ingest.subRows after)%list).
  { rewrite Hsplit. unfold ingest.subRows. rewrite flat_map_app. cbn [flat_map snd fst].
    rewrite Hex, map_map. reflexivity. }
  assert (Hmain : ingest.mainRow (IterateValues vals)
                  = (ingest.mainRow before
                     ++ (k, Go.Float64 a1) :: ingest.mainRow after)%list).
  { rewrite Hsplit. unfold ingest.mainRow. rewrite omap_app. cbn [omap list_omap snd fst].
    rewrite Hex. reflexivity. }
  exists err, db', w, w', before, after, vec.
  split; [exact Hcall|]. split; [exact Hs|]. split; [exact Hs'|].
  split; [exact Hsplit|]. split; [exact Hel|].
  split.
  { rewrite Ho, Hsub, Hmain.
    destruct (ingest.mainRow before); reflexivity. }
  split.
  - intros k' f Hk. rewrite <- Hmain. eapply In_mainRow; [exact Hk|reflexivity].
  - intros k' i Hk. rewrite <- Hmain. eapply In_mainRow; [exact Hk|reflexivity].
Qed.

Lemma vector_expansion_admitted_witness :
  Follow (opts samples.withEvents) = None
  /\ streams samples.withEvents !! ingest.normalized samples.lowerASCII samples.trimASCII " Events "
     = Some (wal.mkWAL [] [])
  /\ Forall (fun kv => ingest.emptyVector (snd kv) = false)
       (samples.sampleValues [Byte.x01])
  /\ In ("k", Go.Float64s [1%float; 2%float; 3%float]) (samples.sampleValues [Byte.x01])
  /\ ingest.vector_expansion BigEndian samples.sampleValues samples.sampleBuild
       samples.lowerASCII samples.trimASCII
       samples.withEvents " Events " (word.of_Z 7) [Byte.x09] [Byte.x01]
       "k" 1%float [2%float; 3%float].
Proof.
  assert (H1 : Follow (opts samples.withEvents) = None) by reflexivity.
  assert (H2 : streams samples.withEvents !! ingest.normalized
      samples.lowerASCII samples.trimASCII " Events "
               = Some (wal.mkWAL [] [])) by (vm_compute; reflexivity).
  assert (H3 : Forall (fun kv => ingest.emptyVector (snd kv) = false)
                 (samples.sampleValues [Byte.x01]))
    by (repeat constructor).
  assert (H4 : In ("k", Go.Float64s [1%float; 2%float; 3%float])
                 (samples.sampleValues [Byte.x01]))
    by (cbn; auto).
  repeat split; try assumption.
  exact (vector_expansion_admitted BigEndian samples.sampleValues samples.sampleBuild
          
               samples.lowerASCII samples.trimASCII
               samples.withEvents " Events " (word.of_Z 7) [Byte.x09] [Byte.x01]
           (wal.mkWAL [] []) "k" (Go.Float64s [1%float; 2%float; 3%float])
           1%float [2%float; 3%float] H1 H2 H3 H4 eq_refl).
Defined.

(** C5, as stated, fails for two calls whose [vals] hold a vector
    under "k".  On a follower the call is refused and nothing is
    written.  On a leader, when [vals] hold after the vector [1, 2] an
    empty vector under "j", the row of 2 is written, then the call
    panics and no main row is. *)
Lemma vector_expansion_fails :
  (In ("k", Go.Float64s [1%float; 2%float; 3%float]) (samples.sampleValues [Byte.x01])
   /\ ~ ingest.vector_expansion BigEndian samples.sampleValues samples.sampleBuild
       samples.lowerASCII samples.trimASCII
          samples.follower "events" (word.of_Z 7) [Byte.x09] [Byte.x01]
          "k" 1%float [2%float; 3%float])
  /\ (Follow (opts samples.withEvents) = None
      /\ streams samples.withEvents !! ingest.normalized
          samples.lowerASCII samples.trimASCII "events" = Some (wal.mkWAL [] [])
      /\ In ("k", Go.Float64s [1%float; 2%float]) (samples.sampleValues [Byte.x02])
      /\ ~ ingest.vector_expansion BigEndian samples.sampleValues samples.sampleBuild
       samples.lowerASCII samples.trimASCII
             samples.withEvents "events" (word.of_Z 7) [Byte.x09] [Byte.x02]
             "k" 1%float [2%float]).
Proof.
  split.
  - split; [cbn; auto|].
    intros (err & db' & w & w' & before & after & vec
            & Hcall & Hw & Hw' & _ & _ & Ho & _).
    change (InsertRaw BigEndian samples.sampleValues samples.sampleBuild
        samples.lowerASCII samples.trimASCII samples.follower
              "events" (word.of_Z 7) [Byte.x09] [Byte.x01])
      with (samples.follower,
            @Go.Ok (option error) (Some "Declining to insert data directly to follower"))
      in Hcall.
    injection Hcall as <- _. rewrite Hw in Hw'. injection Hw' as <-.
    apply (f_equal (@length _)) in Ho. rewrite !length_app in Ho. cbn in Ho. lia.
  - split; [reflexivity|]. split; [vm_compute; reflexivity|]. split; [cbn; auto|].
    intros (err & db' & w & w' & before & after & vec & Hcall & _).
    vm_compute in Hcall. discriminate Hcall.
Qed.

(** The rows of the first call on a leader, in the order written:
    "k" = 2 and "k" = 3 for the vector under "k", "n" = 5 for the
    vector under "n", then the main row with "x", the first elements
    of the two vectors and nothing of the string. *)
Example vector_rows_run :
  let '(db', r) :=
    InsertRaw BigEndian samples.sampleValues samples.sampleBuild
      samples.lowerASCII samples.trimASCII
      samples.withEvents "events" (word.of_Z 7) [Byte.x09] [Byte.x01] in
  r = Go.Ok None
  /\ option_map wal.offered (streams db' !! "events")
     = Some (map (fun row => ingest.frameBytes BigEndian (word.of_Z 7) [Byte.x09]
                               (samples.sampleBuild row))
               [[("k", Go.Float64 2%float)];
                [("k", Go.Float64 3%float)];
                [("n", Go.Float64 5%float)];
                [("x", Go.Float64 1.5%float); ("k", Go.Float64 1%float);
                 ("n", Go.Float64 4%float)]]).
Proof. vm_compute. split; reflexivity. Qed.

(** What the second call leaves: the log was handed the single row
    of "k" = 2 and the call ended in a panic. *)
Example vector_then_empty_vector_run :
  let '(db', r) :=
    InsertRaw BigEndian samples.sampleValues samples.sampleBuild
        samples.lowerASCII samples.trimASCII
      samples.withEvents "events" (word.of_Z 7) [Byte.x09] [Byte.x02] in
  r = Go.Panic Go.IndexOutOfRange
  /\ option_map wal.offered (streams db' !! "events")
     = Some [ingest.frameBytes BigEndian (word.of_Z 7) [Byte.x09]
               (samples.sampleBuild [("k", Go.Float64 2%float)])].
Proof. vm_compute. split; reflexivity. Qed.

(** ** Inserts that are refused *)

Example normalized_stream_name :
  ingest.normalized samples.lowerASCII samples.trimASCII "  My_Events " = "my_events".
Proof. reflexivity. Qed.

Example float64_of_int_values :
  Go.float64_of_int 3 = 3%float /\ Go.float64_of_int (-2) = (-2)%float.
Proof. split; reflexivity. Qed.


(** C8: on a database configured as a follower, [InsertRaw] and
    [Insert] fail with the follower error and return the database
    as it was, whatever the stream; otherwise the stream name is
    lowercased and trimmed, by [strings.ToLower] and
    [strings.TrimSpace] whatever they make of the name, and when no
    log is registered under that name they fail with the
    unknown-stream error, the database again as it was: in both cases
    no log was written to. *)
Theorem insert_refused
    (Binary : ByteOrder) (IterateValues : ByteMap -> list (string * Go.value))
    (Build : list (string * Go.value) -> ByteMap)
    (New : gmap string Go.value -> ByteMap)
    (ToLower TrimSpace : string -> string)
    (db : DB) (stream : string) (ts : Time) :
  (Follow (opts db) <> None ->
     (forall dims vals : ByteMap,
         InsertRaw Binary IterateValues Build ToLower TrimSpace db stream ts dims vals
         = (db, Go.Ok (Some "Declining to insert data directly to follower")))
     /\ (forall dims vals : gmap string Go.value,
           Insert Binary IterateValues Build New ToLower TrimSpace db stream ts dims vals
           = (db, Go.Ok (Some "Declining to insert data directly to follower"))))
  /\ (Follow (opts db) = None ->
      streams db !! TrimSpace (ToLower stream) = None ->
      (forall dims vals : ByteMap,
          InsertRaw Binary IterateValues Build ToLower TrimSpace db stream ts dims vals
          = (db, Go.Ok (Some ("No wal found for stream "
                              ++ TrimSpace (ToLower stream))%string)))
      /\ (forall dims vals : gmap string Go.value,
            Insert Binary IterateValues Build New ToLower TrimSpace db stream ts dims vals
            = (db, Go.Ok (Some ("No wal found for stream "
                                ++ TrimSpace (ToLower stream))%string)))).
Proof.
  split.
  - intros Hf. unfold Insert, InsertRaw.
    destruct (Follow (opts db)); [split; reflexivity | congruence].
  - intros Hf Hs. unfold Insert, InsertRaw. rewrite Hf, Hs. split; reflexivity.
Qed.

Lemma insert_refused_witness :
  Follow (opts samples.follower) <> None
  /\ InsertRaw BigEndian samples.sampleValues samples.sampleBuild
      samples.lowerASCII samples.trimASCII
       samples.follower "events" (word.of_Z 7) [Byte.x09] [Byte.x01]
     = (samples.follower, Go.Ok (Some "Declining to insert data directly to follower"))
  /\ Follow (opts samples.withEvents) = None
  /\ streams samples.withEvents !! samples.trimASCII (samples.lowerASCII " Metrics ") = None
  /\ InsertRaw BigEndian samples.sampleValues samples.sampleBuild
      samples.lowerASCII samples.trimASCII
       samples.withEvents " Metrics " (word.of_Z 7) [Byte.x09] [Byte.x01]
     = (samples.withEvents, Go.Ok (Some "No wal found for stream metrics")).
Proof.
  assert (H1 : Follow (opts samples.follower) <> None) by discriminate.
  assert (H2 : streams samples.withEvents !! samples.trimASCII (samples.lowerASCII " Metrics ")
      = None)
    by (vm_compute; reflexivity).
  split; [exact H1|]. split.
  { exact (proj1 (proj1 (insert_refused BigEndian samples.sampleValues
                           samples.sampleBuild samples.sampleNew samples.lowerASCII
                           samples.trimASCII samples.follower
                           "events" (word.of_Z 7)) H1) [Byte.x09] [Byte.x01]). }
  split; [reflexivity|]. split; [exact H2|].
  exact (proj1 (proj2 (insert_refused BigEndian samples.sampleValues
                         samples.sampleBuild samples.sampleNew samples.lowerASCII
                         samples.trimASCII samples.withEvents
                         " Metrics " (word.of_Z 7)) eq_refl H2) [Byte.x09] [Byte.x01]).
Defined.

(** ** An empty vector *)

(** C10: on a leader that knows the stream, a call of [InsertRaw]
    whose [vals] map some key to an empty vector, []float64 or
    []int, panics with an index out of range at [v[0]]: it neither
    drops the value nor returns an error.  The same holds through
    [Insert] when the encoded map holds such a value. *)
Theorem empty_vector_panics
    (Binary : ByteOrder) (IterateValues : ByteMap -> list (string * Go.value))
    (Build : list (string * Go.value) -> ByteMap)
    (New : gmap string Go.value -> ByteMap)
    (ToLower TrimSpace : string -> string)
    (db : DB) (stream : string) (ts : Time) (w : wal.WAL) :
  Follow (opts db) = None ->
  streams db !! TrimSpace (ToLower stream) = Some w ->
  (forall (dims vals : ByteMap) (k : string) (v : Go.value),
      In (k, v) (IterateValues vals) ->
      v = Go.Float64s [] \/ v = Go.Ints [] ->
      exists db',
        InsertRaw Binary IterateValues Build ToLower TrimSpace db stream ts dims vals
        = (db', Go.Panic Go.IndexOutOfRange))
  /\ (forall (dims vals : gmap string Go.value) (k : string) (v : Go.value),
        In (k, v) (IterateValues (New vals)) ->
        v = Go.Float64s [] \/ v = Go.Ints [] ->
        exists db',
          Insert Binary IterateValues Build New ToLower TrimSpace db stream ts dims vals
          = (db', Go.Panic Go.IndexOutOfRange)).
Proof.
  intros Hf Hs.
  assert (H : forall (dims vals : ByteMap) (k : string) (v : Go.value),
             In (k, v) (IterateValues vals) ->
             v = Go.Float64s [] \/ v = Go.Ints [] ->
             exists db',
               InsertRaw Binary IterateValues Build ToLower TrimSpace db stream ts dims vals
               = (db', Go.Panic Go.IndexOutOfRange)).
  { intros dims vals k v Hin Hv.
    apply (InsertRaw_panic Binary IterateValues Build ToLower TrimSpace
        ts dims db stream vals w Hf Hs).
    apply Exists_exists. exists (k, v). split; [apply list_elem_of_In; exact Hin|].
    destruct Hv as [-> | ->]; reflexivity. }
  split; [exact H|].
  intros dims vals k v Hin Hv. unfold Insert. eapply H; eassumption.
Qed.

Lemma empty_vector_panics_witness :
  Follow (opts samples.withEvents) = None
  /\ streams samples.withEvents !! samples.trimASCII (samples.lowerASCII "events")
     = Some (wal.mkWAL [] [])
  /\ In ("j", Go.Float64s []) (samples.sampleValues [Byte.x02])
  /\ exists db',
       InsertRaw BigEndian samples.sampleValues samples.sampleBuild
           samples.lowerASCII samples.trimASCII
         samples.withEvents "events" (word.of_Z 7) [Byte.x09] [Byte.x02]
       = (db', Go.Panic Go.IndexOutOfRange).
Proof.
  assert (H2 : streams samples.withEvents !! samples.trimASCII (samples.lowerASCII "events")
               = Some (wal.mkWAL [] [])) by (vm_compute; reflexivity).
  assert (H3 : In ("j", Go.Float64s []) (samples.sampleValues [Byte.x02]))
    by (cbn; auto).
  split; [reflexivity|]. split; [exact H2|]. split; [exact H3|].
  exact (proj1 (empty_vector_panics BigEndian samples.sampleValues samples.sampleBuild
                  samples.sampleNew samples.lowerASCII samples.trimASCII
                  samples.withEvents "events" (word.of_Z 7)
                  (wal.mkWAL [] []) eq_refl H2)
           [Byte.x09] [Byte.x02] "j" (Go.Float64s []) H3 (or_introl eq_refl)).
Defined.

End zenodb_facts.

(* ================================================================== *)
(** * Properties of the planner *)
(* ================================================================== *)

Module planner_facts.
Import planner.

Section Planner.
Variable Time : Type.
Variable IsZero : Time -> bool.
Variable UnixNano : Time -> Z.
Variable Add : Time -> Z -> Time.
Variables Field GroupBy OrderBy FieldSource Ctx Vals SubState : Type.
Variable GetAsOf : RowSource Time Field GroupBy OrderBy Ctx SubState -> Time.
Variable GetUntil : RowSource Time Field GroupBy OrderBy Ctx SubState -> Time.
Variable GetResolution : RowSource Time Field GroupBy OrderBy Ctx SubState -> Z.
Variable Parse :
  string -> FieldSource -> error + Query Time Field GroupBy OrderBy SubState.
Variable planSubQueries :
  Query Time Field GroupBy OrderBy SubState ->
  Opts Time Field GroupBy OrderBy FieldSource Ctx SubState ->
  error + RunSubQueries Ctx SubState.

#[local] Abbreviation Plan :=
  (Plan Time IsZero UnixNano Add Field GroupBy OrderBy FieldSource Ctx SubState
     GetAsOf GetUntil GetResolution Parse planSubQueries).
#[local] Abbreviation planFrom :=
  (planFrom Time IsZero UnixNano Add Field GroupBy OrderBy FieldSource Ctx SubState
     GetAsOf GetUntil GetResolution planSubQueries).
#[local] Abbreviation resolveOffsets :=
  (resolveOffsets Time Add Field GroupBy OrderBy SubState).
#[local] Abbreviation regroups :=
  (planning.regroups Time IsZero UnixNano Field GroupBy OrderBy Ctx SubState
     GetAsOf GetUntil GetResolution).
#[local] Abbreviation sourceOf :=
  (planning.sourceOf Time IsZero UnixNano Add Field GroupBy OrderBy FieldSource Ctx
     SubState GetAsOf GetUntil GetResolution Parse planSubQueries).
#[local] Abbreviation filterOf :=
  (planning.filterOf Time Field GroupBy OrderBy FieldSource Ctx SubState planSubQueries).

Implicit Types (query : Query Time Field GroupBy OrderBy SubState)
  (source filtered : RowSource Time Field GroupBy OrderBy Ctx SubState)
  (opts : Opts Time Field GroupBy OrderBy FieldSource Ctx SubState).

(** ** Fuel *)

(** More fuel does not change a plan. *)
Lemma Plan_fuel_mono n : forall m sqlString opts r,
  (n <= m)%nat -> Plan n sqlString opts = Some r -> Plan m sqlString opts = Some r.
Proof.
  induction n as [|n IH]; intros m sqlString opts r Hle H; [discriminate H|].
  destruct m as [|m]; [lia|].
  cbn [planner.Plan] in *.
  destruct (Parse sqlString (o_FieldSource opts)) as [err|query]; [exact H|].
  destruct (FromSubQuery query) as [sub|]; [|exact H].
  destruct (Plan n (SQL sub) opts) as [r'|] eqn:E; [|discriminate H].
  rewrite (IH m (SQL sub) opts r' ltac:(lia) E). exact H.
Qed.

(** With a parser that finds the SQL of a FROM sub-query inside the
    SQL it is given, hence shorter, [Plan] ends: fuel beyond the
    length of the SQL is enough. *)
Lemma Plan_terminates opts :
  (forall s q sub,
      Parse s (o_FieldSource opts) = inr q -> FromSubQuery q = Some sub ->
      (String.length (SQL sub) < String.length s)%nat) ->
  forall fuel sqlString,
    (String.length sqlString < fuel)%nat -> Plan fuel sqlString opts <> None.
Proof.
  intros Hwf. induction fuel as [|fuel IH]; intros sqlString Hlen; [lia|].
  cbn [planner.Plan].
  destruct (Parse sqlString (o_FieldSource opts)) as [err|query] eqn:Hp; [discriminate|].
  destruct (FromSubQuery query) as [sub|] eqn:Hsub; [|discriminate].
  specialize (Hwf sqlString query sub Hp Hsub).
  specialize (IH (SQL sub) ltac:(lia)).
  destruct (Plan fuel (SQL sub) opts) as [[e|subSource]|]; [discriminate|discriminate|].
  congruence.
Qed.

(** ** The flags and the statement of the rule agree *)

Lemma regroups_iff query source :
  asOfChanged Time IsZero UnixNano Field GroupBy OrderBy Ctx SubState GetAsOf query source
  || untilChanged Time IsZero UnixNano Field GroupBy OrderBy Ctx SubState GetUntil
       query source
  || resolutionChanged Time Field GroupBy OrderBy Ctx SubState GetResolution query source
  || negb (GroupByAll query) || HasSpecificFields query = true
  <-> regroups query source.
Proof.
  unfold asOfChanged, untilChanged, resolutionChanged, planning.regroups.
  destruct (IsZero (AsOf query)), (IsZero (Until query)),
    (Z.eqb_spec (UnixNano (AsOf query)) (UnixNano (GetAsOf source))),
    (Z.eqb_spec (UnixNano (Until query)) (UnixNano (GetUntil source))),
    (Z.eqb_spec (Resolution query) 0),
    (Z.eqb_spec (Resolution query) (GetResolution source)),
    (GroupByAll query), (HasSpecificFields query); cbn;
    split; intros H; try reflexivity; try discriminate H; try tauto;
    try (exfalso; intuition congruence).
Qed.

(** ** The shape of a plan *)

Lemma flattened_tail query (flat : FlatRowSource Time Field GroupBy OrderBy Ctx SubState) :
  flattened
    (let flat := if (0 <? length (q_OrderBy query))%nat
                 then Sort (q_OrderBy query) flat else flat in
     let flat := if 0 <? q_Offset query then Offset (q_Offset query) flat else flat in
     if 0 <? q_Limit query then Limit (q_Limit query) flat else flat)
  = flattened flat.
Proof.
  cbn zeta.
  destruct (0 <? length (q_OrderBy query))%nat, (0 <? q_Offset query),
    (0 <? q_Limit query); reflexivity.
Qed.

Lemma planFrom_shape q0 source opts filtered :
  let query := resolveOffsets q0 (Now opts (From q0)) in
  filterOf query opts source filtered ->
  exists flat,
    planFrom q0 source opts = inr flat
    /\ ((regroups query source
         /\ flattened flat
            = Group (q_GroupBy query) (Fields query) (Resolution query)
                (AsOf query) (Until query) filtered)
        \/ (~ regroups query source /\ flattened flat = filtered)).
Proof.
  cbn zeta. unfold planning.filterOf, planner.planFrom.
  set (query := resolveOffsets q0 (Now opts (From q0))).
  intros Hf.
  assert (Hfl :
    match Where query with
    | Some where_ =>
        match planSubQueries query opts with
        | inl e => inl e
        | inr runSubQueries => inr (Filter runSubQueries where_ (WhereSQL query) source)
        end
    | None => inr source
    end = (inr filtered : error + _)).
  { destruct (Where query) as [w|].
    - destruct Hf as (rs & -> & ->). reflexivity.
    - rewrite Hf. reflexivity. }
  rewrite Hfl. clear Hfl.
  pose proof (regroups_iff query source) as Hiff.
  destruct (asOfChanged _ _ _ _ _ _ _ _ _ query source
            || untilChanged _ _ _ _ _ _ _ _ _ query source
            || resolutionChanged _ _ _ _ _ _ _ query source
            || negb (GroupByAll query) || HasSpecificFields query) eqn:Hc.
  - eexists. split; [reflexivity|]. left. split; [apply Hiff; reflexivity|].
    apply flattened_tail.
  - eexists. split; [reflexivity|]. right. split.
    + intros Hr. apply Hiff in Hr. discriminate Hr.
    + apply flattened_tail.
Qed.

Lemma Plan_chosen fuel sqlString opts q0 source :
  Parse sqlString (o_FieldSource opts) = inr q0 ->
  sourceOf fuel q0 opts source ->
  Plan (S fuel) sqlString opts = Some (planFrom q0 source opts).
Proof.
  intros Hp Hs. cbn [planner.Plan]. rewrite Hp.
  unfold planning.sourceOf in Hs.
  destruct (FromSubQuery q0) as [sub|].
  - destruct Hs as (subSource & -> & ->). reflexivity.
  - rewrite Hs. reflexivity.
Qed.

(** ** The sentinel *)



(** ** When a Group is planned *)

Lemma resolveOffsets_resolved query (now : Time) :
  resolveOffsets query now
  = planning.resolved Time Add Field GroupBy OrderBy SubState query now.
Proof.
  unfold planner.resolveOffsets, planning.resolved.
  destruct query as [from sub fields by_ all specific w wsql asOf until
                     asOfOffset untilOffset res orderBy offset limit].
  cbn [AsOfOffset UntilOffset].
  destruct (asOfOffset =? 0); cbn [negb setAsOf UntilOffset];
    destruct (untilOffset =? 0); reflexivity.
Qed.

(** A pipeline comes out of [planFrom] only under a planned filter. *)
Lemma planFrom_filtered q0 source opts flat :
  planFrom q0 source opts = inr flat ->
  exists filtered,
    filterOf (resolveOffsets q0 (Now opts (From q0))) opts source filtered.
Proof.
  unfold planner.planFrom, planning.filterOf.
  set (query := resolveOffsets q0 (Now opts (From q0))).
  destruct (Where query) as [w|].
  - destruct (planSubQueries query opts) as [e|rs]; [discriminate|].
    intros _. eexists. exists rs. split; reflexivity.
  - intros _. eexists. reflexivity.
Qed.

(** C2, as the code has it: for a query that parses and for which
    [Plan] returns a pipeline, the source being the table or the plan
    of the FROM sub-query unflattened, under the filter of the WHERE
    clause if there is one, a [Group] built from the query's
    [(GroupBy, Fields, Resolution, AsOf, Until)] sits between the
    (filtered) source and [Flatten] if and only if [AsOf], [Until] or
    [Resolution] of the query is not zero and differs from the
    source's, or the query is not [GroupByAll], or it names its
    fields; otherwise [Flatten] is connected to the (filtered) source
    itself.  [AsOf] and [Until] are those of the query with its
    offsets resolved: a bound whose offset is not zero is the [now]
    of the table plus that offset; instants are compared by their Unix
    nanoseconds. *)
Theorem group_replan_rule fuel sqlString opts q0 flat :
  Parse sqlString (o_FieldSource opts) = inr q0 ->
  Plan (S fuel) sqlString opts = Some (inr flat) ->
  planning.replanned Time IsZero UnixNano Add Field GroupBy OrderBy FieldSource Ctx
    SubState GetAsOf GetUntil GetResolution Parse planSubQueries fuel q0 opts flat.
Proof.
  intros Hp HPlan. unfold planning.replanned. cbn zeta.
  rewrite <- resolveOffsets_resolved.
  assert (Hsrc : exists source,
             sourceOf fuel q0 opts source /\ planFrom q0 source opts = inr flat).
  { cbn [planner.Plan] in HPlan. rewrite Hp in HPlan. unfold planning.sourceOf.
    destruct (FromSubQuery q0) as [sub|].
    - destruct (Plan fuel (SQL sub) opts) as [[e|subSource]|];
        try discriminate HPlan.
      injection HPlan as Hpf. eexists. split; [|exact Hpf].
      exists subSource. split; reflexivity.
    - injection HPlan as Hpf. eexists. split; [reflexivity|exact Hpf]. }
  destruct Hsrc as (source & Hs & Hpf).
  destruct (planFrom_filtered q0 source opts flat Hpf) as (filtered & Hf).
  destruct (planFrom_shape q0 source opts filtered Hf) as (flat' & Hpf' & Hshape).
  rewrite Hpf in Hpf'. inversion Hpf'; subst flat'.
  exists source, filtered. split; [exact Hs|]. split; [exact Hf|]. exact Hshape.
Qed.

(** ** A FROM sub-query *)


End Planner.

Section Filter.
Variables Ctx Vals SubState : Type.
Variable runSubQueries : RunSubQueries Ctx SubState.
Variable where_ : Expr SubState.

#[local] Abbreviation latch := (planning.latch Ctx Vals SubState).
#[local] Abbreviation running := (planning.running Ctx Vals).
#[local] Abbreviation isRunning := (planning.isRunning Ctx Vals).

Implicit Types (st : FilterState SubState) (c : call Ctx Vals)
  (calls : list (call Ctx Vals)) (cfg : config Ctx Vals SubState)
  (ctx : Ctx) (key : ByteMap) (vals : Vals) (args : list (Ctx * ByteMap * Vals)).

(** ** Calls one after the other *)

Lemma Include_fresh st ctx key vals :
  hasRunSubqueries st = 0 ->
  let r := runSubQueries ctx (sub st) in
  let st' := mkFilterState 1 (snd r) (S (runs st)) in
  Include runSubQueries where_ st ctx key vals
  = (st', match fst r with
          | Some ErrDeadlineExceeded | None => evalWhere where_ st' key
          | Some e => Go.Ok (false, Some e)
          end).
Proof.
  intros H0. unfold Include, CompareAndSwap, callRunSubQueries. rewrite H0.
  cbn [Z.eqb sub runs hasRunSubqueries].
  destruct (runSubQueries ctx (sub st)) as [[[| |m]|] s']; reflexivity.
Qed.

Lemma Include_latched st ctx key vals :
  hasRunSubqueries st = 1 ->
  Include runSubQueries where_ st ctx key vals = (st, evalWhere where_ st key).
Proof. intros H1. unfold Include, CompareAndSwap. rewrite H1. reflexivity. Qed.

Lemma IncludeAll_latched args : forall st,
  hasRunSubqueries st = 1 -> IncludeAll runSubQueries where_ st args = st.
Proof.
  induction args as [|a args IH]; intros st H1; [reflexivity|].
  cbn [IncludeAll fold_left]. rewrite Include_latched by exact H1. apply IH, H1.
Qed.

(** ** Calls that overlap *)

Lemma running_insert calls : forall i c c',
  calls !! i = Some c ->
  (running (<[i := c']> calls) + isRunning c = running calls + isRunning c')%nat.
Proof.
  induction calls as [|x calls IH]; intros [|i] c c' H; try discriminate H.
  - inversion H; subst. cbn. lia.
  - change (calls !! i = Some c) in H.
    change (<[S i := c']> (x :: calls)) with (x :: <[i := c']> calls).
    specialize (IH i c c' H). cbn [planning.running]. lia.
Qed.

Lemma running_entered calls :
  Forall (fun c => c_pc c = AtSwap) calls -> running calls = O.
Proof.
  induction 1 as [|c calls Hc _ IH]; [reflexivity|].
  cbn. unfold planning.isRunning. rewrite Hc, IH. reflexivity.
Qed.

Lemma running_done calls :
  Forall (fun c => isDone c = true) calls -> running calls = O.
Proof.
  induction 1 as [|c calls Hc _ IH]; [reflexivity|].
  cbn. unfold planning.isRunning, isDone in *. destruct (c_pc c); try discriminate Hc.
  exact IH.
Qed.

(** Every action keeps the latch. *)
Lemma stepAt_latch cfg i : latch cfg -> latch (stepAt runSubQueries where_ cfg i).
Proof.
  destruct cfg as [st calls]. unfold stepAt. cbn [fst snd].
  destruct (calls !! i) as [c|] eqn:Hc; [|auto].
  intros HL. unfold stepCall.
  destruct (c_pc c) eqn:Hpc.
  - (* the swap *)
    unfold CompareAndSwap.
    destruct (hasRunSubqueries st =? 0) eqn:H0.
    + right. cbn [fst snd hasRunSubqueries runs]. split; [reflexivity|].
      pose proof (running_insert calls i c (at_ c AtRun) Hc) as Hr.
      unfold planning.isRunning in Hr. rewrite Hpc in Hr. cbn in Hr.
      destruct HL as [(_ & Hruns & Hall)|(H1 & _)]; cbn [fst snd] in *.
      * rewrite (running_entered calls Hall) in Hr. lia.
      * apply Z.eqb_eq in H0. lia.
    + destruct HL as [(Hz & _)|(H1 & Hsum)]; cbn [fst snd] in *.
      * rewrite Hz in H0. discriminate H0.
      * right. cbn [fst snd]. split; [exact H1|].
        pose proof (running_insert calls i c (at_ c AtEval) Hc) as Hr.
        unfold planning.isRunning in Hr. rewrite Hpc in Hr. cbn in Hr. lia.
  - (* the run of the sub-queries *)
    destruct HL as [(_ & _ & Hall)|(H1 & Hsum)]; cbn [fst snd] in *.
    { apply (proj1 (Forall_lookup _ _) Hall i c) in Hc. congruence. }
    unfold callRunSubQueries.
    destruct (runSubQueries (c_ctx c) (sub st)) as [err s'].
    assert (Hgen : forall p, p <> AtRun ->
              latch (mkFilterState (hasRunSubqueries st) s' (S (runs st)),
                     <[i := at_ c p]> calls)).
    { intros p Hp. right. cbn [fst snd hasRunSubqueries runs]. split; [exact H1|].
      pose proof (running_insert calls i c (at_ c p) Hc) as Hr.
      unfold planning.isRunning in Hr. rewrite Hpc in Hr. cbn in Hr.
      destruct p; try congruence; lia. }
    destruct err as [[| |m]|]; apply Hgen; discriminate.
  - (* the evaluation *)
    destruct HL as [(_ & _ & Hall)|(H1 & Hsum)]; cbn [fst snd] in *.
    { apply (proj1 (Forall_lookup _ _) Hall i c) in Hc. congruence. }
    right. cbn [fst snd]. split; [exact H1|].
    pose proof (running_insert calls i c
                  (at_ c (Done (evalWhere where_ st (c_key c)))) Hc) as Hr.
    unfold planning.isRunning in Hr. rewrite Hpc in Hr. cbn in Hr. lia.
  - (* nothing left to do *)
    rewrite list_insert_id by exact Hc. exact HL.
Qed.

Lemma exec_latch schedule : forall cfg,
  latch cfg -> latch (exec runSubQueries where_ cfg schedule).
Proof.
  induction schedule as [|i schedule IH]; intros cfg HL; [exact HL|].
  cbn [exec fold_left]. apply IH, stepAt_latch, HL.
Qed.

Lemma entering_latch (s : SubState) args :
  latch (fresh s, entering args).
Proof.
  left. cbn. repeat split. unfold entering. apply Forall_map, Forall_true. reflexivity.
Qed.

Lemma stepAt_length cfg i :
  length (snd (stepAt runSubQueries where_ cfg i)) = length (snd cfg).
Proof.
  unfold stepAt. destruct (snd cfg !! i) as [c|]; [|reflexivity].
  destruct (stepCall runSubQueries where_ (fst cfg) c) as [st' c'].
  cbn [snd]. apply length_insert.
Qed.

Lemma exec_length schedule : forall cfg,
  length (snd (exec runSubQueries where_ cfg schedule)) = length (snd cfg).
Proof.
  induction schedule as [|i schedule IH]; intros cfg; [reflexivity|].
  cbn [exec fold_left]. etransitivity; [apply IH|apply stepAt_length].
Qed.

(** A call that acts alone goes through [Include] in three
    actions. *)
Lemma Include_alone st ctx key vals :
  exec runSubQueries where_ (st, [mkCall ctx key vals AtSwap]) [0; 0; 0]%nat
  = (fst (Include runSubQueries where_ st ctx key vals),
     [mkCall ctx key vals (Done (snd (Include runSubQueries where_ st ctx key vals)))]).
Proof.
  unfold Include, exec, stepAt, stepCall, CompareAndSwap, callRunSubQueries.
  cbn [fold_left fst snd lookup list_lookup c_pc c_ctx c_key at_].
  destruct (hasRunSubqueries st =? 0); cbn.
  - destruct (runSubQueries ctx (sub st)) as [[[| |m]|] s']; reflexivity.
  - reflexivity.
Qed.

(** ** The sub-queries run once *)

(** C3, as the code has it: whatever the number of calls of the
    predicate and however their actions interleave, the sub-queries
    are run at most once; once every call of a non-empty set has
    completed they have run exactly once; and when the calls do not
    overlap they have run exactly once by the time the first call
    returns, and stay so. *)
Theorem sub_queries_run_once (s : SubState) args (schedule : list nat) :
  let cfg := exec runSubQueries where_ (fresh s, entering args) schedule in
  (runs (fst cfg) <= 1)%nat
  /\ (args <> [] -> Forall (fun c => isDone c = true) (snd cfg) ->
      runs (fst cfg) = 1%nat)
  /\ (forall ctx key vals,
        runs (fst (Include runSubQueries where_ (fresh s) ctx key vals)) = 1%nat)
  /\ (args <> [] -> runs (IncludeAll runSubQueries where_ (fresh s) args) = 1%nat).
Proof.
  cbn zeta.
  pose proof (exec_latch schedule _ (entering_latch s args)) as HL.
  pose proof (exec_length schedule (fresh s, entering args)) as Hlen.
  destruct (exec runSubQueries where_ (fresh s, entering args) schedule) as [st calls].
  cbn [fst snd] in *.
  split; [|split; [|split]].
  - destruct HL as [(_ & H & _)|(_ & H)]; cbn [fst snd] in H; lia.
  - intros Hne Hdone.
    destruct HL as [(_ & _ & Hall)|(_ & H)]; cbn [fst snd] in *.
    + destruct calls as [|c calls].
      * unfold entering in Hlen. rewrite length_map in Hlen.
        destruct args; [congruence|discriminate Hlen].
      * inversion Hall as [|? ? Hc _]; inversion Hdone as [|? ? Hd _]; subst.
        unfold isDone in Hd. rewrite Hc in Hd. discriminate Hd.
    + rewrite (running_done calls Hdone) in H. lia.
  - intros ctx key vals. rewrite Include_fresh by reflexivity. reflexivity.
  - intros Hne. destruct args as [|[[ctx key] vals] args]; [congruence|].
    cbn [IncludeAll fold_left fst snd].
    rewrite Include_fresh by reflexivity. cbn [fst].
    fold (IncludeAll runSubQueries where_
            (mkFilterState 1 (snd (runSubQueries ctx (sub (fresh s))))
               (S (runs (fresh s)))) args).
    rewrite IncludeAll_latched by reflexivity. reflexivity.
Qed.

(** ** Errors of the sub-queries *)

(** C6: in a call of the predicate that runs the sub-queries (the
    latch is still open), a deadline-exceeded error of
    [runSubQueries] does not fail the predicate, which goes on to
    evaluate the WHERE clause against the key and returns that
    boolean without error; any other error makes it return
    [(false, that error)]. *)
Theorem sub_query_errors st ctx key vals :
  hasRunSubqueries st = 0 ->
  (forall s',
      runSubQueries ctx (sub st) = (Some ErrDeadlineExceeded, s') ->
      let st' := mkFilterState 1 s' (S (runs st)) in
      Include runSubQueries where_ st ctx key vals = (st', evalWhere where_ st' key)
      /\ (forall b, where_ s' key = Go.Bool b ->
            snd (Include runSubQueries where_ st ctx key vals) = Go.Ok (b, None)))
  /\ (forall e s',
        runSubQueries ctx (sub st) = (Some e, s') ->
        e <> ErrDeadlineExceeded ->
        Include runSubQueries where_ st ctx key vals
        = (mkFilterState 1 s' (S (runs st)), Go.Ok (false, Some e))).
Proof.
  intros H0. split.
  - intros s' Hr. cbn zeta. rewrite (Include_fresh st ctx key vals H0). cbn zeta.
    rewrite Hr. cbn [fst snd]. split; [reflexivity|].
    intros b Hb. unfold evalWhere. cbn [sub]. rewrite Hb. reflexivity.
  - intros e s' Hr Hne. rewrite (Include_fresh st ctx key vals H0). cbn zeta.
    rewrite Hr. cbn [fst snd]. destruct e; [reflexivity|congruence|reflexivity].
Qed.

End Filter.

(** ** On the samples *)

Lemma group_replan_rule_witness :
  let q0 := mkQuery "t" None ["x"] [] true false None "" 0 0 (-3600) 0 0 [] 0 0 in
  plan_samples.Parse "SELECT * FROM t ASOF '-1h'" tt = inr q0
  /\ plan_samples.Plan 1 "SELECT * FROM t ASOF '-1h'" plan_samples.opts
     = Some (inr (Flatten (Group [] ["x"] 0 (-2600) 0 (Source "t"))))
  /\ planning.replanned Z plan_samples.IsZero plan_samples.UnixNano Z.add
       string string string unit unit bool
       plan_samples.GetAsOf plan_samples.GetUntil plan_samples.GetResolution
       plan_samples.Parse plan_samples.planSubQueries
       0 q0 plan_samples.opts (Flatten (Group [] ["x"] 0 (-2600) 0 (Source "t"))).
Proof.
  cbn zeta.
  assert (H2 : plan_samples.Plan 1 "SELECT * FROM t ASOF '-1h'" plan_samples.opts
               = Some (inr (Flatten (Group [] ["x"] 0 (-2600) 0 (Source "t")))))
    by reflexivity.
  split; [reflexivity|]. split; [exact H2|].
  exact (group_replan_rule Z plan_samples.IsZero plan_samples.UnixNano Z.add
           string string string unit unit bool
           plan_samples.GetAsOf plan_samples.GetUntil plan_samples.GetResolution
           plan_samples.Parse plan_samples.planSubQueries
           0 "SELECT * FROM t ASOF '-1h'" plan_samples.opts
           (mkQuery "t" None ["x"] [] true false None "" 0 0 (-3600) 0 0 [] 0 0)
           (Flatten (Group [] ["x"] 0 (-2600) 0 (Source "t"))) eq_refl H2).
Defined.

(** C2, as stated, fails for a query that parses, names its fields,
    and has in its WHERE clause sub-queries over a table that is not
    known: the planning of the sub-queries fails and [Plan] returns
    that error, so no pipeline and no [Group]. *)
Lemma group_not_planned_on_error :
  let q0 := mkQuery "t" None ["a"] [] true true (Some plan_samples.sampleWhere)
              "y IN (SELECT z FROM u)" 0 0 0 0 0 [] 0 0 in
  plan_samples.Parse "SELECT a FROM t WHERE y IN (SELECT z FROM u)" tt = inr q0
  /\ HasSpecificFields q0 = true
  /\ ~ planning.replan_rule Z plan_samples.IsZero plan_samples.UnixNano Z.add
         string string string unit unit bool
         plan_samples.GetAsOf plan_samples.GetUntil plan_samples.GetResolution
         plan_samples.Parse plan_samples.planSubQueries
         0 "SELECT a FROM t WHERE y IN (SELECT z FROM u)" plan_samples.opts.
Proof.
  cbn zeta. split; [reflexivity|]. split; [reflexivity|].
  intros H. destruct (H _ eq_refl) as (flat & Hplan & _).
  change (plan_samples.Plan 1 "SELECT a FROM t WHERE y IN (SELECT z FROM u)"
            plan_samples.opts = Some (inr flat)) in Hplan.
  vm_compute in Hplan. discriminate Hplan.
Qed.

(** What [Plan] returns for that query, and for queries without
    offsets: a query that asks for all fields of a table as they are
    is flattened as it is, a query that names a field is regrouped. *)
Example replan_runs :
  plan_samples.Plan 1 "SELECT a FROM t WHERE y IN (SELECT z FROM u)" plan_samples.opts
  = Some (inl (ErrOther "table u not found"))
  /\ plan_samples.Plan 1 "SELECT * FROM t" plan_samples.opts
     = Some (inr (Flatten (Source "t")))
  /\ plan_samples.Plan 1 "SELECT a FROM t GROUP BY d LIMIT 5" plan_samples.opts
     = Some (inr (Limit 5 (Flatten (Group ["d"] ["a"] 0 0 0 (Source "t"))))).
Proof. repeat split; reflexivity. Qed.



(** What [Plan] returns there. *)
Example nested_from_error_run :
  plan_samples.Plan 2 "SELECT a FROM (SELECT * FROM t WHERE y IN (SELECT z FROM u))"
    plan_samples.opts
  = Some (inl (ErrOther "table u not found")).
Proof. reflexivity. Qed.

Lemma sub_queries_run_once_witness :
  plan_samples.twoCalls <> []
  /\ Forall (fun c => isDone c = true)
       (snd (exec plan_samples.sampleRun plan_samples.sampleWhere
               (fresh false, entering plan_samples.twoCalls) [0; 1; 1; 0; 0]%nat))
  /\ runs (fst (exec plan_samples.sampleRun plan_samples.sampleWhere
                  (fresh false, entering plan_samples.twoCalls) [0; 1; 1; 0; 0]%nat))
     = 1%nat
  /\ runs (IncludeAll plan_samples.sampleRun plan_samples.sampleWhere (fresh false)
             plan_samples.twoCalls) = 1%nat.
Proof.
  assert (H1 : plan_samples.twoCalls <> []) by discriminate.
  assert (H2 : Forall (fun c => isDone c = true)
                 (snd (exec plan_samples.sampleRun plan_samples.sampleWhere
                         (fresh false, entering plan_samples.twoCalls)
                         [0; 1; 1; 0; 0]%nat)))
    by (repeat constructor).
  pose proof (sub_queries_run_once unit unit bool plan_samples.sampleRun
                plan_samples.sampleWhere false plan_samples.twoCalls
                [0; 1; 1; 0; 0]%nat) as (_ & Hdone & _ & Hseq).
  split; [exact H1|]. split; [exact H2|]. split; [exact (Hdone H1 H2)|exact (Hseq H1)].
Defined.

(** C3, as stated, fails when two calls overlap: the first wins the
    swap, the second loses it and completes its evaluation, and the
    sub-queries have not run yet. *)
Lemma sub_queries_not_run_before_a_completion :
  ~ planning.ran_once_before_completion unit unit bool
      plan_samples.sampleRun plan_samples.sampleWhere false plan_samples.twoCalls
      [0; 1; 1]%nat.
Proof.
  unfold planning.ran_once_before_completion. intros H.
  specialize (H eq_refl). vm_compute in H. discriminate H.
Qed.

(** What that schedule leaves: the second call has returned false,
    the clause having been evaluated without the sub-queries'
    results, while the first is still to run them. *)
Example overlapping_calls_run :
  exec plan_samples.sampleRun plan_samples.sampleWhere
    (fresh false, entering plan_samples.twoCalls) [0; 1; 1]%nat
  = (mkFilterState 1 false 0,
     [mkCall tt [] tt AtRun; mkCall tt [] tt (Done (Go.Ok (false, None)))]).
Proof. reflexivity. Qed.

Lemma sub_query_errors_witness :
  hasRunSubqueries (fresh false) = 0
  /\ plan_samples.timedOut tt (sub (fresh false)) = (Some ErrDeadlineExceeded, false)
  /\ Include plan_samples.timedOut plan_samples.sampleWhere (fresh false) tt [] tt
     = (mkFilterState 1 false 1, Go.Ok (false, None))
  /\ plan_samples.broken tt (sub (fresh false)) = (Some (ErrOther "disk"), false)
  /\ ErrOther "disk" <> ErrDeadlineExceeded
  /\ Include plan_samples.broken plan_samples.sampleWhere (fresh false) tt [] tt
     = (mkFilterState 1 false 1, Go.Ok (false, Some (ErrOther "disk"))).
Proof.
  assert (Hne : ErrOther "disk" <> ErrDeadlineExceeded) by discriminate.
  split; [reflexivity|]. split; [reflexivity|]. split.
  { exact (proj1 (proj1 (sub_query_errors unit unit bool plan_samples.timedOut
                           plan_samples.sampleWhere (fresh false) tt [] tt eq_refl)
                    false eq_refl)). }
  split; [reflexivity|]. split; [exact Hne|].
  exact (proj2 (sub_query_errors unit unit bool plan_samples.broken
                  plan_samples.sampleWhere (fresh false) tt [] tt eq_refl)
           (ErrOther "disk") false eq_refl Hne).
Defined.

End planner_facts.

(* ================================================================== *)
(** * Further properties of the ingest path *)
(* ================================================================== *)

Module journal_facts.
Import encoding encoding_facts zenodb journal.

Section Writer.
Variable Binary : ByteOrder.
Variable IterateValues : ByteMap -> list (string * Go.value).
Variable Build : list (string * Go.value) -> ByteMap.
Variable ToLower : string -> string.
Variable TrimSpace : string -> string.
Variables (ts : Time) (dims : ByteMap).

#[local] Abbreviation subInsert := (subInsert Binary Build ts dims).
#[local] Abbreviation visit := (visit Binary Build ts dims).
#[local] Abbreviation iterate := (iterate Binary Build ts dims).
#[local] Abbreviation InsertRaw := (InsertRaw Binary IterateValues Build ToLower TrimSpace).
#[local] Abbreviation rowFrame := (frame Binary ts dims).

(** ** What a walk writes *)

Lemma writeEach_app rows1 : forall w rows2,
  writeEach w (rows1 ++ rows2)
  = ((fst (writeEach w rows1) ++ fst (writeEach (snd (writeEach w rows1)) rows2))%list,
     snd (writeEach (snd (writeEach w rows1)) rows2)).
Proof.
  induction rows1 as [|bufs rows1 IH]; intros w rows2; cbn [writeEach app fst snd].
  - destruct (writeEach w rows2); reflexivity.
  - destruct (wal.Write w bufs) as [e w1]. rewrite IH.
    destruct (writeEach w1 rows1) as [es w2]. cbn [fst snd].
    destruct (writeEach w2 rows2) as [es' w3]. reflexivity.
Qed.

Lemma lastErrorFrom_app kept es1 es2 :
  lastErrorFrom kept (es1 ++ es2) = lastErrorFrom (lastErrorFrom kept es1) es2.
Proof. unfold lastErrorFrom. apply fold_left_app. Qed.

Lemma subInsert_writes key st val :
  l_w (subInsert key st val) = snd (wal.Write (l_w st) (rowFrame (Build [(key, val)])))
  /\ lastErr (subInsert key st val)
     = lastErrorFrom (lastErr st)
         [fst (wal.Write (l_w st) (rowFrame (Build [(key, val)])))].
Proof.
  unfold zenodb.subInsert, doInsertRaw.
  destruct (wal.Write (l_w st) (rowFrame (Build [(key, val)]))) as [[e|] w1];
    cbn; auto.
Qed.

Lemma subInserts_writes {A} (f : A -> Go.value) key (l : list A) : forall st,
  let st' := fold_left (fun st vi => subInsert key st (f vi)) l st in
  let r := writeEach (l_w st) (map (fun x => rowFrame (Build [(key, f x)])) l) in
  l_w st' = snd r /\ lastErr st' = lastErrorFrom (lastErr st) (fst r).
Proof.
  induction l as [|x l IH]; intros st; cbn [fold_left map writeEach].
  - cbn. auto.
  - destruct (subInsert_writes key st (f x)) as (Hw & He).
    specialize (IH (subInsert key st (f x))). cbn zeta in IH. rewrite Hw, He in IH.
    destruct (wal.Write (l_w st) (rowFrame (Build [(key, f x)]))) as [e w1].
    cbn [fst snd] in IH.
    destruct (writeEach w1 (map (fun x0 => rowFrame (Build [(key, f x0)])) l))
      as [es w2].
    cbn [fst snd] in *. exact IH.
Qed.

Lemma include_writes key val st :
  l_w (include key val st) = l_w st /\ lastErr (include key val st) = lastErr st.
Proof. split; reflexivity. Qed.

(** The rows written apart for one value. *)
Lemma visit_writes key value st st' :
  visit key value st = Go.Ok st' ->
  let r := writeEach (l_w st)
             (map (fun p => rowFrame (Build [p])) (ingest.subRows [(key, value)])) in
  l_w st' = snd r /\ lastErr st' = lastErrorFrom (lastErr st) (fst r).
Proof.
  unfold zenodb.visit, ingest.subRows.
  destruct value as [|b|f|i|[|a r]|[|a r]|s|ty];
    cbn [flat_map ingest.expand fst snd lookup list_lookup map app writeEach];
    intros H; inversion H; subst; clear H; try (split; reflexivity).
  - change (drop 0 r) with r. rewrite app_nil_r, !map_map.
    exact (subInserts_writes Go.Float64 key r (include key (Go.Float64 a) st)).
  - change (drop 0 r) with r. rewrite app_nil_r, !map_map.
    exact (subInserts_writes (fun i => Go.Float64 (Go.float64_of_int i)) key r
             (include key (Go.Float64 (Go.float64_of_int a)) st)).
Qed.

Lemma iterate_writes kvs : forall st st',
  iterate kvs st = (st', None) ->
  let r := writeEach (l_w st)
             (map (fun p => rowFrame (Build [p])) (ingest.subRows kvs)) in
  l_w st' = snd r /\ lastErr st' = lastErrorFrom (lastErr st) (fst r).
Proof.
  induction kvs as [|[key value] kvs IH]; intros st st' H; cbn [zenodb.iterate] in H.
  - inversion H; subst. cbn. auto.
  - destruct (visit key value st) as [st1|p] eqn:Hv; [|discriminate H].
    destruct (visit_writes key value st st1 Hv) as (Hw1 & He1).
    destruct (IH st1 st' H) as (Hw & He).
    change (ingest.subRows ((key, value) :: kvs))
      with (flat_map (fun kv => match ingest.expand (snd kv) with
                                | Some (_, more) => map (fun x => (fst kv, x)) more
                                | None => []
                                end) ([(key, value)] ++ kvs)).
    rewrite flat_map_app. fold (ingest.subRows [(key, value)]). fold (ingest.subRows kvs).
    cbn zeta. rewrite map_app, writeEach_app. cbn [fst snd].
    rewrite lastErrorFrom_app, <- Hw1, <- He1. auto.
Qed.

(** ** What a walk leaves of the database *)

Lemma sameButLog_refl a : sameButLog a a.
Proof. repeat split. Qed.

Lemma sameButLog_trans a b c : sameButLog a b -> sameButLog b c -> sameButLog a c.
Proof. unfold sameButLog. intuition congruence. Qed.

Lemma doInsertRaw_db db w vals :
  sameButLog (snd (doInsertRaw Binary db w ts dims vals)) db.
Proof.
  unfold doInsertRaw. destruct (wal.Write w (rowFrame vals)) as [[e|] w1];
    repeat split.
Qed.

Lemma subInserts_db {A} (f : A -> Go.value) key (l : list A) : forall st,
  sameButLog (l_db (fold_left (fun st vi => subInsert key st (f vi)) l st)) (l_db st).
Proof.
  induction l as [|x l IH]; intros st; cbn [fold_left]; [apply sameButLog_refl|].
  eapply sameButLog_trans; [apply IH|].
  unfold zenodb.subInsert.
  pose proof (doInsertRaw_db (l_db st) (l_w st) (Build [(key, f x)])) as H.
  destruct (doInsertRaw Binary (l_db st) (l_w st) ts dims (Build [(key, f x)]))
    as [[e w1] db1]. exact H.
Qed.

Lemma visit_db key value st st' :
  visit key value st = Go.Ok st' -> sameButLog (l_db st') (l_db st).
Proof.
  unfold zenodb.visit.
  destruct value as [|b|f|i|[|a r]|[|a r]|s|ty];
    cbn [lookup list_lookup]; intros H; inversion H; subst; clear H;
    try (repeat split; fail).
  - apply (subInserts_db Go.Float64 key _ (include key (Go.Float64 a) st)).
  - apply (subInserts_db (fun i => Go.Float64 (Go.float64_of_int i)) key _
             (include key (Go.Float64 (Go.float64_of_int a)) st)).
Qed.

Lemma iterate_db kvs : forall st,
  sameButLog (l_db (fst (iterate kvs st))) (l_db st).
Proof.
  induction kvs as [|[key value] kvs IH]; intros st; cbn [zenodb.iterate].
  - apply sameButLog_refl.
  - destruct (visit key value st) as [st1|p] eqn:Hv; [|apply sameButLog_refl].
    eapply sameButLog_trans; [apply IH|]. eapply visit_db; exact Hv.
Qed.

(** ** Values without a row *)

Lemma iterate_unsupported kvs : forall st,
  Forall (fun kv => unsupported (snd kv) = true) kvs ->
  iterate kvs st
  = (mkLocals
       (mkDB (opts (l_db st)) (streams (l_db st)) (clock (l_db st))
          (log (l_db st) ++ map (fun kv => LogUnsupported (fst kv) (snd kv)) kvs)%list)
       (l_w st) (lastErr st) (hasMainValue st) (included st), None).
Proof.
  induction kvs as [|[key value] kvs IH]; intros st Hall.
  - cbn. rewrite app_nil_r. destruct st as [[? ? ? ?] ? ? ? ?]. reflexivity.
  - inversion Hall as [|? ? Hhd Htl]; subst. cbn [zenodb.iterate].
    assert (Hv : visit key value st
                 = Go.Ok (mkLocals (DB_log (l_db st) (LogUnsupported key value)) (l_w st)
                            (lastErr st) (hasMainValue st) (included st))).
    { destruct value; try discriminate Hhd; reflexivity. }
    rewrite Hv, (IH _ Htl). cbn [l_db l_w lastErr hasMainValue included DB_log
                                  opts streams clock log map fst snd].
    rewrite <- app_assoc. reflexivity.
Qed.

(** ** The rows and the error of a call *)

(** X1: on a leader that knows the stream, a call whose values are
    all of a type without a row (nil, bool, string, any other type),
    or that has no value at all, writes nothing: it returns no error,
    leaves every log as it was and only tells the logger of each
    value it dropped. *)
Theorem unsupported_values_dropped db stream vals w :
  Follow (opts db) = None ->
  streams db !! ingest.normalized ToLower TrimSpace stream = Some w ->
  Forall (fun kv => unsupported (snd kv) = true) (IterateValues vals) ->
  InsertRaw db stream ts dims vals
  = (mkDB (opts db) (streams db) (clock db)
       (log db ++ map (fun kv => LogUnsupported (fst kv) (snd kv)) (IterateValues vals))%list,
     Go.Ok None).
Proof.
  intros Hf Hs Hall. unfold zenodb.InsertRaw.
  rewrite Hf. fold (ingest.normalized ToLower TrimSpace stream). rewrite Hs.
  fold iterate. rewrite (iterate_unsupported _ _ Hall).
  cbn [l_db l_w lastErr hasMainValue included opts streams clock log].
  unfold DB_setStream. cbn [opts streams clock log].
  rewrite (insert_id _ _ _ Hs). reflexivity.
Qed.

Lemma writeEach_offered rows : forall w,
  wal.offered (snd (writeEach w rows)) = (wal.offered w ++ map (fun bufs => concat bufs) rows)%list.
Proof.
  induction rows as [|bufs rows IH]; intros w; cbn [writeEach map].
  - cbn [snd]. rewrite app_nil_r. reflexivity.
  - pose proof (zenodb_facts.Write_offered w bufs) as Hw.
    destruct (wal.Write w bufs) as [e w1]. cbn [snd] in Hw.
    specialize (IH w1). destruct (writeEach w1 rows) as [es w2]. cbn [snd] in *.
    rewrite IH, Hw, <- app_assoc. reflexivity.
Qed.

Lemma InsertRaw_writeEach db stream vals w :
  Follow (opts db) = None ->
  streams db !! ingest.normalized ToLower TrimSpace stream = Some w ->
  Forall (fun kv => ingest.emptyVector (snd kv) = false) (IterateValues vals) ->
  let r := writeEach w (rowsOf Binary Build ts dims (IterateValues vals)) in
  exists db',
    InsertRaw db stream ts dims vals = (db', Go.Ok (lastError (fst r)))
    /\ streams db' !! ingest.normalized ToLower TrimSpace stream = Some (snd r).
Proof.
  intros Hf Hs Hall. cbn zeta. unfold zenodb.InsertRaw.
  rewrite Hf. fold (ingest.normalized ToLower TrimSpace stream). rewrite Hs.
  destruct (zenodb_facts.iterate_spec Binary Build ts dims (IterateValues vals)
              (mkLocals db w None false []) Hall eq_refl)
    as (st & Hit & Hmk & Hi & _).
  destruct (iterate_writes _ _ _ Hit) as (Hw & He).
  cbn [included l_w lastErr app] in Hi, Hw, He.
  fold iterate. rewrite Hit. unfold ingest.marked in Hmk. rewrite Hi in Hmk.
  rewrite Hmk, Hi. unfold rowsOf, payloads.
  rewrite map_app, writeEach_app, map_map. cbn [fst snd].
  unfold lastError. rewrite lastErrorFrom_app. fold (lastErrorFrom None).
  rewrite <- Hw, <- He.
  destruct (ingest.mainRow (IterateValues vals)) as [|m ms].
  - cbn [map writeEach fst snd lastErrorFrom fold_left].
    eexists. split; [reflexivity|].
    unfold DB_setStream. cbn [streams]. apply lookup_insert_eq.
  - cbn [map writeEach]. unfold doInsertRaw.
    destruct (wal.Write (l_w st) (rowFrame (Build (m :: ms)))) as [[e|] w1];
      cbn [fst snd lastErrorFrom fold_left];
      (eexists; split; [reflexivity|]);
      unfold DB_setStream; cbn [streams]; apply lookup_insert_eq.
Qed.

(** X2: on a leader that knows the stream, a call without an empty
    vector hands its rows to the log one after the other, the rows
    written apart first and the main row last, each whatever came of
    the ones before: the log was offered, after what it had, the
    frame of every row.  The call returns the error of the last
    write that failed, or none if every write succeeded. *)
Theorem last_write_error_returned db stream vals w :
  Follow (opts db) = None ->
  streams db !! ingest.normalized ToLower TrimSpace stream = Some w ->
  Forall (fun kv => ingest.emptyVector (snd kv) = false) (IterateValues vals) ->
  let rows := rowsOf Binary Build ts dims (IterateValues vals) in
  exists db' w',
    InsertRaw db stream ts dims vals
    = (db', Go.Ok (lastError (fst (writeEach w rows))))
    /\ streams db' !! ingest.normalized ToLower TrimSpace stream = Some w'
    /\ w' = snd (writeEach w rows)
    /\ wal.offered w' = (wal.offered w ++ map (fun bufs => concat bufs) rows)%list
    /\ length (wal.calls w') = (length (wal.calls w) + length rows)%nat.
Proof.
  intros Hf Hs Hall. cbn zeta.
  destruct (InsertRaw_writeEach db stream vals w Hf Hs Hall) as (db' & Hcall & Hs').
  exists db', (snd (writeEach w (rowsOf Binary Build ts dims (IterateValues vals)))).
  split; [exact Hcall|]. split; [exact Hs'|]. split; [reflexivity|].
  pose proof (writeEach_offered (rowsOf Binary Build ts dims (IterateValues vals)) w)
    as Ho.
  split; [exact Ho|].
  apply (f_equal (@length _)) in Ho. unfold wal.offered in Ho.
  rewrite length_app, !length_map in Ho. exact Ho.
Qed.

(** X3: whatever the call and however it ends (refused, completed or
    panicking), [InsertRaw] leaves the options and the clock of the
    database as they were, and the log of every stream other than the
    one it was called for, the one registered under the name that
    [strings.ToLower] and [strings.TrimSpace] make of the name
    given. *)
Theorem other_streams_untouched db stream vals :
  let db' := fst (InsertRaw db stream ts dims vals) in
  opts db' = opts db
  /\ clock db' = clock db
  /\ forall other, other <> ingest.normalized ToLower TrimSpace stream ->
       streams db' !! other = streams db !! other.
Proof.
  cbn zeta. unfold zenodb.InsertRaw.
  destruct (Follow (opts db)); [repeat split|].
  fold (ingest.normalized ToLower TrimSpace stream).
  destruct (streams db !! ingest.normalized ToLower TrimSpace stream) as [w|]; [|repeat split].
  pose proof (iterate_db (IterateValues vals) (mkLocals db w None false [])) as Hdb.
  fold iterate.
  destruct (iterate (IterateValues vals) (mkLocals db w None false [])) as [st p].
  cbn [fst l_db] in Hdb. destruct Hdb as (Ho & Hst & Hc).
  assert (Hset : forall d w', sameButLog d (l_db st) ->
            opts (DB_setStream d (ingest.normalized ToLower TrimSpace stream) w') = opts db
            /\ clock (DB_setStream d (ingest.normalized ToLower TrimSpace stream) w') = clock db
            /\ forall other, other <> ingest.normalized ToLower TrimSpace stream ->
                 streams (DB_setStream d (ingest.normalized ToLower TrimSpace stream) w') !! other
                 = streams db !! other).
  { intros d w' (Ho' & Hst' & Hc'). unfold DB_setStream. cbn [opts clock streams].
    repeat split; try congruence.
    intros other Hne. rewrite lookup_insert_ne by congruence. congruence. }
  destruct p as [p|].
  - cbn [fst]. apply Hset, sameButLog_refl.
  - destruct (hasMainValue st).
    + pose proof (doInsertRaw_db (l_db st) (l_w st) (Build (included st))) as Hd.
      destruct (doInsertRaw Binary (l_db st) (l_w st) ts dims (Build (included st)))
        as [[e w1] db1]. cbn [fst snd] in *. apply Hset, Hd.
    + cbn [fst]. apply Hset, sameButLog_refl.
Qed.

End Writer.

(** ** The worker *)

Section Worker.
Variable Binary : ByteOrder.
Variable Hash32 : Type.
Variable partitionHash : Hash32.
Variable truncateBefore : table -> Time.
Variable inPartition : Hash32 -> ByteMap -> list string -> Z -> bool.
Variable FromSortedKeysAndValues : list string -> list Go.value -> ByteMap.

#[local] Abbreviation insert :=
  (insert Binary Hash32 truncateBefore inPartition FromSortedKeysAndValues).
#[local] Abbreviation doInsert := (doInsert FromSortedKeysAndValues).
#[local] Abbreviation processRead :=
  (processRead Binary Hash32 truncateBefore inPartition FromSortedKeysAndValues).
#[local] Abbreviation admitted := (journal.admitted FromSortedKeysAndValues).
#[local] Abbreviation keyOf := (journal.keyOf FromSortedKeysAndValues).

Lemma reslice_valued gs dims : forall names values,
  reslice gs dims names values
  = ((names ++ map Name (valued gs dims))%list,
     (values ++ map (fun g => GExpr g dims) (valued gs dims))%list).
Proof.
  induction gs as [|g gs IH]; intros names values; cbn [reslice valued List.filter map].
  - rewrite !app_nil_r. reflexivity.
  - fold (valued gs dims).
    destruct (GExpr g dims) eqn:E; rewrite IH; cbn [map];
      rewrite <- ?app_assoc; cbn [app]; rewrite ?E; reflexivity.
Qed.

Lemma doInsert_passes t ts dims vals offset source :
  passes t dims ->
  doInsert t ts dims vals offset source
  = Go.Ok (admitted t ts dims vals offset source, true).
Proof.
  assert (E : (if (length (t_GroupBy (clock_Advance t ts)) =? 0)%nat then dims
               else let '(names, values) :=
                      reslice (t_GroupBy (clock_Advance t ts)) dims [] [] in
                    FromSortedKeysAndValues names values)
              = keyOf (t_GroupBy t) dims).
  { cbn [clock_Advance t_GroupBy]. rewrite reslice_valued. cbn [app].
    unfold journal.keyOf. destruct (t_GroupBy t); reflexivity. }
  unfold passes, zenodb.doInsert. rewrite E.
  destruct (getWhere t) as [w|] eqn:Ew; intros H; [rewrite H|]; reflexivity.
Qed.

(** [insert] on the frame of a point whose lengths fit 32 bits. *)
Lemma insert_frame t ts dims vals isFollower h offset source :
  Z.of_nat (length dims) < 2 ^ 32 ->
  Z.of_nat (length vals) < 2 ^ 32 ->
  insert t (ingest.frameBytes Binary ts dims vals) isFollower h offset source
  = if Before ts (truncateBefore t) then (t, false)
    else if isFollower
            && negb (inPartition h dims (PartitionBy t) (Partition (opts (db t))))
    then (t, false)
    else match doInsert t ts dims vals offset source with
         | Go.Ok r => r
         | Go.Panic p => (table_log t (LogPanic p), false)
         end.
Proof.
  intros Hd Hv. unfold ingest.frameBytes, zenodb.insert, frame.
  cbn [concat]. rewrite app_nil_r.
  unfold EncodeTime at 1. rewrite zenodb_facts.Read_head. cbn [mbind res_bind Go.bind].
  fold (EncodeTime Binary (make Width64bits) ts).
  rewrite <- (app_nil_r (EncodeTime _ _ _)), TimeFromBytes_EncodeTime.
  destruct (Before ts (truncateBefore t)); [reflexivity|].
  rewrite ReadInt32_WriteInt32. cbn [mbind res_bind Go.bind].
  rewrite (Z.mod_small (Z.of_nat (length dims))) by lia.
  rewrite Read_app. cbn [mbind res_bind Go.bind].
  destruct (isFollower && negb _); [reflexivity|].
  rewrite ReadInt32_WriteInt32. cbn [mbind res_bind Go.bind].
  rewrite (Z.mod_small (Z.of_nat (length vals))) by lia.
  rewrite <- (app_nil_r vals) at 1. rewrite Read_app. cbn [mbind res_bind Go.bind].
  unfold make. rewrite !copy_make. reflexivity.
Qed.

(** On a follower, [insert] on the frame of a point of another
    partition. *)
Lemma insert_frame_foreign t ts dims vals h offset source :
  Z.of_nat (length dims) < 2 ^ 32 ->
  Before ts (truncateBefore t) = false ->
  inPartition h dims (PartitionBy t) (Partition (opts (db t))) = false ->
  insert t (ingest.frameBytes Binary ts dims vals) true h offset source = (t, false).
Proof.
  intros Hd Hs Hp. unfold ingest.frameBytes, zenodb.insert, frame.
  cbn [concat]. rewrite app_nil_r.
  unfold EncodeTime at 1. rewrite zenodb_facts.Read_head. cbn [mbind res_bind Go.bind].
  fold (EncodeTime Binary (make Width64bits) ts).
  rewrite <- (app_nil_r (EncodeTime _ _ _)), TimeFromBytes_EncodeTime, Hs.
  rewrite ReadInt32_WriteInt32. cbn [mbind res_bind Go.bind].
  rewrite (Z.mod_small (Z.of_nat (length dims))) by lia.
  rewrite Read_app. cbn [mbind res_bind Go.bind].
  rewrite Hp. reflexivity.
Qed.

(** What a call of [doInsert] that returns leaves. *)
Lemma doInsert_cases t ts dims vals offset source r :
  doInsert t ts dims vals offset source = Go.Ok r ->
  r = (admitted t ts dims vals offset source, true) \/ r = (filteredOut t, false).
Proof.
  destruct (getWhere t) as [w|] eqn:Ew.
  - destruct (w dims) as [|[]| | | | | |] eqn:Ed.
    2: { rewrite doInsert_passes by (unfold passes; rewrite Ew; exact Ed).
         intros H; inversion H; auto. }
    all: unfold zenodb.doInsert; rewrite Ew, Ed; intros H; inversion H; auto.
  - rewrite doInsert_passes by (unfold passes; rewrite Ew; exact I).
    intros H; inversion H; auto.
Qed.

(** What a call of [insert] leaves. *)
Lemma insert_cases t d isFollower h offset source :
  let r := insert t d isFollower h offset source in
  r = (t, false)
  \/ (exists p, r = (table_log t (LogPanic p), false))
  \/ r = (filteredOut t, false)
  \/ exists ts dims vals, r = (admitted t ts dims vals offset source, true).
Proof.
  cbn zeta. unfold zenodb.insert, mbind, res_bind.
  repeat match goal with
         | |- context [Go.bind ?m _] =>
             destruct m as [[? ?]|?]; cbn [Go.bind]
         | |- context [if ?b then _ else _] => destruct b
         end;
    try (left; reflexivity); try (right; left; eexists; reflexivity).
  all: match goal with
       | |- context [zenodb.doInsert ?f ?a ?b ?c ?e ?g ?i] =>
           destruct (zenodb.doInsert f a b c e g i) as [r|p] eqn:E;
           [destruct (doInsert_cases _ _ _ _ _ _ _ E) as [-> | ->];
            [right; right; right; eauto | right; right; left; reflexivity]
           | right; left; eexists; reflexivity]
       end.
Qed.

Lemma processRead_frame t c ts dims vals isFollower h offset source minutePassed :
  Z.of_nat (length dims) < 2 ^ 32 ->
  Z.of_nat (length vals) < 2 ^ 32 ->
  Before ts (truncateBefore t) = false ->
  isFollower && negb (inPartition h dims (PartitionBy t) (Partition (opts (db t)))) = false ->
  fst (processRead isFollower h (t, c)
         (mkWalRead (Some (ingest.frameBytes Binary ts dims vals)) offset source,
          minutePassed))
  = match doInsert t ts dims vals offset source with
    | Go.Ok (t', true) => t'
    | Go.Ok (t', false) => skip t' offset source
    | Go.Panic p => skip (table_log t (LogPanic p)) offset source
    end.
Proof.
  intros Hd Hv Hs Hp.
  rewrite zenodb_facts.processRead_table. cbn [data r_offset r_source]. cbn zeta.
  rewrite (insert_frame _ _ _ _ _ _ _ _ Hd Hv), Hs, Hp.
  destruct (doInsert t ts dims vals offset source) as [[t' []]|p]; reflexivity.
Qed.

(** ** A frame that is read ends in one of four ways *)

(** X4: the worker is handed the frame of a point that is not stale
    and that a follower would keep; when the WHERE clause of the
    table is false on its [dims], the point is not stored and the
    clock is not advanced: [FilteredPoints] grows by one and the row
    store is told of the offset alone. *)
Theorem filtered_point_skipped t c ts dims vals isFollower h offset source
    minutePassed where_ :
  Z.of_nat (length dims) < 2 ^ 32 ->
  Z.of_nat (length vals) < 2 ^ 32 ->
  Before ts (truncateBefore t) = false ->
  isFollower && negb (inPartition h dims (PartitionBy t) (Partition (opts (db t)))) = false ->
  getWhere t = Some where_ ->
  where_ dims = Go.Bool false ->
  fst (processRead isFollower h (t, c)
         (mkWalRead (Some (ingest.frameBytes Binary ts dims vals)) offset source,
          minutePassed))
  = mkTable (db t) (getWhere t) (t_GroupBy t) (PartitionBy t)
      (rowStore t ++ [marker offset source])%list
      (mkStats (FilteredPoints (stats t) + 1)%N (InsertedPoints (stats t))
         (QueuedPoints (stats t)) (SkippedPoints (stats t)))
      (tlog t).
Proof.
  intros Hd Hv Hs Hp Hw Hf.
  rewrite (processRead_frame _ _ _ _ _ _ _ _ _ _ Hd Hv Hs Hp).
  match goal with |- _ = ?r => set (after := r) end.
  unfold zenodb.doInsert. rewrite Hw, Hf. reflexivity.
Qed.

Lemma admitted_point_frame t c ts dims vals isFollower h offset source minutePassed :
  Z.of_nat (length dims) < 2 ^ 32 ->
  Z.of_nat (length vals) < 2 ^ 32 ->
  Before ts (truncateBefore t) = false ->
  isFollower && negb (inPartition h dims (PartitionBy t) (Partition (opts (db t)))) = false ->
  passes t dims ->
  fst (processRead isFollower h (t, c)
         (mkWalRead (Some (ingest.frameBytes Binary ts dims vals)) offset source,
          minutePassed))
  = admitted t ts dims vals offset source.
Proof.
  intros Hd Hv Hs Hp Hw.
  rewrite (processRead_frame _ _ _ _ _ _ _ _ _ _ Hd Hv Hs Hp).
  rewrite (doInsert_passes _ _ _ _ _ _ Hw). reflexivity.
Qed.

(** X5: the worker is handed the frame of a point that is not stale
    and that a follower would keep; when the table has no WHERE
    clause or its clause is true on the [dims], the point is queued
    in the row store under the key of its group-bys, with its
    timestamp, values, original [dims], offset and source, and no
    other item is; [InsertedPoints] grows by one and the clock is
    at the later of its instant and the point's. *)
Theorem admitted_point_stored t c ts dims vals isFollower h offset source minutePassed :
  Z.of_nat (length dims) < 2 ^ 32 ->
  Z.of_nat (length vals) < 2 ^ 32 ->
  Before ts (truncateBefore t) = false ->
  isFollower && negb (inPartition h dims (PartitionBy t) (Partition (opts (db t)))) = false ->
  passes t dims ->
  fst (processRead isFollower h (t, c)
         (mkWalRead (Some (ingest.frameBytes Binary ts dims vals)) offset source,
          minutePassed))
  = mkTable
      (mkDB (opts (db t)) (streams (db t)) (later (clock (db t)) ts) (log (db t)))
      (getWhere t) (t_GroupBy t) (PartitionBy t)
      (rowStore t
       ++ [mkInsert (Some (keyOf (t_GroupBy t) dims)) (Some (NewTSParams ts vals))
             (Some dims) offset source])%list
      (mkStats (FilteredPoints (stats t)) (InsertedPoints (stats t) + 1)%N
         (QueuedPoints (stats t)) (SkippedPoints (stats t)))
      (tlog t).
Proof.
  intros Hd Hv Hs Hp Hw.
  rewrite (processRead_frame _ _ _ _ _ _ _ _ _ _ Hd Hv Hs Hp).
  rewrite (doInsert_passes _ _ _ _ _ _ Hw). reflexivity.
Qed.

(** X6: the worker is handed the frame of a point that is not stale
    and that a follower would keep; when the WHERE clause of the
    table gives anything but a boolean on its [dims], the failed
    assertion is recovered: the panic is logged, no counter and no
    clock moves, and the row store is told of the offset alone. *)
Theorem where_not_boolean_recovered t c ts dims vals isFollower h offset source
    minutePassed where_ :
  Z.of_nat (length dims) < 2 ^ 32 ->
  Z.of_nat (length vals) < 2 ^ 32 ->
  Before ts (truncateBefore t) = false ->
  isFollower && negb (inPartition h dims (PartitionBy t) (Partition (opts (db t)))) = false ->
  getWhere t = Some where_ ->
  (forall b, where_ dims <> Go.Bool b) ->
  fst (processRead isFollower h (t, c)
         (mkWalRead (Some (ingest.frameBytes Binary ts dims vals)) offset source,
          minutePassed))
  = mkTable (db t) (getWhere t) (t_GroupBy t) (PartitionBy t)
      (rowStore t ++ [marker offset source])%list (stats t)
      (tlog t ++ [LogPanic Go.TypeAssertion])%list.
Proof.
  intros Hd Hv Hs Hp Hw Hf.
  rewrite (processRead_frame _ _ _ _ _ _ _ _ _ _ Hd Hv Hs Hp).
  match goal with |- _ = ?r => set (after := r) end.
  unfold zenodb.doInsert. rewrite Hw.
  destruct (where_ dims) as [|b| | | | | |] eqn:E; try reflexivity.
  destruct (Hf b eq_refl).
Qed.

(** X7: on a follower, the frame of a point that is not stale and
    whose [dims] are not in the partition of the follower leaves the
    table as it was, whatever its WHERE clause, but for the item
    that tells the row store of the offset. *)
Theorem out_of_partition_skipped t c ts dims vals h offset source minutePassed :
  Z.of_nat (length dims) < 2 ^ 32 ->
  Before ts (truncateBefore t) = false ->
  inPartition h dims (PartitionBy t) (Partition (opts (db t))) = false ->
  fst (processRead true h (t, c)
         (mkWalRead (Some (ingest.frameBytes Binary ts dims vals)) offset source,
          minutePassed))
  = mkTable (db t) (getWhere t) (t_GroupBy t) (PartitionBy t)
      (rowStore t ++ [marker offset source])%list (stats t) (tlog t).
Proof.
  intros Hd Hs Hp.
  rewrite zenodb_facts.processRead_table. cbn [data r_offset r_source]. cbn zeta.
  rewrite (insert_frame_foreign _ _ _ _ _ _ _ Hd Hs Hp). reflexivity.
Qed.

(** ** A frame cut short *)

Lemma Read_short (b : list byte) (l : Z) :
  Z.of_nat (length b) < l -> Read b l = Go.Panic Go.SliceOutOfRange.
Proof.
  intros H. unfold Read.
  replace (l <=? Z.of_nat (length b)) with false by (symmetry; apply Z.leb_gt; lia).
  rewrite andb_false_r. reflexivity.
Qed.

Lemma ReadInt32_short (b : list byte) :
  (length b < Width32bits)%nat -> ReadInt32 Binary b = Go.Panic Go.IndexOutOfRange.
Proof.
  intros H. unfold ReadInt32.
  replace (Width32bits <=? length b)%nat with false
    by (symmetry; apply Nat.leb_gt; exact H).
  reflexivity.
Qed.

Lemma insert_truncated t ts dims vals isFollower h offset source k :
  Z.of_nat (length dims) < 2 ^ 32 ->
  Z.of_nat (length vals) < 2 ^ 32 ->
  Before ts (truncateBefore t) = false ->
  isFollower && negb (inPartition h dims (PartitionBy t) (Partition (opts (db t)))) = false ->
  (k < length (ingest.frameBytes Binary ts dims vals))%nat ->
  exists p,
    insert t (take k (ingest.frameBytes Binary ts dims vals)) isFollower h offset source
    = (table_log t (LogPanic p), false).
Proof.
  intros Hd Hv Hs Hp Hk. unfold ingest.frameBytes, frame in *.
  cbn [concat] in *. rewrite app_nil_r in *.
  pose proof (length_PutUint_make Binary Width64bits (word.unsigned ts)) as LT.
  fold (EncodeTime Binary (make Width64bits) ts) in LT.
  pose proof (length_PutUint_make Binary Width32bits (Z.of_nat (length dims) mod 2 ^ 32))
    as LD.
  fold (WriteInt32 Binary (make Width32bits) (Z.of_nat (length dims))) in LD.
  pose proof (length_PutUint_make Binary Width32bits (Z.of_nat (length vals) mod 2 ^ 32))
    as LV.
  fold (WriteInt32 Binary (make Width32bits) (Z.of_nat (length vals))) in LV.
  rewrite !length_app, LT, LD, LV in Hk.
  unfold zenodb.insert.
  destruct (le_lt_dec Width64bits k) as [H8|H8].
  2: { rewrite take_app_le by (rewrite LT; lia).
       rewrite Read_short by (rewrite length_take, LT; lia).
       eexists; reflexivity. }
  rewrite take_app_ge by (rewrite LT; lia). rewrite LT.
  unfold EncodeTime at 1. rewrite zenodb_facts.Read_head. cbn [mbind res_bind Go.bind].
  fold (EncodeTime Binary (make Width64bits) ts).
  rewrite <- (app_nil_r (EncodeTime _ _ _)), TimeFromBytes_EncodeTime, Hs.
  destruct (le_lt_dec Width32bits (k - Width64bits)) as [H4|H4].
  2: { rewrite take_app_le by (rewrite LD; lia).
       rewrite ReadInt32_short by (rewrite length_take, LD; lia).
       eexists; reflexivity. }
  rewrite take_app_ge by (rewrite LD; lia). rewrite LD.
  rewrite ReadInt32_WriteInt32. cbn [mbind res_bind Go.bind].
  rewrite (Z.mod_small (Z.of_nat (length dims))) by lia.
  destruct (le_lt_dec (length dims) (k - Width64bits - Width32bits)) as [Hl|Hl].
  2: { rewrite take_app_le by lia.
       rewrite Read_short by (rewrite length_take; lia).
       eexists; reflexivity. }
  rewrite take_app_ge by lia.
  rewrite Read_app. cbn [mbind res_bind Go.bind]. rewrite Hp.
  destruct (le_lt_dec Width32bits (k - Width64bits - Width32bits - length dims))
    as [H5|H5].
  2: { rewrite take_app_le by (rewrite LV; lia).
       rewrite ReadInt32_short by (rewrite length_take, LV; lia).
       eexists; reflexivity. }
  rewrite take_app_ge by (rewrite LV; lia). rewrite LV.
  rewrite ReadInt32_WriteInt32. cbn [mbind res_bind Go.bind].
  rewrite (Z.mod_small (Z.of_nat (length vals))) by lia.
  rewrite Read_short by (rewrite length_take; lia).
  eexists; reflexivity.
Qed.

(** X8: the worker is handed a frame that was cut short, the first
    [k] bytes of the frame of a point that is neither stale nor of
    another partition.  Wherever the cut falls, the read past the end
    panics, the panic is recovered and logged, nothing is stored, no
    counter and no clock moves, and the row store is told of the
    offset alone: the worker goes on. *)
Theorem truncated_frame_recovered t c ts dims vals isFollower h offset source
    minutePassed k :
  Z.of_nat (length dims) < 2 ^ 32 ->
  Z.of_nat (length vals) < 2 ^ 32 ->
  Before ts (truncateBefore t) = false ->
  isFollower && negb (inPartition h dims (PartitionBy t) (Partition (opts (db t)))) = false ->
  (k < length (ingest.frameBytes Binary ts dims vals))%nat ->
  exists p,
    fst (processRead isFollower h (t, c)
           (mkWalRead (Some (take k (ingest.frameBytes Binary ts dims vals)))
              offset source, minutePassed))
    = mkTable (db t) (getWhere t) (t_GroupBy t) (PartitionBy t)
        (rowStore t ++ [marker offset source])%list (stats t)
        (tlog t ++ [LogPanic p])%list.
Proof.
  intros Hd Hv Hs Hp Hk.
  destruct (insert_truncated t ts dims vals isFollower h offset source k Hd Hv Hs Hp Hk)
    as (p & E).
  exists p. rewrite zenodb_facts.processRead_table. cbn [data r_offset r_source].
  cbn zeta. rewrite E. reflexivity.
Qed.

(** ** What no operation undoes *)

Lemma follows_refl t : follows t t.
Proof. unfold follows. repeat split; try reflexivity. Qed.

Lemma follows_trans t1 t2 t3 : follows t1 t2 -> follows t2 t3 -> follows t1 t3.
Proof.
  unfold follows.
  intros (A1 & A2 & A3 & A4 & A5 & A6 & A7 & A8 & A9)
         (B1 & B2 & B3 & B4 & B5 & B6 & B7 & B8 & B9).
  repeat split; try congruence; try lia; etransitivity; eassumption.
Qed.

Lemma follows_log t e : follows t (table_log t e).
Proof.
  unfold follows, table_log. cbn.
  repeat split; try reflexivity. apply prefix_app_r. reflexivity.
Qed.

Lemma follows_filteredOut t : follows t (filteredOut t).
Proof. unfold follows, filteredOut. cbn. repeat split; reflexivity. Qed.

Lemma follows_queue t item : follows t (rowStore_insert t item).
Proof.
  unfold follows, rowStore_insert. cbn.
  repeat split; try reflexivity. apply prefix_app_r. reflexivity.
Qed.

Lemma later_signed (a b : Time) : word.signed a <= word.signed (later a b).
Proof.
  unfold later, Before. rewrite word.signed_lts.
  destruct (Z.ltb_spec (word.signed a) (word.signed b)); lia.
Qed.

Lemma follows_admitted t ts dims vals offset source :
  follows t (admitted t ts dims vals offset source).
Proof.
  unfold follows, journal.admitted. cbn.
  repeat split; try reflexivity.
  - exact (later_signed (clock (db t)) ts).
  - apply prefix_app_r. reflexivity.
Qed.

Lemma insert_follows t d isFollower h offset source :
  follows t (fst (insert t d isFollower h offset source)).
Proof.
  destruct (insert_cases t d isFollower h offset source)
    as [E|[(p & E)|[E|(ts & dims & vals & E)]]]; rewrite E; cbn [fst].
  - apply follows_refl.
  - apply follows_log.
  - apply follows_filteredOut.
  - apply follows_admitted.
Qed.

Lemma processRead_follows isFollower h t c ev :
  follows t (fst (processRead isFollower h (t, c) ev)).
Proof.
  destruct ev as [read mp]. rewrite zenodb_facts.processRead_table.
  destruct (data read) as [d|]; [|apply follows_refl]. cbn zeta.
  pose proof (insert_follows t d isFollower h (r_offset read) (r_source read)) as F.
  destruct (snd (insert t d isFollower h (r_offset read) (r_source read))); [exact F|].
  eapply follows_trans; [exact F|]. apply follows_queue.
Qed.

#[local] Abbreviation apply :=
  (ingest.apply Binary Hash32 truncateBefore inPartition FromSortedKeysAndValues).
#[local] Abbreviation run :=
  (ingest.run Binary Hash32 truncateBefore inPartition FromSortedKeysAndValues).

Lemma apply_follows t o : follows t (fst (apply t o)).
Proof.
  destruct o as [d f h off src|off src|ts dims vals off src| |f h read mp];
    cbn [ingest.apply fst].
  - apply insert_follows.
  - apply follows_queue.
  - destruct (doInsert t ts dims vals off src) as [r|p] eqn:E; [|apply follows_refl].
    destruct (doInsert_cases _ _ _ _ _ _ _ E) as [-> | ->]; cbn [fst].
    + apply follows_admitted.
    + apply follows_filteredOut.
  - unfold follows, recordQueued, table_setStats. cbn. repeat split; reflexivity.
  - apply processRead_follows.
Qed.

(** X9: over any run of the operations of insert.go on a table, the
    table keeps its WHERE clause, its group-bys, its partition keys
    and, of its database, the options, the streams and the log; the
    clock of the database never goes back; and what the row store
    and the logger of the table were given is never taken away. *)
Theorem table_moves_forward ops : forall t, follows t (fst (run t ops)).
Proof.
  induction ops as [|o ops IH]; intros t; cbn [ingest.run].
  - apply follows_refl.
  - pose proof (apply_follows t o) as F. destruct (apply t o) as [t1 ok].
    specialize (IH t1). destruct (run t1 ops) as [t2 n]. cbn [fst] in *.
    eapply follows_trans; eassumption.
Qed.

(** ** Every read with data is acknowledged *)

Lemma processRead_ack isFollower h t c ev :
  exists items,
    rowStore (fst (processRead isFollower h (t, c) ev)) = (rowStore t ++ items)%list
    /\ acknowledged items = carried [ev].
Proof.
  destruct ev as [read mp]. rewrite zenodb_facts.processRead_table.
  unfold carried. cbn [omap list_omap fst].
  destruct (data read) as [d|].
  2: { exists []. rewrite app_nil_r. split; reflexivity. }
  cbn zeta.
  destruct (insert_cases t d isFollower h (r_offset read) (r_source read))
    as [E|[(p & E)|[E|(ts & dims & vals & E)]]]; rewrite E; cbn [fst snd];
    eexists [_]; split; reflexivity.
Qed.

(** X10: whatever the worker is sent, the row store is told of the
    offset and the source of every read that carries data, once each
    and in the order of the reads, whether the frame was stored,
    filtered out, stale, of another partition or unreadable; a read
    without data leaves no trace. *)
Theorem every_read_acknowledged t reads :
  exists items,
    rowStore (fst (processInserts Binary Hash32 partitionHash truncateBefore
                     inPartition FromSortedKeysAndValues t reads))
    = (rowStore t ++ items)%list
    /\ acknowledged items = carried reads.
Proof.
  unfold processInserts.
  generalize (mkCounters 0 0 0) as c.
  generalize (match Follow (opts (db t)) with Some _ => true | None => false end)
    as isFollower.
  intros isFollower c. revert t c.
  induction reads as [|ev reads IH]; intros t c; cbn [fold_left].
  - exists []. rewrite app_nil_r. split; reflexivity.
  - destruct (processRead_ack isFollower partitionHash t c ev) as (i1 & E1 & A1).
    destruct (processRead isFollower partitionHash (t, c) ev) as [t1 c1].
    cbn [fst] in E1.
    destruct (IH t1 c1) as (i2 & E2 & A2).
    exists (i1 ++ i2)%list. rewrite E2, E1, <- app_assoc. split; [reflexivity|].
    unfold acknowledged in *. rewrite map_app, A1, A2.
    change (ev :: reads) with ([ev] ++ reads)%list.
    unfold carried. rewrite omap_app. reflexivity.
Qed.

(** X11: the loop of [doInsert] over the group-bys of the table
    keeps the name and the value of each expression that is not nil
    on the [dims], in the order of the group-bys: the names and the
    values it hands to the key builder go by pairs, and none of the
    values is nil. *)
Theorem reslice_keeps_valued gs dims :
  let '(names, values) := reslice gs dims [] [] in
  names = map Name (valued gs dims)
  /\ values = map (fun g => GExpr g dims) (valued gs dims)
  /\ length names = length values
  /\ Forall (fun v => v <> Go.Nil) values
  /\ (forall g, In g gs -> GExpr g dims <> Go.Nil -> In (Name g) names).
Proof.
  rewrite reslice_valued. cbn [app].
  split; [reflexivity|]. split; [reflexivity|].
  split; [rewrite !length_map; reflexivity|].
  split.
  - apply Forall_forall. intros v Hv. apply list_elem_of_In in Hv.
    apply in_map_iff in Hv as (g & <- & Hg).
    apply List.filter_In in Hg as (_ & Hg).
    destruct (GExpr g dims); congruence.
  - intros g Hg Hn. apply in_map. apply List.filter_In. split; [exact Hg|].
    destruct (GExpr g dims); congruence.
Qed.

End Worker.

(** ** From the call to the row store *)

Section Pipeline.
Variable Binary : ByteOrder.
Variable IterateValues : ByteMap -> list (string * Go.value).
Variable Build : list (string * Go.value) -> ByteMap.
Variable ToLower : string -> string.
Variable TrimSpace : string -> string.
Variable Hash32 : Type.
Variable partitionHash : Hash32.
Variable truncateBefore : table -> Time.
Variable inPartition : Hash32 -> ByteMap -> list string -> Z -> bool.
Variable FromSortedKeysAndValues : list string -> list Go.value -> ByteMap.

#[local] Abbreviation processRead :=
  (processRead Binary Hash32 truncateBefore inPartition FromSortedKeysAndValues).
#[local] Abbreviation admitted := (journal.admitted FromSortedKeysAndValues).

(** On a log that no failure awaits, every write succeeds. *)
Lemma writeEach_clean rows : forall w,
  wal.pending w = [] ->
  fst (writeEach w rows) = map (fun _ => None) rows
  /\ wal.entries (snd (writeEach w rows))
     = (wal.entries w ++ map (fun bufs => concat bufs) rows)%list.
Proof.
  induction rows as [|bufs rows IH]; intros w Hp; cbn [writeEach map].
  - cbn [fst snd]. rewrite app_nil_r. split; reflexivity.
  - unfold wal.Write. rewrite Hp.
    destruct (IH (wal.mkWAL (wal.calls w ++ [(concat bufs, None)]) []) eq_refl)
      as (IH1 & IH2).
    destruct (writeEach (wal.mkWAL (wal.calls w ++ [(concat bufs, None)]) []) rows)
      as [es w2]. cbn [fst snd] in *.
    rewrite IH1, IH2. split; [reflexivity|].
    unfold wal.entries. cbn [wal.calls]. rewrite omap_app, <- app_assoc. reflexivity.
Qed.

Lemma lastError_none {A} (rows : list A) :
  lastError (map (fun _ => None) rows) = None.
Proof. unfold lastError, lastErrorFrom. induction rows; [reflexivity|exact IHrows]. Qed.

Lemma passes_admitted t ts dims vals offset source dims' :
  passes t dims' -> passes (admitted t ts dims vals offset source) dims'.
Proof. unfold passes, journal.admitted. cbn [getWhere]. auto. Qed.

(** The worker on the frames of points that share a timestamp and
    their [dims]. *)
Lemma processReads_frames ts dims h :
  Z.of_nat (length dims) < 2 ^ 32 ->
  (forall t, Before ts (truncateBefore t) = false) ->
  forall (rows : list (ByteMap * wal.Offset)) t c,
    Forall (fun r => Z.of_nat (length (fst r)) < 2 ^ 32) rows ->
    passes t dims ->
    fst (fold_left (processRead false h)
           (readsOf (map (fun r => (ingest.frameBytes Binary ts dims (fst r), snd r)) rows))
           (t, c))
    = fold_left (fun t r => admitted t ts dims (fst r) (snd r) 0) rows t.
Proof.
  intros Hd Hs. induction rows as [|[p off] rows IH]; intros t c Hl Hw.
  - reflexivity.
  - inversion Hl as [|? ? Hp Hl']; subst. cbn [fst snd] in Hp.
    cbn [map readsOf fold_left fst snd].
    pose proof (journal_facts.admitted_point_frame Binary Hash32 truncateBefore
                  inPartition FromSortedKeysAndValues t c ts dims p false h off 0 false
                  Hd Hp (Hs t) eq_refl Hw) as E.
    destruct (processRead false h (t, c)
                (mkWalRead (Some (ingest.frameBytes Binary ts dims p)) off 0, false))
      as [t1 c1]. cbn [fst] in E. subst t1.
    apply IH; [exact Hl'|]. apply passes_admitted. exact Hw.
Qed.

Lemma admitted_fold ts dims (rows : list (ByteMap * wal.Offset)) : forall t,
  let t' := fold_left (fun t r => admitted t ts dims (fst r) (snd r) 0) rows t in
  rowStore t'
  = (rowStore t
     ++ map (fun r => stored FromSortedKeysAndValues (t_GroupBy t) ts dims
                        (fst r) (snd r) 0) rows)%list
  /\ InsertedPoints (stats t') = (InsertedPoints (stats t) + N.of_nat (length rows))%N
  /\ FilteredPoints (stats t') = FilteredPoints (stats t).
Proof.
  induction rows as [|r rows IH]; intros t; cbn zeta; cbn [fold_left map length].
  - rewrite app_nil_r, N.add_0_r. repeat split; reflexivity.
  - destruct (IH (admitted t ts dims (fst r) (snd r) 0)) as (I1 & I2 & I3).
    rewrite I1, I2, I3. unfold journal.admitted.
    cbn [rowStore stats t_GroupBy InsertedPoints FilteredPoints].
    rewrite <- app_assoc. cbn [app]. repeat split; try reflexivity. lia.
Qed.

(** X12: a leader is asked to insert values without an empty vector
    into a stream whose log no failure awaits, and a worker of a
    leader table whose WHERE clause, if any, holds on the [dims] of
    the call, and for which the timestamp of the call is never stale,
    reads the frames the log now holds after those it had.  The call
    returns no error, and the worker queues in the row store one item
    per row written, in the order written: the rows that were written
    apart for the further elements of vectors, then the main row;
    each under the key of the [dims] of the call, with its timestamp,
    the values of the row and the offset it was read at; so many
    points are counted as inserted and none as filtered. *)
Theorem written_points_stored d stream ts dims vals w t offs :
  Follow (opts d) = None ->
  streams d !! ingest.normalized ToLower TrimSpace stream = Some w ->
  wal.pending w = [] ->
  Forall (fun kv => ingest.emptyVector (snd kv) = false) (IterateValues vals) ->
  Z.of_nat (length dims) < 2 ^ 32 ->
  Forall (fun p => Z.of_nat (length p) < 2 ^ 32) (payloads Build (IterateValues vals)) ->
  (forall t', Before ts (truncateBefore t') = false) ->
  Follow (opts (db t)) = None ->
  passes t dims ->
  length offs = length (payloads Build (IterateValues vals)) ->
  exists d' w' frames,
    InsertRaw Binary IterateValues Build ToLower TrimSpace d stream ts dims vals = (d', Go.Ok None)
    /\ streams d' !! ingest.normalized ToLower TrimSpace stream = Some w'
    /\ wal.entries w' = (wal.entries w ++ frames)%list
    /\ let t' := fst (processInserts Binary Hash32 partitionHash truncateBefore
                        inPartition FromSortedKeysAndValues t
                        (readsOf (zip frames offs))) in
       rowStore t'
       = (rowStore t
          ++ map (fun r => stored FromSortedKeysAndValues (t_GroupBy t) ts dims
                             (fst r) (snd r) 0)
               (zip (payloads Build (IterateValues vals)) offs))%list
       /\ InsertedPoints (stats t')
          = (InsertedPoints (stats t) + N.of_nat (length offs))%N
       /\ FilteredPoints (stats t') = FilteredPoints (stats t).
Proof.
  intros Hf Hs Hp Hall Hd Hl Hstale Hlead Hw Hlen.
  destruct (InsertRaw_writeEach Binary IterateValues Build ToLower TrimSpace ts dims d stream vals w
              Hf Hs Hall) as (d' & Hcall & Hs').
  destruct (writeEach_clean (rowsOf Binary Build ts dims (IterateValues vals)) w Hp)
    as (He & Hent).
  rewrite He, lastError_none in Hcall.
  exists d', (snd (writeEach w (rowsOf Binary Build ts dims (IterateValues vals)))),
    (map (fun bufs => concat bufs) (rowsOf Binary Build ts dims (IterateValues vals))).
  split; [exact Hcall|]. split; [exact Hs'|]. split; [exact Hent|].
  cbn zeta. unfold processInserts. rewrite Hlead.
  assert (Ez : zip (map (fun bufs => concat bufs)
                      (rowsOf Binary Build ts dims (IterateValues vals))) offs
               = map (fun r => (ingest.frameBytes Binary ts dims (fst r), snd r))
                   (zip (payloads Build (IterateValues vals)) offs)).
  { unfold rowsOf. rewrite map_map. clear.
    generalize (payloads Build (IterateValues vals)) as ps. intros ps. revert offs.
    induction ps as [|p ps IH]; intros [|o offs]; cbn; try reflexivity.
    rewrite IH. reflexivity. }
  rewrite Ez.
  assert (Hrows : Forall (fun r : ByteMap * wal.Offset => Z.of_nat (length (fst r)) < 2 ^ 32)
                    (zip (payloads Build (IterateValues vals)) offs)).
  { apply Forall_forall. intros [p o] Hin. cbn [fst].
    apply (proj1 (Forall_forall _ _) Hl). eapply elem_of_zip_l. exact Hin. }
  rewrite (processReads_frames ts dims partitionHash Hd Hstale _ t (mkCounters 0 0 0)
             Hrows Hw).
  destruct (admitted_fold ts dims (zip (payloads Build (IterateValues vals)) offs) t)
    as (R1 & R2 & R3).
  split; [exact R1|]. split; [|exact R3].
  rewrite R2, length_zip, Hlen, Nat.min_id. rewrite <- Hlen. reflexivity.
Qed.

End Pipeline.

Lemma filtered_point_skipped_witness :
  let t := tableWhere (fun _ => Go.Bool false) in
  Z.of_nat (length [Byte.x01]) < 2 ^ 32
  /\ Z.of_nat (length [Byte.x02]) < 2 ^ 32
  /\ Before (word.of_Z 7) (samples.keepAll t) = false
  /\ false && negb (samples.ownsAll tt [Byte.x01] (PartitionBy t) (Partition (opts (db t))))
     = false
  /\ getWhere t = Some (fun _ => Go.Bool false)
  /\ fst (processRead BigEndian unit samples.keepAll samples.ownsAll samples.noKey
            false tt (t, mkCounters 0 0 0)
            (mkWalRead (Some (ingest.frameBytes BigEndian (word.of_Z 7) [Byte.x01]
                                [Byte.x02])) 5 0, false))
     = mkTable samples.leader (Some (fun _ => Go.Bool false)) sampleGroupBy []
         [marker 5 0] (mkStats 1 0 0 0) [].
Proof.
  cbn zeta.
  assert (H1 : Z.of_nat (length [Byte.x01]) < 2 ^ 32) by (simpl; lia).
  assert (H2 : Z.of_nat (length [Byte.x02]) < 2 ^ 32) by (simpl; lia).
  split; [exact H1|]. split; [exact H2|]. split; [reflexivity|].
  split; [reflexivity|]. split; [reflexivity|].
  exact (filtered_point_skipped BigEndian unit samples.keepAll samples.ownsAll
           samples.noKey (tableWhere (fun _ => Go.Bool false)) (mkCounters 0 0 0)
           (word.of_Z 7) [Byte.x01] [Byte.x02] false tt 5 0 false
           (fun _ => Go.Bool false) H1 H2 eq_refl eq_refl eq_refl eq_refl).
Defined.

Lemma admitted_point_stored_witness :
  let t := tableWhere (fun _ => Go.Bool true) in
  Z.of_nat (length [Byte.x01]) < 2 ^ 32
  /\ Z.of_nat (length [Byte.x02]) < 2 ^ 32
  /\ Before (word.of_Z 7) (samples.keepAll t) = false
  /\ false && negb (samples.ownsAll tt [Byte.x01] (PartitionBy t) (Partition (opts (db t))))
     = false
  /\ passes t [Byte.x01]
  /\ fst (processRead BigEndian unit samples.keepAll samples.ownsAll sampleKey
            false tt (t, mkCounters 0 0 0)
            (mkWalRead (Some (ingest.frameBytes BigEndian (word.of_Z 7) [Byte.x01]
                                [Byte.x02])) 5 0, false))
     = mkTable (mkDB (mkDBOpts None 0) ∅ (word.of_Z 7) [])
         (Some (fun _ => Go.Bool true)) sampleGroupBy []
         [mkInsert (Some (sampleKey ["a"; "c"] [Go.Str "x"; Go.Int 1]))
            (Some (NewTSParams (word.of_Z 7) [Byte.x02])) (Some [Byte.x01]) 5 0]
         (mkStats 0 1 0 0) [].
Proof.
  cbn zeta.
  assert (H1 : Z.of_nat (length [Byte.x01]) < 2 ^ 32) by (simpl; lia).
  assert (H2 : Z.of_nat (length [Byte.x02]) < 2 ^ 32) by (simpl; lia).
  assert (H5 : passes (tableWhere (fun _ => Go.Bool true)) [Byte.x01]) by reflexivity.
  split; [exact H1|]. split; [exact H2|]. split; [reflexivity|].
  split; [reflexivity|]. split; [exact H5|].
  exact (admitted_point_stored BigEndian unit samples.keepAll samples.ownsAll
           sampleKey (tableWhere (fun _ => Go.Bool true)) (mkCounters 0 0 0)
           (word.of_Z 7) [Byte.x01] [Byte.x02] false tt 5 0 false
           H1 H2 eq_refl eq_refl H5).
Defined.

Lemma where_not_boolean_recovered_witness :
  let t := tableWhere (fun _ => Go.Str "yes") in
  Z.of_nat (length [Byte.x01]) < 2 ^ 32
  /\ Z.of_nat (length [Byte.x02]) < 2 ^ 32
  /\ Before (word.of_Z 7) (samples.keepAll t) = false
  /\ false && negb (samples.ownsAll tt [Byte.x01] (PartitionBy t) (Partition (opts (db t))))
     = false
  /\ getWhere t = Some (fun _ => Go.Str "yes")
  /\ (forall b, Go.Str "yes" <> Go.Bool b)
  /\ fst (processRead BigEndian unit samples.keepAll samples.ownsAll samples.noKey
            false tt (t, mkCounters 0 0 0)
            (mkWalRead (Some (ingest.frameBytes BigEndian (word.of_Z 7) [Byte.x01]
                                [Byte.x02])) 5 0, false))
     = mkTable samples.leader (Some (fun _ => Go.Str "yes")) sampleGroupBy []
         [marker 5 0] samples.noStats [LogPanic Go.TypeAssertion].
Proof.
  cbn zeta.
  assert (H1 : Z.of_nat (length [Byte.x01]) < 2 ^ 32) by (simpl; lia).
  assert (H2 : Z.of_nat (length [Byte.x02]) < 2 ^ 32) by (simpl; lia).
  assert (H6 : forall b, Go.Str "yes" <> Go.Bool b) by discriminate.
  split; [exact H1|]. split; [exact H2|]. split; [reflexivity|].
  split; [reflexivity|]. split; [reflexivity|]. split; [exact H6|].
  exact (where_not_boolean_recovered BigEndian unit samples.keepAll samples.ownsAll
           samples.noKey (tableWhere (fun _ => Go.Str "yes")) (mkCounters 0 0 0)
           (word.of_Z 7) [Byte.x01] [Byte.x02] false tt 5 0 false
           (fun _ => Go.Str "yes") H1 H2 eq_refl eq_refl eq_refl H6).
Defined.

Lemma out_of_partition_skipped_witness :
  Z.of_nat (length [Byte.x01]) < 2 ^ 32
  /\ Before (word.of_Z 7) (samples.keepAll followerTable) = false
  /\ ownsNone tt [Byte.x01] (PartitionBy followerTable)
       (Partition (opts (db followerTable))) = false
  /\ fst (processRead BigEndian unit samples.keepAll ownsNone samples.noKey
            true tt (followerTable, mkCounters 0 0 0)
            (mkWalRead (Some (ingest.frameBytes BigEndian (word.of_Z 7) [Byte.x01]
                                [Byte.x02])) 5 3, false))
     = mkTable samples.follower None [] [] [marker 5 3] samples.noStats [].
Proof.
  assert (H1 : Z.of_nat (length [Byte.x01]) < 2 ^ 32) by (simpl; lia).
  split; [exact H1|]. split; [reflexivity|]. split; [reflexivity|].
  exact (out_of_partition_skipped BigEndian unit samples.keepAll ownsNone
           samples.noKey followerTable (mkCounters 0 0 0)
           (word.of_Z 7) [Byte.x01] [Byte.x02] tt 5 3 false H1 eq_refl eq_refl).
Defined.

Lemma truncated_frame_recovered_witness :
  Z.of_nat (length [Byte.x01]) < 2 ^ 32
  /\ Z.of_nat (length [Byte.x02]) < 2 ^ 32
  /\ Before (word.of_Z 7) (samples.keepAll samples.emptyTable) = false
  /\ (13 < length (ingest.frameBytes BigEndian (word.of_Z 7) [Byte.x01] [Byte.x02]))%nat
  /\ exists p,
       fst (processRead BigEndian unit samples.keepAll samples.ownsAll samples.noKey
              false tt (samples.emptyTable, mkCounters 0 0 0)
              (mkWalRead
                 (Some (take 13 (ingest.frameBytes BigEndian (word.of_Z 7) [Byte.x01]
                                   [Byte.x02]))) 5 0, false))
       = mkTable samples.leader None [] [] [marker 5 0] samples.noStats [LogPanic p].
Proof.
  assert (H1 : Z.of_nat (length [Byte.x01]) < 2 ^ 32) by (simpl; lia).
  assert (H2 : Z.of_nat (length [Byte.x02]) < 2 ^ 32) by (simpl; lia).
  assert (H5 : (13 < length (ingest.frameBytes BigEndian (word.of_Z 7) [Byte.x01]
                               [Byte.x02]))%nat) by (vm_compute; lia).
  split; [exact H1|]. split; [exact H2|]. split; [reflexivity|]. split; [exact H5|].
  exact (truncated_frame_recovered BigEndian unit samples.keepAll samples.ownsAll
           samples.noKey samples.emptyTable (mkCounters 0 0 0)
           (word.of_Z 7) [Byte.x01] [Byte.x02] false tt 5 0 false 13
           H1 H2 eq_refl eq_refl H5).
Defined.

Lemma reslice_keeps_valued_witness :
  In (mkGroupBy "c" (fun _ => Go.Int 1)) sampleGroupBy
  /\ Go.Int 1 <> Go.Nil
  /\ In "c" (fst (reslice sampleGroupBy [Byte.x01] [] [])).
Proof.
  assert (H1 : In (mkGroupBy "c" (fun _ => Go.Int 1)) sampleGroupBy)
    by (cbn; auto).
  assert (H2 : Go.Int 1 <> Go.Nil) by discriminate.
  split; [exact H1|]. split; [exact H2|].
  pose proof (reslice_keeps_valued sampleGroupBy [Byte.x01]) as H.
  destruct (reslice sampleGroupBy [Byte.x01] [] []) as [names values].
  exact (proj2 (proj2 (proj2 (proj2 H))) _ H1 H2).
Defined.

Lemma written_points_stored_witness :
  Follow (opts samples.withEvents) = None
  /\ streams samples.withEvents !! ingest.normalized
      samples.lowerASCII samples.trimASCII "events" = Some (wal.mkWAL [] [])
  /\ wal.pending (wal.mkWAL [] []) = []
  /\ Forall (fun kv => ingest.emptyVector (snd kv) = false)
       (samples.sampleValues [Byte.x01])
  /\ Z.of_nat (length [Byte.x09]) < 2 ^ 32
  /\ Forall (fun p => Z.of_nat (length p) < 2 ^ 32)
       (payloads samples.sampleBuild (samples.sampleValues [Byte.x01]))
  /\ (forall t', Before (word.of_Z 7) (samples.keepAll t') = false)
  /\ Follow (opts (db samples.emptyTable)) = None
  /\ passes samples.emptyTable [Byte.x09]
  /\ length [10; 20; 30; 40]
     = length (payloads samples.sampleBuild (samples.sampleValues [Byte.x01]))
  /\ exists d',
       InsertRaw BigEndian samples.sampleValues samples.sampleBuild
           samples.lowerASCII samples.trimASCII samples.withEvents
         "events" (word.of_Z 7) [Byte.x09] [Byte.x01] = (d', Go.Ok None).
Proof.
  assert (H2 : streams samples.withEvents !! ingest.normalized
      samples.lowerASCII samples.trimASCII "events"
               = Some (wal.mkWAL [] [])) by (vm_compute; reflexivity).
  assert (H4 : Forall (fun kv => ingest.emptyVector (snd kv) = false)
                 (samples.sampleValues [Byte.x01])) by (repeat constructor).
  assert (H5 : Z.of_nat (length [Byte.x09]) < 2 ^ 32) by (simpl; lia).
  assert (H6 : Forall (fun p => Z.of_nat (length p) < 2 ^ 32)
                 (payloads samples.sampleBuild (samples.sampleValues [Byte.x01])))
    by (cbv [payloads samples.sampleBuild samples.sampleValues ingest.subRows
               ingest.mainRow flat_map map omap list_omap ingest.expand fst snd app];
        repeat (constructor; [simpl length; lia|]); constructor).
  assert (H7 : forall t', Before (word.of_Z 7) (samples.keepAll t') = false)
    by (intros t'; reflexivity).
  assert (H9 : passes samples.emptyTable [Byte.x09]) by exact I.
  split; [reflexivity|]. split; [exact H2|]. split; [reflexivity|]. split; [exact H4|].
  split; [exact H5|]. split; [exact H6|]. split; [exact H7|]. split; [reflexivity|].
  split; [exact H9|]. split; [reflexivity|].
  destruct (written_points_stored BigEndian samples.sampleValues samples.sampleBuild
             
                  samples.lowerASCII samples.trimASCII
                  unit tt samples.keepAll samples.ownsAll samples.noKey
              samples.withEvents "events" (word.of_Z 7) [Byte.x09] [Byte.x01]
              (wal.mkWAL [] []) samples.emptyTable [10; 20; 30; 40]
              eq_refl H2 eq_refl H4 H5 H6 H7 eq_refl H9 eq_refl)
    as (d' & w' & frames & Hcall & _).
  exists d'. exact Hcall.
Defined.

Lemma unsupported_values_dropped_witness :
  Follow (opts samples.withEvents) = None
  /\ streams samples.withEvents !! ingest.normalized
      samples.lowerASCII samples.trimASCII "Events" = Some (wal.mkWAL [] [])
  /\ Forall (fun kv => unsupported (snd kv) = true) (textValues [Byte.x03])
  /\ InsertRaw BigEndian textValues samples.sampleBuild
      samples.lowerASCII samples.trimASCII samples.withEvents
       "Events" (word.of_Z 7) [Byte.x09] [Byte.x03]
     = (mkDB (mkDBOpts None 0) {[ "events" := wal.mkWAL [] [] ]} (word.of_Z 0)
          [LogUnsupported "s" (Go.Str "a"); LogUnsupported "b" (Go.Bool true)],
        Go.Ok None).
Proof.
  assert (H2 : streams samples.withEvents !! ingest.normalized
      samples.lowerASCII samples.trimASCII "Events"
               = Some (wal.mkWAL [] [])) by (vm_compute; reflexivity).
  assert (H3 : Forall (fun kv => unsupported (snd kv) = true) (textValues [Byte.x03]))
    by (repeat constructor).
  split; [reflexivity|]. split; [exact H2|]. split; [exact H3|].
  exact (unsupported_values_dropped BigEndian textValues samples.sampleBuild
          
               samples.lowerASCII samples.trimASCII
               (word.of_Z 7) [Byte.x09] samples.withEvents "Events" [Byte.x03]
           (wal.mkWAL [] []) eq_refl H2 H3).
Defined.

Lemma last_write_error_returned_witness :
  let db := mkDB (mkDBOpts None 0)
              {[ "events" := wal.mkWAL [] [None; Some "disk full"; None] ]}
              (word.of_Z 0) [] in
  Follow (opts db) = None
  /\ streams db !! ingest.normalized samples.lowerASCII samples.trimASCII "events"
     = Some (wal.mkWAL [] [None; Some "disk full"; None])
  /\ Forall (fun kv => ingest.emptyVector (snd kv) = false)
       (samples.sampleValues [Byte.x01])
  /\ snd (InsertRaw BigEndian samples.sampleValues samples.sampleBuild
      samples.lowerASCII samples.trimASCII db
            "events" (word.of_Z 7) [Byte.x09] [Byte.x01])
     = Go.Ok (Some "disk full").
Proof.
  cbn zeta.
  assert (H2 : streams (mkDB (mkDBOpts None 0)
                 {[ "events" := wal.mkWAL [] [None; Some "disk full"; None] ]}
                 (word.of_Z 0) []) !! ingest.normalized
                     samples.lowerASCII samples.trimASCII "events"
               = Some (wal.mkWAL [] [None; Some "disk full"; None]))
    by (vm_compute; reflexivity).
  assert (H3 : Forall (fun kv => ingest.emptyVector (snd kv) = false)
                 (samples.sampleValues [Byte.x01])) by (repeat constructor).
  split; [reflexivity|]. split; [exact H2|]. split; [exact H3|].
  destruct (last_write_error_returned BigEndian samples.sampleValues samples.sampleBuild
              samples.lowerASCII samples.trimASCII (word.of_Z 7) [Byte.x09]
              (mkDB (mkDBOpts None 0)
                 {[ "events" := wal.mkWAL [] [None; Some "disk full"; None] ]}
                 (word.of_Z 0) [])
              "events" [Byte.x01] (wal.mkWAL [] [None; Some "disk full"; None])
              eq_refl H2 H3) as (db' & w' & Hcall & _).
  rewrite Hcall. reflexivity.
Defined.

Lemma other_streams_untouched_witness :
  "metrics" <> ingest.normalized samples.lowerASCII samples.trimASCII "events"
  /\ streams (fst (InsertRaw BigEndian samples.sampleValues samples.sampleBuild
      samples.lowerASCII samples.trimASCII
                    samples.withEvents "events" (word.of_Z 7) [Byte.x09] [Byte.x01]))
       !! "metrics"
     = streams samples.withEvents !! "metrics".
Proof.
  assert (H : "metrics" <> ingest.normalized
      samples.lowerASCII samples.trimASCII "events") by discriminate.
  split; [exact H|].
  exact (proj2 (proj2 (other_streams_untouched BigEndian samples.sampleValues
                         samples.sampleBuild samples.lowerASCII samples.trimASCII
                         (word.of_Z 7) [Byte.x09]
                         samples.withEvents "events" [Byte.x01])) "metrics" H).
Defined.

End journal_facts.

(* ================================================================== *)
(** * Properties of the plans and of the predicate, continued *)
(* ================================================================== *)

Module shape_facts.
Import planner shape.

Section Planner.
Variable Time : Type.
Variable IsZero : Time -> bool.
Variable UnixNano : Time -> Z.
Variable Add : Time -> Z -> Time.
Variables Field GroupBy OrderBy FieldSource Ctx Vals SubState : Type.
Variable GetAsOf : RowSource Time Field GroupBy OrderBy Ctx SubState -> Time.
Variable GetUntil : RowSource Time Field GroupBy OrderBy Ctx SubState -> Time.
Variable GetResolution : RowSource Time Field GroupBy OrderBy Ctx SubState -> Z.
Variable Parse :
  string -> FieldSource -> error + Query Time Field GroupBy OrderBy SubState.
Variable planSubQueries :
  Query Time Field GroupBy OrderBy SubState ->
  Opts Time Field GroupBy OrderBy FieldSource Ctx SubState ->
  error + RunSubQueries Ctx SubState.

#[local] Abbreviation Plan :=
  (planner.Plan Time IsZero UnixNano Add Field GroupBy OrderBy FieldSource Ctx SubState
     GetAsOf GetUntil GetResolution Parse planSubQueries).
#[local] Abbreviation planFrom :=
  (planFrom Time IsZero UnixNano Add Field GroupBy OrderBy FieldSource Ctx SubState
     GetAsOf GetUntil GetResolution planSubQueries).

Implicit Types (query : Query Time Field GroupBy OrderBy SubState)
  (source : RowSource Time Field GroupBy OrderBy Ctx SubState)
  (flat : FlatRowSource Time Field GroupBy OrderBy Ctx SubState)
  (opts : Opts Time Field GroupBy OrderBy FieldSource Ctx SubState).

Lemma planFrom_layers query source opts flat :
  sourced opts source -> planFrom query source opts = inr flat -> planned opts flat.
Proof.
  intros Hs. unfold planner.planFrom.
  set (q := resolveOffsets _ _ _ _ _ _ query (Now opts (From query))).
  set (regroup := asOfChanged _ _ _ _ _ _ _ _ _ q source
                  || untilChanged _ _ _ _ _ _ _ _ _ q source
                  || resolutionChanged _ _ _ _ _ _ _ q source
                  || negb (GroupByAll q) || HasSpecificFields q).
  clearbody regroup.
  assert (Hgen : forall filtered,
            (filtered = source
             \/ exists rs w label, filtered = Filter rs w label source) ->
            planned opts
              (let source' :=
                 if regroup
                 then Group (q_GroupBy q) (Fields q) (Resolution q) (AsOf q) (Until q)
                        filtered
                 else filtered in
               let flat := Flatten source' in
               let flat := if (0 <? length (q_OrderBy q))%nat
                           then Sort (q_OrderBy q) flat else flat in
               let flat := if 0 <? q_Offset q then Offset (q_Offset q) flat else flat in
               if 0 <? q_Limit q then Limit (q_Limit q) flat else flat)).
  { intros filtered Hf. cbn zeta.
    set (grouped := if regroup
                    then Group (q_GroupBy q) (Fields q) (Resolution q) (AsOf q)
                           (Until q) filtered
                    else filtered).
    set (sorted := if (0 <? length (q_OrderBy q))%nat
                   then Sort (q_OrderBy q) (Flatten grouped) else Flatten grouped).
    set (skipped := if 0 <? q_Offset q then Offset (q_Offset q) sorted else sorted).
    apply planned_layers with (source := source) (filtered := filtered)
      (grouped := grouped) (sorted := sorted) (skipped := skipped);
      [exact Hs|exact Hf|subst grouped|subst sorted|subst skipped|].
    - destruct regroup; [right; do 5 eexists; reflexivity|left; reflexivity].
    - destruct (Nat.ltb_spec 0 (length (q_OrderBy q))) as [Hl|Hl].
      + right. eexists. split; [|reflexivity].
        intros E. rewrite E in Hl. cbn in Hl. lia.
      + left. reflexivity.
    - destruct (Z.ltb_spec 0 (q_Offset q)) as [Hl|Hl].
      + right. eexists. split; [exact Hl|reflexivity].
      + left. reflexivity.
    - destruct (Z.ltb_spec 0 (q_Limit q)) as [Hl|Hl].
      + right. eexists. split; [exact Hl|reflexivity].
      + left. reflexivity. }
  destruct (Where q) as [w|].
  - destruct (planSubQueries q opts) as [e|rs]; [discriminate|].
    intros H; inversion H; subst. apply Hgen. right. do 3 eexists. reflexivity.
  - intros H; inversion H; subst. apply Hgen. left. reflexivity.
Qed.

(** X13: every pipeline [Plan] returns is made of layers in one
    order, from the inside out: the table [opts.GetTable] gives, or
    the plan of the FROM sub-query, itself of this shape, unflattened;
    at most one filter; at most one group; the flatten; at most one
    sort, and only by a non-empty ordering; at most one offset and at
    most one limit, and only positive ones. *)
Theorem plans_are_layered fuel : forall sqlString opts flat,
  Plan fuel sqlString opts = Some (inr flat) -> planned opts flat.
Proof.
  induction fuel as [|fuel IH]; intros sqlString opts flat H; [discriminate H|].
  cbn [planner.Plan] in H.
  destruct (Parse sqlString (o_FieldSource opts)) as [e|query]; [discriminate H|].
  destruct (FromSubQuery query) as [sub|].
  - destruct (Plan fuel (SQL sub) opts) as [[e|subSource]|] eqn:E; try discriminate H.
    inversion H as [H']. eapply planFrom_layers; [|exact H'].
    apply sourced_sub. eapply IH. exact E.
  - inversion H as [H']. eapply planFrom_layers; [|exact H']. apply sourced_table.
Qed.

(** X14: with a parser that finds the SQL of a FROM sub-query inside
    the SQL it is given, hence shorter, [Plan] returns on every SQL
    string, with a pipeline or an error; the nesting of FROM
    sub-queries it goes through is at most as deep as the string is
    long, and what it returns does not depend on the bound put on
    that depth once the bound is above the length. *)
Theorem plan_returns opts :
  (forall s q sub,
      Parse s (o_FieldSource opts) = inr q -> FromSubQuery q = Some sub ->
      (String.length (SQL sub) < String.length s)%nat) ->
  forall sqlString,
  exists r,
    Plan (S (String.length sqlString)) sqlString opts = Some r
    /\ forall fuel, (String.length sqlString < fuel)%nat ->
         Plan fuel sqlString opts = Some r.
Proof.
  intros Hwf sqlString.
  pose proof (planner_facts.Plan_terminates Time IsZero UnixNano Add Field GroupBy
                OrderBy FieldSource Ctx SubState GetAsOf GetUntil GetResolution
                Parse planSubQueries opts Hwf (S (String.length sqlString)) sqlString
                ltac:(lia)) as Hsome.
  destruct (Plan (S (String.length sqlString)) sqlString opts) as [r|] eqn:E;
    [|congruence].
  exists r. split; [reflexivity|].
  intros fuel Hlen.
  eapply (planner_facts.Plan_fuel_mono Time IsZero UnixNano Add Field GroupBy
            OrderBy FieldSource Ctx SubState GetAsOf GetUntil GetResolution
            Parse planSubQueries); [|exact E]. lia.
Qed.

End Planner.

Section Filter.
Variables Ctx Vals SubState : Type.
Variable runSubQueries : RunSubQueries Ctx SubState.
Variable where_ : Expr SubState.

Implicit Types (st : FilterState SubState) (c : call Ctx Vals)
  (calls : list (call Ctx Vals)) (cfg : config Ctx Vals SubState)
  (ctx : Ctx) (key : ByteMap) (vals : Vals) (args : list (Ctx * ByteMap * Vals)).

Lemma failed_insert calls : forall i c c',
  calls !! i = Some c ->
  (failed (<[i := c']> calls) + isFailed c = failed calls + isFailed c')%nat.
Proof.
  induction calls as [|x calls IH]; intros [|i] c c' H; try discriminate H.
  - inversion H; subst. cbn. lia.
  - change (calls !! i = Some c) in H.
    change (<[S i := c']> (x :: calls)) with (x :: <[i := c']> calls).
    specialize (IH i c c' H). cbn [failed]. lia.
Qed.

Lemma failed_entering args : failed (entering args) = O.
Proof. induction args as [|a args IH]; [reflexivity|exact IH]. Qed.

(** The evaluation of the WHERE clause returns no error. *)
Lemma evalWhere_no_error st key c :
  isFailed (at_ c (Done (evalWhere where_ st key))) = O.
Proof.
  unfold isFailed, evalWhere. cbn [c_pc at_].
  destruct (where_ (sub st) key); reflexivity.
Qed.

Lemma stepAt_failed cfg i :
  (failed (snd cfg) <= runs (fst cfg))%nat ->
  (failed (snd (stepAt runSubQueries where_ cfg i))
   <= runs (fst (stepAt runSubQueries where_ cfg i)))%nat.
Proof.
  destruct cfg as [st calls]. unfold stepAt. cbn [fst snd].
  destruct (calls !! i) as [c|] eqn:Hc; [|auto].
  intros HL. unfold stepCall.
  destruct (c_pc c) eqn:Hpc.
  - unfold CompareAndSwap.
    destruct (hasRunSubqueries st =? 0); cbn [fst snd runs].
    + pose proof (failed_insert calls i c (at_ c AtRun) Hc) as Hr.
      unfold isFailed in Hr. rewrite Hpc in Hr. cbn in Hr. lia.
    + pose proof (failed_insert calls i c (at_ c AtEval) Hc) as Hr.
      unfold isFailed in Hr. rewrite Hpc in Hr. cbn in Hr. lia.
  - unfold callRunSubQueries.
    destruct (runSubQueries (c_ctx c) (sub st)) as [err s'].
    assert (Hgen : forall p,
              (failed (<[i := at_ c p]> calls) <= S (runs st))%nat).
    { intros p. pose proof (failed_insert calls i c (at_ c p) Hc) as Hr.
      assert (isFailed (at_ c p) <= 1)%nat
        by (unfold isFailed; cbn; destruct p as [| | |[[? [?|]]|?]]; lia).
      lia. }
    destruct err as [[| |m]|]; cbn [fst snd runs]; apply Hgen.
  - cbn [fst snd].
    pose proof (failed_insert calls i c
                  (at_ c (Done (evalWhere where_ st (c_key c)))) Hc) as Hr.
    rewrite evalWhere_no_error in Hr. lia.
  - cbn [fst snd]. rewrite list_insert_id by exact Hc. exact HL.
Qed.

Lemma exec_failed schedule : forall cfg,
  (failed (snd cfg) <= runs (fst cfg))%nat ->
  (failed (snd (exec runSubQueries where_ cfg schedule))
   <= runs (fst (exec runSubQueries where_ cfg schedule)))%nat.
Proof.
  induction schedule as [|i schedule IH]; intros cfg HL; [exact HL|].
  cbn [exec fold_left]. apply IH, stepAt_failed, HL.
Qed.

(** X15: whatever the number of calls of the predicate of a filter
    and however their actions interleave, at most one call comes back
    with an error: only the call that ran the sub-queries can, and
    every other call, whether it entered before or after the
    sub-queries failed, evaluates the WHERE clause and returns
    without error. *)
Theorem at_most_one_error (s : SubState) args (schedule : list nat) :
  let cfg := exec runSubQueries where_ (fresh s, entering args) schedule in
  (failed (snd cfg) <= runs (fst cfg))%nat /\ (failed (snd cfg) <= 1)%nat.
Proof.
  cbn zeta.
  pose proof (planner_facts.exec_latch Ctx Vals SubState runSubQueries where_
                schedule _
                (planner_facts.entering_latch Ctx Vals SubState s args)) as HL.
  assert (H0 : (failed (snd (fresh s, entering args))
                <= runs (fst (fresh s, entering args)))%nat).
  { cbn [fst snd]. rewrite failed_entering. lia. }
  pose proof (exec_failed schedule _ H0) as HF.
  split; [exact HF|].
  destruct HL as [(_ & H & _)|(_ & H)]; lia.
Qed.

End Filter.

(** ** On the samples *)

Lemma plans_are_layered_witness :
  shape.Plan 2 "SELECT a FROM (SELECT * FROM t ORDER BY x LIMIT 2, 5) WHERE y > 0"
    plan_samples.opts
  = Some (inr (Flatten
                 (Group [] ["a"] 0 0 0
                    (Filter plan_samples.sampleRun plan_samples.sampleWhere "y > 0"
                       (Unflatten ["x"]
                          (Limit 5 (Offset 2 (Sort ["x"] (Flatten (Source "t"))))))))))
  /\ planned plan_samples.opts
       (Flatten
          (Group [] ["a"] 0 0 0
             (Filter plan_samples.sampleRun plan_samples.sampleWhere "y > 0"
                (Unflatten ["x"]
                   (Limit 5 (Offset 2 (Sort ["x"] (Flatten (Source "t"))))))))).
Proof.
  assert (H : shape.Plan 2
                "SELECT a FROM (SELECT * FROM t ORDER BY x LIMIT 2, 5) WHERE y > 0"
                plan_samples.opts
              = Some (inr (Flatten
                 (Group [] ["a"] 0 0 0
                    (Filter plan_samples.sampleRun plan_samples.sampleWhere "y > 0"
                       (Unflatten ["x"]
                          (Limit 5 (Offset 2 (Sort ["x"] (Flatten (Source "t"))))))))))
         ) by reflexivity.
  split; [exact H|].
  exact (plans_are_layered Z plan_samples.IsZero plan_samples.UnixNano Z.add
           string string string unit unit bool
           plan_samples.GetAsOf plan_samples.GetUntil plan_samples.GetResolution
           shape.Parse plan_samples.planSubQueries 2 _ plan_samples.opts _ H).
Defined.

Lemma sample_parser_shrinks s q sub :
  shape.Parse s tt = inr q -> FromSubQuery q = Some sub ->
  (String.length (SQL sub) < String.length s)%nat.
Proof.
  unfold shape.Parse, plan_samples.Parse.
  repeat match goal with
         | |- context [String.eqb s ?k] => destruct (String.eqb_spec s k); [subst s|]
         end;
    intros Hq Hsub; inversion Hq; subst; cbn in Hsub; inversion Hsub; subst; cbn; lia.
Qed.

Lemma plan_returns_witness :
  (forall s q sub,
      shape.Parse s (o_FieldSource plan_samples.opts) = inr q ->
      FromSubQuery q = Some sub ->
      (String.length (SQL sub) < String.length s)%nat)
  /\ exists r, forall fuel,
       (String.length "SELECT a FROM (SELECT * FROM t)" < fuel)%nat ->
       shape.Plan fuel "SELECT a FROM (SELECT * FROM t)" plan_samples.opts = Some r.
Proof.
  split; [exact sample_parser_shrinks|].
  destruct (plan_returns Z plan_samples.IsZero plan_samples.UnixNano Z.add
              string string string unit unit bool
              plan_samples.GetAsOf plan_samples.GetUntil plan_samples.GetResolution
              shape.Parse plan_samples.planSubQueries plan_samples.opts
              sample_parser_shrinks "SELECT a FROM (SELECT * FROM t)")
    as (r & _ & Hr).
  exists r. exact Hr.
Defined.

End shape_facts.

(* ================================================================== *)
(** * Properties of the query handlers *)
(* ================================================================== *)

Module web_facts.
Import web.

Section Handler.
Variables cacheEntry Cache Status Parsed request : Type.
Context `{EqDecision Status}.
Variables statusSuccess statusError statusPending : Status.
Variable status : option cacheEntry -> option Status.
Variable permalink : option cacheEntry -> option string.
Variable data : option cacheEntry -> option (list byte).
Variable error_ : option cacheEntry -> option (list byte).
Variable getByPermalink : Cache -> string -> option cacheEntry * option error * Cache.
Variable begin : Cache -> string -> option cacheEntry * option error * Cache.
Variable getOrBegin :
  Cache -> string -> option cacheEntry * bool * option error * Cache.
Variable Parse : string -> error + Parsed.
Variable From : Parsed -> string.
Variable authenticate : ResponseWriter -> request -> bool * ResponseWriter.
Variable RawQuery : request -> string.
Variable QueryUnescape : string -> string.
Variable CacheControl : request -> string.
Variable permalinkVar : request -> string.

#[local] Abbreviation state := (web.state cacheEntry Cache Parsed).
#[local] Abbreviation respondLoop :=
  (web.respondLoop cacheEntry Cache Status Parsed statusSuccess statusError
     statusPending status permalink data error_ getByPermalink).
#[local] Abbreviation respondWithCacheEntry :=
  (web.respondWithCacheEntry cacheEntry Cache Status Parsed statusSuccess statusError
     statusPending status permalink data error_ getByPermalink).
#[local] Abbreviation sqlQuery :=
  (web.sqlQuery cacheEntry Cache Status Parsed request statusSuccess statusError
     statusPending status permalink data error_ getByPermalink begin getOrBegin
     Parse authenticate RawQuery QueryUnescape CacheControl).
#[local] Abbreviation cachedQuery :=
  (web.cachedQuery cacheEntry Cache Status Parsed request statusSuccess statusError
     statusPending status permalink data error_ getByPermalink authenticate
     permalinkVar).

Implicit Types (st : state) (ce : option cacheEntry) (err : option error).

Lemma respondLoop_answered n : forall st ce err,
  answered n st (respondLoop n st ce err).
Proof.
  unfold answered.
  induction n as [|n IH]; intros st ce err; cbn [web.respondLoop].
  - destruct (permalink ce); cbn; (split; [reflexivity|split; [lia|]]);
      left; eexists; split; [reflexivity|auto | reflexivity|auto].
  - destruct err as [e|].
    { cbn. split; [reflexivity|split; [lia|]]. left. eexists. split; [reflexivity|auto]. }
    destruct (status ce) as [s|].
    2: { cbn. split; [reflexivity|split; [lia|]]. right. split; reflexivity. }
    destruct (decide (s = statusSuccess)).
    { unfold respondSuccess. destruct (data ce); cbn;
        (split; [reflexivity|split; [lia|]]);
        left; eexists; split; [reflexivity|auto | reflexivity|auto]. }
    destruct (decide (s = statusError)).
    { unfold respondError. destruct (error_ ce); cbn;
        (split; [reflexivity|split; [lia|]]);
        left; eexists; split; [reflexivity|auto | reflexivity|auto]. }
    destruct (decide (s = statusPending)).
    + destruct (permalink ce) as [p|].
      2: { cbn. split; [reflexivity|split; [lia|]]. right. split; reflexivity. }
      destruct (getByPermalink (cache (Sleep _ _ _ st)) p) as [[ce' err'] c'].
      specialize (IH (setCache _ _ _ (Sleep _ _ _ st) c') ce' err').
      cbn in IH. destruct IH as (I1 & I2 & I3).
      split; [exact I1|]. split; [lia|]. exact I3.
    + specialize (IH st ce None). destruct IH as (I1 & I2 & I3).
      split; [exact I1|]. split; [lia|]. exact I3.
Qed.

(** X16: however the cache answers, [respondWithCacheEntry] sends
    nothing on the queue of queries, pauses at most
    [timeout / pauseTime] times, 20 for the short timeout, and writes
    exactly one status code, 200, 500 or 202, unless a method of the
    cache entry panicked before any was written. *)
Theorem one_status_written st ce err timeout :
  answered (limitOf timeout) st (respondWithCacheEntry st ce err timeout)
  /\ limitOf shortTimeout = 20%nat
  /\ Z.of_nat (limitOf longTimeout) = 14400000.
Proof.
  split; [apply respondLoop_answered|]. split; [reflexivity|].
  unfold limitOf. rewrite Z2Nat.id; [reflexivity|].
  apply Z.quot_pos; [unfold longTimeout, Hour, Second, Millisecond|
                     unfold pauseTime, Millisecond]; lia.
Qed.

(** X17: as long as the cache keeps giving the same pending entry,
    without error, [respondWithCacheEntry] pauses [timeout / pauseTime]
    times, asking the cache after each pause, then writes 202 and the
    path of the cached result, "/cached/" and the permalink of the
    entry; nothing is logged and nothing is sent on the queue of
    queries. *)
Theorem pending_entry_accepted p ce st timeout :
  status ce = Some statusPending ->
  statusPending <> statusSuccess ->
  statusPending <> statusError ->
  permalink ce = Some p ->
  (forall c, exists c', getByPermalink c p = (ce, None, c')) ->
  exists c',
    respondWithCacheEntry st ce None timeout
    = (mkState (Write (WriteHeader (resp st) StatusAccepted) (Text ("/cached/" ++ p)))
         c' (queries st) (slept st + limitOf timeout) (logged st), Returned).
Proof.
  intros Hs Hn1 Hn2 Hp Hc. unfold web.respondWithCacheEntry.
  generalize (limitOf timeout) as n. intros n. revert st.
  induction n as [|n IH]; intros st; cbn [web.respondLoop].
  - rewrite Hp. exists (cache st). unfold setResp. cbn. rewrite Nat.add_0_r.
    reflexivity.
  - rewrite Hs.
    destruct (decide (statusPending = statusSuccess)); [congruence|].
    destruct (decide (statusPending = statusError)); [congruence|].
    destruct (decide (statusPending = statusPending)); [|congruence].
    rewrite Hp. destruct (Hc (cache (Sleep _ _ _ st))) as (c1 & E). rewrite E.
    destruct (IH (setCache _ _ _ (Sleep _ _ _ st) c1)) as (c' & E').
    exists c'. rewrite E'. cbn. rewrite Nat.add_succ_r. reflexivity.
Qed.

Lemma limitOf_pos timeout : pauseTime <= timeout -> exists n, limitOf timeout = S n.
Proof.
  intros H'. unfold limitOf.
  assert (1 <= Z.quot timeout pauseTime).
  { assert (0 < pauseTime) by (unfold pauseTime, Millisecond; lia).
    rewrite Z.quot_div_nonneg by lia. apply Z.div_le_lower_bound; lia. }
  exists (Z.to_nat (Z.quot timeout pauseTime - 1)).
  rewrite <- Z2Nat.inj_succ by lia. f_equal. lia.
Qed.

(** X18: a request that is let in and whose SQL does not parse is
    answered at once by [sqlQuery], whatever the timeout of at least
    one pause, hence by [runQuery], [asyncQuery] and [immediateQuery]:
    the error of the parser is logged, 500 is written with its
    message; the cache is not asked, nothing is sent on the queue of
    queries and no pause is taken. *)
Theorem unparsable_sql_answered st req r parseErr :
  authenticate (resp st) req = (true, r) ->
  Parse (QueryUnescape (RawQuery req)) = inl parseErr ->
  let answer :=
    (mkState (Write (WriteHeader r StatusInternalServerError) (Text parseErr))
       (cache st) (queries st) (slept st) (logged st ++ [parseErr])%list, Returned) in
  (forall timeout immediate,
      pauseTime <= timeout -> sqlQuery st req timeout immediate = answer)
  /\ sqlQuery st req longTimeout false = answer
  /\ sqlQuery st req shortTimeout false = answer
  /\ sqlQuery st req shortTimeout true = answer.
Proof.
  intros Ha Hp. cbn zeta.
  assert (Hgen : forall timeout immediate,
            pauseTime <= timeout ->
            sqlQuery st req timeout immediate
            = (mkState (Write (WriteHeader r StatusInternalServerError) (Text parseErr))
                 (cache st) (queries st) (slept st) (logged st ++ [parseErr])%list,
               Returned)).
  { intros timeout immediate Ht. unfold web.sqlQuery, web.handleQuery.
    rewrite Ha. cbn [negb]. rewrite Hp.
    unfold web.respondWithCacheEntry.
    destruct (limitOf_pos timeout Ht) as (n & ->). reflexivity. }
  split; [exact Hgen|].
  repeat split; apply Hgen;
    unfold pauseTime, longTimeout, shortTimeout, Hour, Second, Millisecond; lia.
Qed.

(** X19: [cachedQuery] only reads: however the cache answers it
    sends nothing on the queue of queries, and it pauses at most 20
    times.  For a permalink the cache has no entry for it writes 404,
    once, whatever error the cache gave with it, and takes no
    pause. *)
Theorem cached_query_reads_only st req :
  let r := cachedQuery st req in
  queries (fst r) = queries st
  /\ (slept (fst r) <= slept st + 20)%nat
  /\ (forall resp' err c,
        authenticate (resp st) req = (true, resp') ->
        getByPermalink (cache st) (permalinkVar req) = (None, err, c) ->
        r = (mkState (NotFound resp') c (queries st) (slept st) (logged st),
             Returned)).
Proof.
  cbn zeta. unfold web.cachedQuery.
  destruct (authenticate (resp st) req) as [[|] resp1] eqn:Ha; cbn [negb].
  2: { cbn. split; [reflexivity|]. split; [lia|]. intros ? ? ? E. discriminate E. }
  destruct (getByPermalink (cache (setResp _ _ _ st resp1)) (permalinkVar req))
    as [[ce err] c] eqn:Hg.
  cbn [setResp cache] in Hg.
  destruct ce as [e|].
  - pose proof (respondLoop_answered (limitOf shortTimeout)
                  (setCache _ _ _ (setResp _ _ _ st resp1) c) (Some e) err)
      as (A1 & A2 & _).
    unfold web.respondWithCacheEntry.
    change (limitOf shortTimeout) with 20%nat in *.
    cbn [setCache setResp queries slept] in A1, A2.
    split; [exact A1|]. split; [lia|].
    intros resp' err' c' E1 E2. rewrite Hg in E2. discriminate E2.
  - cbn. split; [reflexivity|]. split; [lia|].
    intros resp' err' c' E1 E2. rewrite Hg in E2.
    inversion E1; inversion E2; subst. reflexivity.
Qed.

(** ** Coalescing *)

#[local] Abbreviation coalesceLoop := (web.coalesceLoop cacheEntry Parsed From).
#[local] Abbreviation coalesceTurn := (web.coalesceTurn cacheEntry Parsed From).

Implicit Types (q : query cacheEntry Parsed)
  (events : list (option (query cacheEntry Parsed))).

Lemma coalesceLoop_taken table events : forall coalesced remaining,
  fst (coalesceLoop table events coalesced remaining)
  = ((coalesced
      ++ List.filter (fun x => String.eqb table (From (parsed x))) (taken events))%list,
     (remaining
      ++ List.filter (fun x => negb (String.eqb table (From (parsed x))))
           (taken events))%list).
Proof.
  induction events as [|[x|] events IH]; intros coalesced remaining;
    cbn [web.coalesceLoop taken List.filter fst].
  - rewrite !app_nil_r. reflexivity.
  - destruct (String.eqb table (From (parsed x))) eqn:E; cbn [negb];
      destruct (immediate x); cbn [List.filter fst];
      rewrite ?IH, ?app_nil_r, <- ?app_assoc; reflexivity.
  - rewrite !app_nil_r. reflexivity.
Qed.

Lemma filter_split_length {A} (f : A -> bool) (l : list A) :
  (length (List.filter f l) + length (List.filter (fun x => negb (f x)) l)
   = length l)%nat.
Proof.
  induction l as [|x l IH]; [reflexivity|].
  cbn [List.filter]. destruct (f x); cbn [negb length]; lia.
Qed.

(** X20: a turn of [coalesceQueries] from the query [q] takes the
    queries that arrive up to the first immediate one, itself taken,
    or until five seconds pass without any, and none if [q] is
    immediate.  It sends on, as one batch, [q] followed by those of
    them over the table of [q], and puts back the others: every query
    taken goes one way or the other, in the order of arrival, the
    batch holds only queries over one table, and an immediate [q]
    makes a batch of its own. *)
Theorem coalesce_turn_splits q events :
  let '(batch, remaining, _) := coalesceTurn q events in
  let arrived := if immediate q then [] else taken events in
  batch = q :: List.filter (fun x => String.eqb (From (parsed q)) (From (parsed x)))
                 arrived
  /\ remaining
     = List.filter (fun x => negb (String.eqb (From (parsed q)) (From (parsed x))))
         arrived
  /\ Forall (fun x => From (parsed x) = From (parsed q)) batch
  /\ Forall (fun x => From (parsed x) <> From (parsed q)) remaining
  /\ (length batch + length remaining = 1 + length arrived)%nat
  /\ (immediate q = true -> batch = [q] /\ remaining = []).
Proof.
  pose proof (coalesceLoop_taken (From (parsed q)) events [q] []) as Hl.
  unfold web.coalesceTurn.
  destruct (immediate q) eqn:Hi; cbn [negb].
  - cbn. repeat split; auto.
  - destruct (coalesceLoop (From (parsed q)) events [q] []) as [[batch remaining] rest].
    cbn [fst app] in Hl. inversion Hl; subst. cbn zeta.
    split; [reflexivity|]. split; [reflexivity|].
    split.
    { constructor; [reflexivity|]. apply Forall_forall. intros x Hx.
      apply list_elem_of_In, List.filter_In in Hx as (_ & Hx).
      apply String.eqb_eq in Hx. congruence. }
    split.
    { apply Forall_forall. intros x Hx.
      apply list_elem_of_In, List.filter_In in Hx as (_ & Hx).
      apply negb_true_iff, String.eqb_neq in Hx. congruence. }
    split; [|discriminate].
    cbn [length].
    pose proof (filter_split_length
                  (fun x => String.eqb (From (parsed q)) (From (parsed x)))
                  (taken events)) as Hn.
    cbn beta in Hn. lia.
Qed.

End Handler.

(** ** Eight bytes for a counter *)

(** X21: [intToBytes] gives 8 bytes from which the 64-bit value is
    read back, in either byte order of [encoding.Binary]; two 64-bit
    values with the same bytes are the same value. *)
Theorem intToBytes_faithful (Binary : encoding.ByteOrder) (i j : Z) :
  0 <= i < 2 ^ 64 ->
  0 <= j < 2 ^ 64 ->
  length (intToBytes Binary i) = 8%nat
  /\ encoding.Uint Binary 8 (intToBytes Binary i) = i
  /\ (intToBytes Binary i = intToBytes Binary j -> i = j).
Proof.
  intros Hi Hj. unfold intToBytes. cbn zeta.
  assert (R : forall v, 0 <= v < 2 ^ 64 ->
            encoding.Uint Binary 8 (encoding.PutUint Binary 8 (encoding.make 8) v) = v).
  { intros v Hv.
    rewrite <- (app_nil_r (encoding.PutUint Binary 8 (encoding.make 8) v)).
    rewrite encoding_facts.Uint_PutUint_app. apply Z.mod_small.
    change (2 ^ (Z.of_nat 8 * 8)) with (2 ^ 64). exact Hv. }
  split; [apply encoding_facts.length_PutUint_make|].
  split; [apply R, Hi|].
  intros E. rewrite <- (R i Hi), <- (R j Hj), E. reflexivity.
Qed.

(** ** On the samples *)

Lemma intToBytes_faithful_witness :
  0 <= 258 < 2 ^ 64
  /\ 0 <= 258 < 2 ^ 64
  /\ intToBytes encoding.BigEndian 258
     = [Byte.x00; Byte.x00; Byte.x00; Byte.x00; Byte.x00; Byte.x00; Byte.x01; Byte.x02]
  /\ encoding.Uint encoding.BigEndian 8 (intToBytes encoding.BigEndian 258) = 258.
Proof.
  assert (H1 : 0 <= 258 < 2 ^ 64) by lia.
  split; [exact H1|]. split; [exact H1|]. split; [reflexivity|].
  exact (proj1 (proj2 (intToBytes_faithful encoding.BigEndian 258 258 H1 H1))).
Defined.

Lemma pending_entry_accepted_witness :
  sampleStatus (Some O) = Some O
  /\ O <> 1%nat
  /\ O <> 2%nat
  /\ samplePermalink (Some O) = Some "abc"
  /\ (forall c, exists c', stuckCache c "abc" = (Some O, None, c'))
  /\ exists c',
       respondWithCacheEntry nat nat nat string 1%nat 2%nat O sampleStatus
         samplePermalink sampleData sampleError stuckCache blank (Some O) None
         shortTimeout
       = (mkState (mkResponse [StatusAccepted] [] [Text "/cached/abc"]) c' [] 20 [],
          Returned).
Proof.
  assert (H2 : O <> 1%nat) by discriminate.
  assert (H3 : O <> 2%nat) by discriminate.
  assert (H5 : forall c, exists c', stuckCache c "abc" = (Some O, None, c'))
    by (intros c; exists (S c); reflexivity).
  split; [reflexivity|]. split; [exact H2|]. split; [exact H3|].
  split; [reflexivity|]. split; [exact H5|].
  exact (pending_entry_accepted nat nat nat string 1%nat 2%nat O sampleStatus
           samplePermalink sampleData sampleError stuckCache "abc" (Some O) blank
           shortTimeout eq_refl H2 H3 eq_refl H5).
Defined.

Lemma unparsable_sql_answered_witness :
  letIn (resp blank) "SELEC" = (true, mkResponse [] [] [])
  /\ sampleParse "SELEC" = inl "syntax error"
  /\ sqlQuery nat nat nat string string 1%nat 2%nat O sampleStatus samplePermalink
       sampleData sampleError sampleCache sampleBegin sampleGetOrBegin sampleParse
       letIn (fun req => req) (fun raw => raw) (fun _ => "") blank "SELEC"
       shortTimeout false
     = (mkState (mkResponse [StatusInternalServerError] [] [Text "syntax error"])
          O [] O ["syntax error"], Returned).
Proof.
  split; [reflexivity|]. split; [reflexivity|].
  exact (proj1 (proj2 (proj2
           (unparsable_sql_answered nat nat nat string string 1%nat 2%nat O
              sampleStatus samplePermalink sampleData sampleError sampleCache
              sampleBegin sampleGetOrBegin sampleParse letIn (fun req => req)
              (fun raw => raw) (fun _ => "") blank "SELEC" (mkResponse [] [] [])
              "syntax error" eq_refl eq_refl)))).
Defined.

Lemma cached_query_reads_only_witness :
  letIn (resp blank) "abc" = (true, mkResponse [] [] [])
  /\ (fun (c : nat) (_ : string) => (@None nat, Some "evicted", c)) O "abc"
     = (None, Some "evicted", O)
  /\ cachedQuery nat nat nat string string 1%nat 2%nat O sampleStatus samplePermalink
       sampleData sampleError (fun c _ => (None, Some "evicted", c)) letIn
       (fun req => req) blank "abc"
     = (mkState (NotFound (mkResponse [] [] [])) O [] O [], Returned).
Proof.
  split; [reflexivity|]. split; [reflexivity|].
  exact (proj2 (proj2
           (cached_query_reads_only nat nat nat string string 1%nat 2%nat O
              sampleStatus samplePermalink sampleData sampleError
              (fun c _ => (None, Some "evicted", c)) letIn (fun req => req)
              blank "abc"))
           (mkResponse [] [] []) (Some "evicted") O eq_refl eq_refl).
Defined.

Lemma coalesce_turn_splits_witness :
  let q := @mkQuery nat string "SELECT * FROM t" "t" true None in
  let q' := @mkQuery nat string "SELECT * FROM t" "t" false None in
  immediate q = true
  /\ coalesceTurn nat string (fun from => from) q [Some q'; None] = ([q], [], [Some q'; None]).
Proof.
  cbn zeta. split; [reflexivity|].
  pose proof (coalesce_turn_splits nat string (fun from => from)
                (@mkQuery nat string "SELECT * FROM t" "t" true None)
                [Some (@mkQuery nat string "SELECT * FROM t" "t" false None); None])
    as Hs.
  destruct (coalesceTurn nat string (fun from => from)
              (@mkQuery nat string "SELECT * FROM t" "t" true None)
              [Some (@mkQuery nat string "SELECT * FROM t" "t" false None); None])
    as [[batch remaining] rest] eqn:E.
  destruct Hs as (_ & _ & _ & _ & _ & Hi).
  destruct (Hi eq_refl) as (-> & ->).
  inversion E; subst. reflexivity.
Defined.

(** A turn over queries of two tables: the batch holds those over
    t, the query over u is put back, and the query that arrives after
    the immediate one is left for the next turn. *)
Example coalesce_two_tables_run :
  let q (from : string) (immediate : bool) := @mkQuery nat string "" from immediate None in
  coalesceTurn nat string (fun from => from) (q "t" false)
    [Some (q "u" false); Some (q "t" false); Some (q "t" true); Some (q "t" false)]
  = ([q "t" false; q "t" false; q "t" true], [q "u" false], [Some (q "t" false)]).
Proof. reflexivity. Qed.

(** A success found at the second look: one pause, then 200 with the
    four headers and the data of the entry. *)
Example success_after_one_pause_run :
  respondWithCacheEntry nat nat nat string 1%nat 2%nat O sampleStatus samplePermalink
    sampleData sampleError sampleCache
    (mkState (mkResponse [] [] []) 1%nat [] O []) (Some O) None shortTimeout
  = (mkState
       (mkResponse [StatusOK]
          [("Content-Type", "application/json"); ("Expires", "0");
           ("Cache-control", "no-cache, no-store, must-revalidate");
           ("Content-Encoding", "gzip")]
          [Bytes [Byte.x01]])
       2%nat [] 1%nat [], Returned).
Proof. reflexivity. Qed.

End web_facts.
